(** * pedestrian_cam (RPi_26.01): rule engine, rate limiter, event store,
      GPIO pulse bridge, CGI reconnect loop and health sweep

    A shallow embedding of the Python sources

    - [log_rate_limit.py]  ([LogRateLimit])
    - [cgi_client.py]      ([CgiClient], the reconnect loop of [_BaseCgiThread.run])
    - [db_module.py]       ([DbModule])
    - [gpio_bridge.py]     ([GpioBridge])
    - [window_main.py]     ([WindowMain]: [_handle_people_count],
                            [_check_gpio_debounce], [check_thread_health])

    Conventions.  [time.time()] returns a float; clock readings and
    durations in seconds are rationals ([Q]).  Every call of [time.time()]
    made by a function is an explicit argument of its model, in the order
    in which the source reads the clock.  [int(time.time())] is an integer
    argument.  Python [int] is [Z].  A [dict] used as a map is a [gmap]; the
    [OrderedDict] of the rate limiter, whose order decides eviction, is an
    association list.  [dict.get(k)] of an event dictionary is an [option]
    field of a record. *)

From Stdlib Require Import QArith Lqa.
From stdpp Require Import gmap strings list fin_maps pretty sorting.

Open Scope Z_scope.

(* ===================================================================== *)
(** * log_rate_limit.py *)
(* ===================================================================== *)

Module LogRateLimit.

Section ordered_dict.
Context {K : Type} `{EqDecision K} {V : Type}.

(** [collections.OrderedDict]: keys in insertion order. *)

(** [d.get(key)] *)
Fixpoint od_get (key : K) (d : list (K * V)) : option V :=
  match d with
  | [] => None
  | (k, v) :: d' => if decide (k = key) then Some v else od_get key d'
  end.

(** [d[key] = v]: an existing key keeps its position, a new key goes last. *)
Fixpoint od_set (key : K) (v : V) (d : list (K * V)) : list (K * V) :=
  match d with
  | [] => [(key, v)]
  | (k, v0) :: d' =>
      if decide (k = key) then (k, v) :: d' else (k, v0) :: od_set key v d'
  end.

Definition od_remove (key : K) (d : list (K * V)) : list (K * V) :=
  filter (λ kv, kv.1 ≠ key) d.

(** [d.move_to_end(key)]; the source only calls it on a key just set. *)
Definition od_move_to_end (key : K) (d : list (K * V)) : list (K * V) :=
  match od_get key d with
  | Some v => od_remove key d ++ [(key, v)]
  | None => d
  end.

(** [d.popitem(last=False)]: drop the oldest entry. *)
Definition od_popitem_first (d : list (K * V)) : list (K * V) := tail d.
End ordered_dict.

Section limiter.
Context {K : Type} `{Countable K}.

(** [class LogRateLimiter]; the lock is not modelled, a call is atomic. *)
Record LogRateLimiter := mkLimiter {
  _last_log_time : list (K * Q);      (* OrderedDict key -> timestamp *)
  _suppressed_counts : gmap K Z;      (* key -> count *)
  _max_keys : Z
}.

(** [LogRateLimiter.__init__] *)
Definition init (max_keys : Z) : LogRateLimiter :=
  mkLimiter [] ∅ max_keys.

(** [LogRateLimiter.should_log]; [now] is the reading of [time.time()]. *)
Definition should_log (now : Q) (key : K) (interval_sec : Q)
    (self : LogRateLimiter) : (bool * Z) * LogRateLimiter :=
  let last_time := default 0%Q (od_get key (_last_log_time self)) in
  if Qlt_le_dec (now - last_time) interval_sec then
    let n := default 0 (_suppressed_counts self !! key) + 1 in
    ((false, 0),
     mkLimiter (_last_log_time self)
               (<[key := n]> (_suppressed_counts self))
               (_max_keys self))
  else
    let suppressed := default 0 (_suppressed_counts self !! key) in
    let counts := delete key (_suppressed_counts self) in
    let times := od_move_to_end key (od_set key now (_last_log_time self)) in
    let times :=
      if Z.of_nat (length times) >? _max_keys self
      then od_popitem_first times else times in
    ((true, suppressed), mkLimiter times counts (_max_keys self)).

(** ** Call histories

    A history lists the calls made so far with their results, the most
    recent first.  The functions below only observe a history; they are
    what the statements about "the last allowed call" and "the calls
    suppressed since" refer to. *)

Record call := mkCall { c_now : Q; c_key : K; c_interval : Q }.

Definition history := list (call * (bool * Z)).

Definition step (st : LogRateLimiter * history) (c : call)
    : LogRateLimiter * history :=
  let r := should_log (c_now c) (c_key c) (c_interval c) st.1 in
  (r.2, (c, r.1) :: st.2).

Definition run (cs : list call) (st : LogRateLimiter * history)
    : LogRateLimiter * history :=
  fold_left step cs st.

Definition tracked (key : K) (s : LogRateLimiter) : Prop :=
  is_Some (od_get key (_last_log_time s)).

Definition never_called (key : K) (h : history) : Prop :=
  Forall (λ e, c_key e.1 ≠ key) h.

(** Clock reading of the latest allowed call for [key]. *)
Fixpoint last_allowed_time (key : K) (h : history) : option Q :=
  match h with
  | [] => None
  | (c, (allowed, _)) :: h' =>
      if decide (c_key c = key) then
        if allowed then Some (c_now c) else last_allowed_time key h'
      else last_allowed_time key h'
  end.

(** Number of suppressed calls for [key] after its latest allowed call. *)
Fixpoint suppressed_since (key : K) (h : history) : Z :=
  match h with
  | [] => 0
  | (c, (allowed, _)) :: h' =>
      if decide (c_key c = key) then
        if allowed then 0 else suppressed_since key h' + 1
      else suppressed_since key h'
  end.

(** Sequence number (1 for the first call) of the latest allowed call for
    [key]; 0 when there is none.  A larger rank is a more recent call. *)
Fixpoint rank (key : K) (h : history) : nat :=
  match h with
  | [] => 0%nat
  | (c, (allowed, _)) :: h' =>
      if decide (c_key c = key) then
        if allowed then S (length h') else rank key h'
      else rank key h'
  end.

(** [older h a b]: the key of entry [a] was last allowed before that of [b]. *)
Definition older (h : history) (a b : K * Q) : Prop :=
  (rank a.1 h < rank b.1 h)%nat.

(** What holds between a limiter and the history of the calls made on it:
    the counters count the suppressed calls, a timestamp that is present
    is that of the last allowed call, and the ordered dictionary lists the
    keys from the least to the most recently allowed. *)
Record consistent (s : LogRateLimiter) (h : history) : Prop := mkConsistent {
  cons_counts : ∀ k, default 0 (_suppressed_counts s !! k) = suppressed_since k h;
  cons_times : ∀ k t,
    od_get k (_last_log_time s) = Some t → last_allowed_time k h = Some t;
  cons_order : StronglySorted (older h) (_last_log_time s)
}.
End limiter.

Arguments LogRateLimiter K {_ _}.
Arguments history K : clear implicits.
Arguments call K : clear implicits.

End LogRateLimit.

(* ===================================================================== *)
(** * cgi_client.py: the reconnect loop of [_BaseCgiThread.run] *)
(* ===================================================================== *)

Module CgiClient.

Inductive exn :=
| ReadTimeout        (* requests.exceptions.ReadTimeout *)
| OtherException.    (* any other Exception *)

(** How the body of the [with session.get(...)] block ended. *)
Inductive stream_end :=
| Returned
| Raised (e : exn).

(** What one pass through the [try] met: [session.get] raised, or it gave
    a response; for status 200 [_consume_stream] then accepted [reads]
    chunks before the block ended. *)
Inductive attempt :=
| GetRaised (e : exn)
| Response (status_code : Z) (reads : nat) (fin : stream_end).

(** One pass of the [while] loop.  [stop] is [_stop_event.is_set()] as
    read after the [try]. *)
Record iteration := mkIter { outcome : attempt; stop : bool }.

(** The tail of the loop body:
    [if not stop: time.sleep(backoff); backoff = min(backoff * 2, 30)]. *)
Definition sleep_and_double (stop : bool) (backoff : Z) : list Z * Z :=
  if stop then ([], backoff) else ([backoff], Z.min (backoff * 2) 30).

(** One pass: the sleeps performed and the next value of [backoff]. *)
Definition loop_body (it : iteration) (backoff : Z) : list Z * Z :=
  match outcome it with
  | GetRaised ReadTimeout => ([], backoff)                  (* continue *)
  | GetRaised OtherException => sleep_and_double (stop it) backoff
  | Response status_code _ fin =>
      if status_code =? 200 then
        let backoff := 1 in
        match fin with
        | Returned => sleep_and_double (stop it) backoff
        | Raised ReadTimeout => ([], backoff)               (* continue *)
        | Raised OtherException => sleep_and_double (stop it) backoff
        end
      else sleep_and_double (stop it) backoff
  end.

(** The loop over the passes it makes; it leaves at the first pass after
    which the stop flag is set. *)
Fixpoint run_from (its : list iteration) (backoff : Z) : list Z * Z :=
  match its with
  | [] => ([], backoff)
  | it :: its' =>
      let '(sl, b) := loop_body it backoff in
      if stop it then (sl, b)
      else let '(sl', b') := run_from its' b in (sl ++ sl', b')
  end.

(** [run]: [backoff = 1] on entry. *)
Definition run (its : list iteration) : list Z * Z := run_from its 1.

(** A pass that ends in the sleep without having seen status 200. *)
Definition failure (a : attempt) : Prop :=
  match a with
  | GetRaised OtherException => True
  | GetRaised ReadTimeout => False
  | Response status_code _ _ => status_code ≠ 200
  end.

(** The spec's notion of a successful connection: HTTP 200 and at least
    one accepted read. *)
Definition success_with_read (a : attempt) : bool :=
  match a with
  | Response status_code reads _ => (status_code =? 200) && (0 <? reads)%nat
  | GetRaised _ => false
  end.

End CgiClient.

(* ===================================================================== *)
(** * db_module.py *)
(* ===================================================================== *)

Module DbModule.

(** A timestamp string.  The source only formats and parses it with
    ["%Y-%m-%d %H:%M:%S"] in local time: a well-formed string stands for
    the epoch second it parses to, anything else makes [strptime] raise
    [ValueError]. *)
Inductive ts_string :=
| TsFormatted (epoch : Z)
| TsOther (raw : string).

(** The event dictionary; a key that is absent is [None]. *)
Record event_data := mkEvent {
  ev_type : option string;        (* 'type' *)
  ev_camera_key : option string;  (* 'camera_key' *)
  ev_area_id : option Z;          (* 'area_id' *)
  ev_count : option Z;            (* 'count' *)
  ev_action : option string;      (* 'action' *)
  ev_ts : option ts_string;       (* 'ts' *)
  ev_ts_epoch : option Z;         (* 'ts_epoch' *)
  ev_prev_value : option Z;       (* 'prev_value' *)
  ev_delta : option Z;            (* 'delta' *)
  ev_message : option string      (* 'message' *)
}.

(** [event_data['ts'] = ts; event_data['ts_epoch'] = ts_epoch] *)
Definition set_ts (ts : ts_string) (ts_epoch : Z) (e : event_data) : event_data :=
  mkEvent (ev_type e) (ev_camera_key e) (ev_area_id e) (ev_count e)
          (ev_action e) (Some ts) (Some ts_epoch) (ev_prev_value e)
          (ev_delta e) (ev_message e).

(** Rows.  [payload_json] is [json.dumps] of the normalised dictionary;
    the row keeps the dictionary itself. *)
Record delta_row := mkDeltaRow {   (* people_delta_events *)
  d_ts : ts_string;
  d_ts_epoch : Z;
  d_camera_key : string;
  d_area_id : Z;
  d_delta : Z;
  d_payload_json : event_data
}.

Record log_row := mkLogRow {       (* event_logs *)
  l_ts : ts_string;
  l_ts_epoch : Z;
  l_camera_key : string;
  l_event_type : string;
  l_area_id : option Z;
  l_message : string;
  l_payload_json : event_data
}.

Record legacy_row := mkLegacyRow { (* events: the table before the split *)
  e_ts_epoch : option Z;           (* NULL where the backfill found no date *)
  e_payload_json : string
}.

(** A table with [INTEGER PRIMARY KEY AUTOINCREMENT]: rows with their id
    in insertion order, and the largest id ever handed out. *)
Record table (R : Type) := mkTable { rows : list (Z * R); seq_id : Z }.
Arguments mkTable {R}.
Arguments rows {R}.
Arguments seq_id {R}.

Definition empty_table {R} : table R := mkTable [] 0.

(** [INSERT INTO t ... VALUES ...] *)
Definition sql_insert {R} (r : R) (t : table R) : table R :=
  mkTable (rows t ++ [(seq_id t + 1, r)]) (seq_id t + 1).

(** [DELETE FROM t WHERE cond]; also gives [cursor.rowcount]. *)
Definition sql_delete {R} (cond : R → bool) (t : table R) : Z * table R :=
  let kept := List.filter (λ ir, negb (cond ir.2)) (rows t) in
  (Z.of_nat (length (rows t)) - Z.of_nat (length kept),
   mkTable kept (seq_id t)).

(** SQL [ts_epoch < ?]: a NULL compares as not true. *)
Definition sql_lt (v : option Z) (bound : Z) : bool :=
  match v with Some x => x <? bound | None => false end.

Record database := mkDb {
  people_delta_events : table delta_row;
  event_logs : table log_row;
  events : table legacy_row
}.

(** [insert_event].  [now_epoch] is [int(time.time())].  The sqlite
    statements are taken to succeed; the [except] branch, which logs and
    drops the record, is outside the model. *)
Definition insert_event (now_epoch : Z) (event_data : event_data)
    (db : database) : database :=
  let event_type := default "UNKNOWN"%string (ev_type event_data) in
  if decide (event_type = "DEBUG"%string) then db else
  let ts_epoch :=
    match ev_ts_epoch event_data with
    | Some e => e
    | None =>
        match ev_ts event_data with
        | Some (TsFormatted e) => e
        | Some (TsOther _) => now_epoch     (* ValueError, or empty string *)
        | None => now_epoch
        end
    end in
  let ts := TsFormatted ts_epoch in
  let event_data := set_ts ts ts_epoch event_data in
  let camera_key := default ""%string (ev_camera_key event_data) in
  let area_id := ev_area_id event_data in
  let message := default ""%string (ev_message event_data) in
  let payload_json := event_data in
  if decide (event_type = "PEOPLE_COUNT"%string) then
    match area_id with
    | None => db
    | Some area_id =>
        let delta :=
          match ev_delta event_data with
          | Some d => Some d
          | None =>
              match ev_prev_value event_data, ev_count event_data with
              | Some prev, Some curr => Some (curr - prev)
              | _, _ => None
              end
          end in
        match delta with
        | Some delta =>
            if 0 <? delta then
              mkDb (sql_insert (mkDeltaRow ts ts_epoch camera_key area_id
                                  delta payload_json)
                      (people_delta_events db))
                   (event_logs db) (events db)
            else db
        | None => db
        end
    end
  else
    mkDb (people_delta_events db)
         (sql_insert (mkLogRow ts ts_epoch camera_key event_type area_id
                        message payload_json)
            (event_logs db))
         (events db).

(** [purge_old_events]: the deleted-row count and the database. *)
Definition purge_old_events (now_epoch : Z) (retention_days : Z)
    (db : database) : Z * database :=
  let deleted_count := 0 in
  let cutoff_epoch := now_epoch - (retention_days * 24 * 3600) in
  let '(c1, t1) :=
    sql_delete (λ r, d_ts_epoch r <? cutoff_epoch) (people_delta_events db) in
  let deleted_count := deleted_count + c1 in
  let '(c2, t2) :=
    sql_delete (λ r, l_ts_epoch r <? cutoff_epoch) (event_logs db) in
  let deleted_count := deleted_count + c2 in
  let '(c3, t3) :=
    sql_delete (λ r, sql_lt (e_ts_epoch r) cutoff_epoch) (events db) in
  let deleted_count := deleted_count + c3 in
  (deleted_count, mkDb t1 t2 t3).

(** ** The asynchronous writer *)

(** A purge callback is named by a string; calling it is recorded. *)
Inductive job :=
| Persist (event_data : event_data)
| Purge (retention_days : Z) (callback : option string).

Record callback_call := mkCallback {
  cb_name : string; cb_deleted_count : Z; cb_retention_days : Z
}.

(** The module globals [_db_queue], [_db_running] and the database file. *)
Record store := mkStore {
  _db_running : bool;
  _db_queue : list job;               (* queue.Queue(): unbounded FIFO *)
  db_file : database;
  callbacks : list callback_call      (* callback invocations, oldest first *)
}.

Definition run_purge (now_epoch : Z) (retention_days : Z)
    (callback : option string) (db : database) (cbs : list callback_call)
    : database * list callback_call :=
  let '(deleted_count, db') := purge_old_events now_epoch retention_days db in
  (db', match callback with
        | Some cb => cbs ++ [mkCallback cb deleted_count retention_days]
        | None => cbs
        end).

(** [enqueue_event] *)
Definition enqueue_event (now_epoch : Z) (event_data : event_data)
    (s : store) : store :=
  if _db_running s then
    mkStore (_db_running s) (_db_queue s ++ [Persist event_data])
            (db_file s) (callbacks s)
  else
    mkStore (_db_running s) (_db_queue s)
            (insert_event now_epoch event_data (db_file s)) (callbacks s).

(** [enqueue_purge] *)
Definition enqueue_purge (now_epoch : Z) (retention_days : Z)
    (callback : option string) (s : store) : store :=
  if _db_running s then
    mkStore (_db_running s) (_db_queue s ++ [Purge retention_days callback])
            (db_file s) (callbacks s)
  else
    let '(db', cbs) :=
      run_purge now_epoch retention_days callback (db_file s) (callbacks s) in
    mkStore (_db_running s) (_db_queue s) db' cbs.

(** One job handled by [_db_writer_loop]. *)
Definition do_job (now_epoch : Z) (j : job) (db : database)
    (cbs : list callback_call) : database * list callback_call :=
  match j with
  | Purge retention_days callback =>
      run_purge now_epoch retention_days callback db cbs
  | Persist event_data => (insert_event now_epoch event_data db, cbs)
  end.

(** One pass of [_db_writer_loop] that finds a job in the queue. *)
Definition writer_step (now_epoch : Z) (s : store) : store :=
  match _db_queue s with
  | [] => s                                           (* queue.Empty *)
  | j :: q =>
      let '(db', cbs) := do_job now_epoch j (db_file s) (callbacks s) in
      mkStore (_db_running s) q db' cbs
  end.

(** The writer running until the queue is empty. *)
Fixpoint drain_jobs (now_epoch : Z) (q : list job) (db : database)
    (cbs : list callback_call) : database * list callback_call :=
  match q with
  | [] => (db, cbs)
  | j :: q' =>
      let '(db', cbs') := do_job now_epoch j db cbs in
      drain_jobs now_epoch q' db' cbs'
  end.

Definition writer_drain (now_epoch : Z) (s : store) : store :=
  let '(db', cbs) := drain_jobs now_epoch (_db_queue s) (db_file s) (callbacks s) in
  mkStore (_db_running s) [] db' cbs.


(** A legacy row is old when its [ts_epoch] is a number strictly below
    the cutoff. *)
Definition old (cutoff : Z) (ts_epoch : option Z) : Prop :=
  ∃ e, ts_epoch = Some e ∧ e < cutoff.

Global Instance old_dec cutoff ts_epoch : Decision (old cutoff ts_epoch).
Proof.
  refine (match ts_epoch as o return Decision (old cutoff o) with
          | Some e => cast_if (decide (e < cutoff))
          | None => right _
          end); unfold old.
  - eauto.
  - intros (e' & [= <-] & Hlt). lia.
  - intros (e' & [=] & _).
Defined.

End DbModule.

(* ===================================================================== *)
(** * gpio_bridge.py *)
(* ===================================================================== *)

Module GpioBridge.
Import LogRateLimit.

(** [cfg.get_gpio_config()] *)
Record gpio_config := mkConf {
  enable : bool;
  pulse_ms : Z;
  retrigger_policy : string;
  console_log : bool
}.

(** The calls of [_log] made by [trigger_pulse] and [_pulse_worker]. *)
Inductive log_entry :=
| PulseIgnored (active_until : Q) (area_id : Z) (suppressed : Z)
| WorkerRestarted (area_id : Z)
| PulseRestarted (area_id : Z) (new_end : Q) (suppressed : Z)
| PulseStarted (area_id : Z) (pulse_sec : Q)
| OutputError
| LowError.

(** [class GpioBridge], with the level of pin 17 and whether
    [GPIO.output] raises. *)
Record GpioBridge := mkBridge {
  cfg : gpio_config;
  has_gpio : bool;            (* HAS_GPIO *)
  is_connected : bool;
  _pulse_end_time : Q;
  worker_alive : bool;        (* _worker_thread is not None and is_alive() *)
  _stop_worker : bool;
  pin_high : bool;            (* output level of GPIO_OUTPUT_PIN *)
  output_raises : bool;       (* GPIO.output(...) raises *)
  log_lines : list log_entry  (* oldest first *)
}.

Definition set_pulse (pulse_end : Q) (alive stop_worker high : bool)
    (lines : list log_entry) (self : GpioBridge) : GpioBridge :=
  mkBridge (cfg self) (has_gpio self) (is_connected self) pulse_end alive
           stop_worker high (output_raises self) lines.

Definition _log (e : log_entry) (self : GpioBridge) : GpioBridge :=
  set_pulse (_pulse_end_time self) (worker_alive self) (_stop_worker self)
            (pin_high self) (log_lines self ++ [e]) self.

(** Start the worker thread when there is none alive. *)
Definition ensure_worker (self : GpioBridge) : GpioBridge :=
  if worker_alive self then self
  else set_pulse (_pulse_end_time self) true false (pin_high self)
                 (log_lines self) self.

(** [trigger_pulse].  [now] is the reading of [time.time()] at the top,
    [now_log] the one made inside [should_log]; [lim] is the global
    limiter of [log_rate_limit]. *)
Definition trigger_pulse (now now_log : Q) (area_id : Z)
    (lim : LogRateLimiter string) (self : GpioBridge)
    : LogRateLimiter string * GpioBridge :=
  let conf := cfg self in
  if negb (enable conf) then (lim, self) else
  if negb (has_gpio self) then (lim, self) else
  if negb (is_connected self) then (lim, self) else
  let pulse_sec := (inject_Z (pulse_ms conf) / 1000)%Q in
  let policy := retrigger_policy conf in
  let new_end_time := (now + pulse_sec)%Q in
  (* is_active = self._pulse_end_time > now *)
  if Qlt_le_dec now (_pulse_end_time self) then
    if decide (policy = "ignore"%string) then
      let '((allow, suppressed), lim) :=
        should_log now_log ("gpio_pulse_ignored_area" +:+ pretty area_id) 60 lim in
      (lim, if allow
            then _log (PulseIgnored (_pulse_end_time self) area_id suppressed) self
            else self)
    else
      let self := set_pulse new_end_time (worker_alive self) (_stop_worker self)
                            (pin_high self) (log_lines self) self in
      let self :=
        if worker_alive self then self
        else _log (WorkerRestarted area_id) (ensure_worker self) in
      let '((allow, suppressed), lim) :=
        should_log now_log ("gpio_pulse_restarted_area" +:+ pretty area_id) 60 lim in
      (lim, if allow
            then _log (PulseRestarted area_id (_pulse_end_time self) suppressed) self
            else self)
  else
    let self := set_pulse new_end_time (worker_alive self) (_stop_worker self)
                          (pin_high self) (log_lines self) self in
    if output_raises self then (lim, _log OutputError self)
    else
      let self := set_pulse (_pulse_end_time self) (worker_alive self)
                            (_stop_worker self) true (log_lines self) self in
      let self := _log (PulseStarted area_id pulse_sec) self in
      (lim, ensure_worker self).

(** One pass of the [while] loop of [_pulse_worker], run by the worker
    when it is alive; [now] is its reading of [time.time()]. *)
Definition pulse_worker_pass (now : Q) (self : GpioBridge) : GpioBridge :=
  if negb (worker_alive self) then self else
  if _stop_worker self then
    set_pulse (_pulse_end_time self) false (_stop_worker self)
              (pin_high self) (log_lines self) self
  else
    let remaining := (_pulse_end_time self - now)%Q in
    if Qlt_le_dec 0 remaining then self            (* sleep, next pass *)
    else
      let self :=
        if output_raises self then _log LowError self
        else set_pulse (_pulse_end_time self) (worker_alive self)
                       (_stop_worker self) false (log_lines self) self in
      set_pulse 0%Q false (_stop_worker self) (pin_high self)
                (log_lines self) self.

End GpioBridge.

(* ===================================================================== *)
(** * window_main.py: the rule engine and the health sweep of [WindowSum] *)
(* ===================================================================== *)

Module WindowMain.
Import LogRateLimit DbModule.

(** A [_BaseCgiThread] as the sweep sees it: [isRunning()], and how often
    [restart()] was called on it. *)
Record subscriber := mkSub { isRunning : bool; restart_calls : nat }.

(** [restart()]: [stop(); wait(1000); start()] leaves a live thread. *)
Definition restart (t : subscriber) : subscriber :=
  mkSub true (S (restart_calls t)).

Record threads := mkThreads {
  people : option subscriber;    (* threads.get("people") *)
  stay : option subscriber       (* threads.get("stay") *)
}.

(** The state of [WindowSum] that the modelled methods read or write,
    with the module globals they reach. *)
Record WindowSum := mkWindow {
  _closing : bool;
  chk_show_debug : bool;  (* ui.chk_show_debug.isChecked() *)
  event_cooldown_sec : Z;
  enabled_areas : gmap string (gmap string bool);  (* enabled_areas of state_mgr *)
  cameras : list (string * string);  (* cfg_mgr.get_cameras(): key and ip *)
  camera_items : gmap string (gmap Z bool);  (* the area LEDs of each camera card *)
  _last_people_total : gmap string (gmap Z Z);  (* {camera_key: {area_id: count}} *)
  realtime_counts : gmap string (gmap Z Z);  (* {camera_key: {area_id: count}} *)
  ui_dirty : bool;
  last_event_timestamps : gmap (string * Z) Q;  (* {(camera_key, area_id): timestamp} *)
  gpio_last_trigger_ts : gmap (string * Z * string) Q;  (* {(camera_key, area_id, type): timestamp} *)
  total_events : Z;
  list_events : list string;  (* ui.list_events, oldest first *)
  gpio_text : list string;  (* ui.gpio_text, oldest first *)
  gpio_bridge : GpioBridge.GpioBridge;
  event_threads : list (string * threads);  (* {camera_key: {"people": t1, "stay": t2}}, in insertion order *)
  _last_restart_time_event : gmap string Q;  (* {camera_key: timestamp} *)
  camera_conn_status : gmap string bool;  (* {camera_key: bool} *)
  _pc_restart_inflight : gmap string bool;
  logger_info : list string;  (* lines given to logger.info, oldest first *)
  db : DbModule.store;  (* the globals of db_module *)
  _limiter : LogRateLimiter string  (* log_rate_limit._limiter *)
}.

Definition set_last_people_total (v : gmap string (gmap Z Z)) (w : WindowSum) : WindowSum :=
  mkWindow (_closing w) (chk_show_debug w) (event_cooldown_sec w)
    (enabled_areas w) (cameras w) (camera_items w) v (realtime_counts w)
    (ui_dirty w) (last_event_timestamps w) (gpio_last_trigger_ts w)
    (total_events w) (list_events w) (gpio_text w) (gpio_bridge w)
    (event_threads w) (_last_restart_time_event w) (camera_conn_status w)
    (_pc_restart_inflight w) (logger_info w) (db w) (_limiter w).

Definition set_realtime_counts (v : gmap string (gmap Z Z)) (w : WindowSum) : WindowSum :=
  mkWindow (_closing w) (chk_show_debug w) (event_cooldown_sec w)
    (enabled_areas w) (cameras w) (camera_items w) (_last_people_total w)
    v (ui_dirty w) (last_event_timestamps w) (gpio_last_trigger_ts w)
    (total_events w) (list_events w) (gpio_text w) (gpio_bridge w)
    (event_threads w) (_last_restart_time_event w) (camera_conn_status w)
    (_pc_restart_inflight w) (logger_info w) (db w) (_limiter w).

Definition set_ui_dirty (v : bool) (w : WindowSum) : WindowSum :=
  mkWindow (_closing w) (chk_show_debug w) (event_cooldown_sec w)
    (enabled_areas w) (cameras w) (camera_items w) (_last_people_total w)
    (realtime_counts w) v (last_event_timestamps w) (gpio_last_trigger_ts
    w) (total_events w) (list_events w) (gpio_text w) (gpio_bridge w)
    (event_threads w) (_last_restart_time_event w) (camera_conn_status w)
    (_pc_restart_inflight w) (logger_info w) (db w) (_limiter w).

Definition set_last_event_timestamps (v : gmap (string * Z) Q) (w : WindowSum) : WindowSum :=
  mkWindow (_closing w) (chk_show_debug w) (event_cooldown_sec w)
    (enabled_areas w) (cameras w) (camera_items w) (_last_people_total w)
    (realtime_counts w) (ui_dirty w) v (gpio_last_trigger_ts w)
    (total_events w) (list_events w) (gpio_text w) (gpio_bridge w)
    (event_threads w) (_last_restart_time_event w) (camera_conn_status w)
    (_pc_restart_inflight w) (logger_info w) (db w) (_limiter w).

Definition set_gpio_last_trigger_ts (v : gmap (string * Z * string) Q) (w : WindowSum) : WindowSum :=
  mkWindow (_closing w) (chk_show_debug w) (event_cooldown_sec w)
    (enabled_areas w) (cameras w) (camera_items w) (_last_people_total w)
    (realtime_counts w) (ui_dirty w) (last_event_timestamps w) v
    (total_events w) (list_events w) (gpio_text w) (gpio_bridge w)
    (event_threads w) (_last_restart_time_event w) (camera_conn_status w)
    (_pc_restart_inflight w) (logger_info w) (db w) (_limiter w).

Definition set_total_events (v : Z) (w : WindowSum) : WindowSum :=
  mkWindow (_closing w) (chk_show_debug w) (event_cooldown_sec w)
    (enabled_areas w) (cameras w) (camera_items w) (_last_people_total w)
    (realtime_counts w) (ui_dirty w) (last_event_timestamps w)
    (gpio_last_trigger_ts w) v (list_events w) (gpio_text w) (gpio_bridge
    w) (event_threads w) (_last_restart_time_event w) (camera_conn_status
    w) (_pc_restart_inflight w) (logger_info w) (db w) (_limiter w).

Definition set_list_events (v : list string) (w : WindowSum) : WindowSum :=
  mkWindow (_closing w) (chk_show_debug w) (event_cooldown_sec w)
    (enabled_areas w) (cameras w) (camera_items w) (_last_people_total w)
    (realtime_counts w) (ui_dirty w) (last_event_timestamps w)
    (gpio_last_trigger_ts w) (total_events w) v (gpio_text w) (gpio_bridge
    w) (event_threads w) (_last_restart_time_event w) (camera_conn_status
    w) (_pc_restart_inflight w) (logger_info w) (db w) (_limiter w).

Definition set_gpio_text (v : list string) (w : WindowSum) : WindowSum :=
  mkWindow (_closing w) (chk_show_debug w) (event_cooldown_sec w)
    (enabled_areas w) (cameras w) (camera_items w) (_last_people_total w)
    (realtime_counts w) (ui_dirty w) (last_event_timestamps w)
    (gpio_last_trigger_ts w) (total_events w) (list_events w) v
    (gpio_bridge w) (event_threads w) (_last_restart_time_event w)
    (camera_conn_status w) (_pc_restart_inflight w) (logger_info w) (db w)
    (_limiter w).

Definition set_gpio_bridge (v : GpioBridge.GpioBridge) (w : WindowSum) : WindowSum :=
  mkWindow (_closing w) (chk_show_debug w) (event_cooldown_sec w)
    (enabled_areas w) (cameras w) (camera_items w) (_last_people_total w)
    (realtime_counts w) (ui_dirty w) (last_event_timestamps w)
    (gpio_last_trigger_ts w) (total_events w) (list_events w) (gpio_text
    w) v (event_threads w) (_last_restart_time_event w)
    (camera_conn_status w) (_pc_restart_inflight w) (logger_info w) (db w)
    (_limiter w).

Definition set_event_threads (v : list (string * threads)) (w : WindowSum) : WindowSum :=
  mkWindow (_closing w) (chk_show_debug w) (event_cooldown_sec w)
    (enabled_areas w) (cameras w) (camera_items w) (_last_people_total w)
    (realtime_counts w) (ui_dirty w) (last_event_timestamps w)
    (gpio_last_trigger_ts w) (total_events w) (list_events w) (gpio_text
    w) (gpio_bridge w) v (_last_restart_time_event w) (camera_conn_status
    w) (_pc_restart_inflight w) (logger_info w) (db w) (_limiter w).

Definition set_last_restart_time_event (v : gmap string Q) (w : WindowSum) : WindowSum :=
  mkWindow (_closing w) (chk_show_debug w) (event_cooldown_sec w)
    (enabled_areas w) (cameras w) (camera_items w) (_last_people_total w)
    (realtime_counts w) (ui_dirty w) (last_event_timestamps w)
    (gpio_last_trigger_ts w) (total_events w) (list_events w) (gpio_text
    w) (gpio_bridge w) (event_threads w) v (camera_conn_status w)
    (_pc_restart_inflight w) (logger_info w) (db w) (_limiter w).

Definition set_pc_restart_inflight (v : gmap string bool) (w : WindowSum) : WindowSum :=
  mkWindow (_closing w) (chk_show_debug w) (event_cooldown_sec w)
    (enabled_areas w) (cameras w) (camera_items w) (_last_people_total w)
    (realtime_counts w) (ui_dirty w) (last_event_timestamps w)
    (gpio_last_trigger_ts w) (total_events w) (list_events w) (gpio_text
    w) (gpio_bridge w) (event_threads w) (_last_restart_time_event w)
    (camera_conn_status w) v (logger_info w) (db w) (_limiter w).

Definition set_logger_info (v : list string) (w : WindowSum) : WindowSum :=
  mkWindow (_closing w) (chk_show_debug w) (event_cooldown_sec w)
    (enabled_areas w) (cameras w) (camera_items w) (_last_people_total w)
    (realtime_counts w) (ui_dirty w) (last_event_timestamps w)
    (gpio_last_trigger_ts w) (total_events w) (list_events w) (gpio_text
    w) (gpio_bridge w) (event_threads w) (_last_restart_time_event w)
    (camera_conn_status w) (_pc_restart_inflight w) v (db w) (_limiter w).

Definition set_db (v : DbModule.store) (w : WindowSum) : WindowSum :=
  mkWindow (_closing w) (chk_show_debug w) (event_cooldown_sec w)
    (enabled_areas w) (cameras w) (camera_items w) (_last_people_total w)
    (realtime_counts w) (ui_dirty w) (last_event_timestamps w)
    (gpio_last_trigger_ts w) (total_events w) (list_events w) (gpio_text
    w) (gpio_bridge w) (event_threads w) (_last_restart_time_event w)
    (camera_conn_status w) (_pc_restart_inflight w) (logger_info w) v
    (_limiter w).

Definition set_limiter (v : LogRateLimiter string) (w : WindowSum) : WindowSum :=
  mkWindow (_closing w) (chk_show_debug w) (event_cooldown_sec w)
    (enabled_areas w) (cameras w) (camera_items w) (_last_people_total w)
    (realtime_counts w) (ui_dirty w) (last_event_timestamps w)
    (gpio_last_trigger_ts w) (total_events w) (list_events w) (gpio_text
    w) (gpio_bridge w) (event_threads w) (_last_restart_time_event w)
    (camera_conn_status w) (_pc_restart_inflight w) (logger_info w) (db w)
    v.

Definition set_camera_items (v : gmap string (gmap Z bool)) (w : WindowSum) : WindowSum :=
  mkWindow (_closing w) (chk_show_debug w) (event_cooldown_sec w)
    (enabled_areas w) (cameras w) v (_last_people_total w)
    (realtime_counts w) (ui_dirty w) (last_event_timestamps w)
    (gpio_last_trigger_ts w) (total_events w) (list_events w) (gpio_text
    w) (gpio_bridge w) (event_threads w) (_last_restart_time_event w)
    (camera_conn_status w) (_pc_restart_inflight w) (logger_info w) (db w)
    (_limiter w).

(** ** Helpers *)

(** [d[k1][k2] = v] on a dictionary of dictionaries whose [k1] exists or
    was just created. *)
Definition nested_set {K1 K2 V} `{Countable K1} `{Countable K2}
    (k1 : K1) (k2 : K2) (v : V) (d : gmap K1 (gmap K2 V)) : gmap K1 (gmap K2 V) :=
  <[k1 := <[k2 := v]> (default ∅ (d !! k1))]> d.

(** [if k not in d: d[k] = {}] *)
Definition ensure_key {K1 K2 V} `{Countable K1} `{Countable K2}
    (k1 : K1) (d : gmap K1 (gmap K2 V)) : gmap K1 (gmap K2 V) :=
  match d !! k1 with
  | Some _ => d
  | None => <[k1 := ∅]> d
  end.

(** [add_event_log]: the list keeps the newest 200 lines.  The clock
    prefix of a line and the copy given to the file logger are left out. *)
Definition add_event_log (msg : string) (w : WindowSum) : WindowSum :=
  if String.prefix "[DEBUG]" msg && negb (chk_show_debug w) then w
  else
    let l := list_events w ++ [msg] in
    set_list_events (drop (length l - 200) l) w.

(** [add_gpio_log] (without the clock prefix of the line). *)
Definition add_gpio_log (msg : string) (w : WindowSum) : WindowSum :=
  set_gpio_text (gpio_text w ++ [msg]) w.

(** [is_area_checked], that is [state_mgr.get_area_enabled]: the areas are
    stored under [str(area_id)], default [False]. *)
Definition is_area_checked (cam_key : string) (area_id : Z) (w : WindowSum) : bool :=
  default false (default ∅ (enabled_areas w !! cam_key) !! pretty area_id).

(** [_get_camera_ip] *)
Definition _get_camera_ip (key : string) (w : WindowSum) : string :=
  match List.find (λ c, bool_decide (c.1 = key)) (cameras w) with
  | Some cam => cam.2
  | None => "Unknown"
  end.

(** [_check_gpio_debounce]; [now] is its reading of [time.time()]. *)
Definition _check_gpio_debounce (now : Q) (cam_key : string) (area_id : Z)
    (event_type : string) (debounce_sec : Q) (w : WindowSum) : bool * WindowSum :=
  let key := (cam_key, area_id, event_type) in
  let last_ts := default 0%Q (gpio_last_trigger_ts w !! key) in
  if Qlt_le_dec (now - last_ts) debounce_sec then (false, w)
  else (true, set_gpio_last_trigger_ts (<[key := now]> (gpio_last_trigger_ts w)) w).

(** [camera_items[cam_key].set_area_count(area_id, count)] *)
Definition set_area_count (cam_key : string) (area_id count : Z) (w : WindowSum) : WindowSum :=
  match camera_items w !! cam_key with
  | Some area_leds =>
      let is_on := 0 <? count in
      match area_leds !! area_id with
      | Some _ => set_camera_items (<[cam_key := <[area_id := is_on]> area_leds]> (camera_items w)) w
      | None => w
      end
  | None => w
  end.

(** The dictionary that [PeopleCountThread._consume_stream] emits. *)
Definition people_count_event (camera_key : string) (area_id count now_epoch : Z)
    : event_data :=
  mkEvent (Some "PEOPLE_COUNT"%string) (Some camera_key) (Some area_id)
          (Some count) None (Some (TsFormatted now_epoch)) (Some now_epoch)
          None None None.

(** [self._last_people_total[cam_key].get(area_id)]: the baseline. *)
Definition baseline (cam_key : string) (area_id : Z) (w : WindowSum) : option Z :=
  default ∅ (_last_people_total w !! cam_key) !! area_id.

(** The message of a change of count. *)
Definition people_message (cam_key : string) (area_id delta current_count : Z)
    : string :=
  if 0 <? delta then
    "[" +:+ cam_key +:+ "] Area " +:+ pretty area_id +:+ " People +"
    +:+ pretty delta +:+ " (" +:+ pretty current_count +:+ ")"
  else
    "[" +:+ cam_key +:+ "] Area " +:+ pretty area_id +:+ " People "
    +:+ pretty delta +:+ " (" +:+ pretty current_count +:+ ")".

(** [event_data['prev_value'] = last_total; event_data['count'] =
    current_count; event_data['delta'] = delta; event_data['message'] = ...] *)
Definition set_delta (last_total current_count delta : Z) (message : string)
    (event_data : DbModule.event_data) : DbModule.event_data :=
  mkEvent (ev_type event_data) (ev_camera_key event_data)
          (ev_area_id event_data) (Some current_count)
          (ev_action event_data) (ev_ts event_data)
          (ev_ts_epoch event_data) (Some last_total) (Some delta)
          (Some message).

(** The clock readings one call of [_handle_people_count] can make, in
    the order of the source. *)
Record clock := mkClock {
  t_insert : Z;    (* int(time.time()) in insert_event (synchronous fallback) *)
  t_emit : Q;      (* time.time() of the log cooldown *)
  t_debounce : Q;  (* time.time() in _check_gpio_debounce *)
  t_pulse : Q;     (* time.time() in trigger_pulse *)
  t_limiter : Q    (* time.time() in should_log, from trigger_pulse *)
}.

(** Step 5 of [_handle_people_count], after the [_closing] test: the GPIO
    pulse when the area is unchecked. *)
Definition people_gpio (clk : clock) (cam_key : string)
    (area_id delta current_count : Z) (w : WindowSum) : WindowSum :=
  let is_checked := is_area_checked cam_key area_id w in
  if negb is_checked then
    let '(ok, w) := _check_gpio_debounce (t_debounce clk) cam_key area_id
                      "people" (3 # 10) w in
    if ok then
      let cam_ip := _get_camera_ip cam_key w in
      let msg := cam_ip +:+ " / Area" +:+ pretty area_id +:+ " / Δ"
                 +:+ pretty delta +:+ " / now=" +:+ pretty current_count in
      let w := add_gpio_log msg w in
      let '(lim, g) := GpioBridge.trigger_pulse (t_pulse clk) (t_limiter clk)
                         area_id (_limiter w) (gpio_bridge w) in
      set_gpio_bridge g (set_limiter lim w)
    else w
  else w.

(** Step 4 of [_handle_people_count], under [if delta != 0]: the record
    for the store and, for an increase outside the cooldown, the line in
    the event list.  ([update_status_bar] only redraws.) *)
Definition people_record (clk : clock) (cam_key : string)
    (area_id last_total current_count delta : Z)
    (event_data : DbModule.event_data) (w : WindowSum) : WindowSum :=
  let message := people_message cam_key area_id delta current_count in
  let event_data := set_delta last_total current_count delta message event_data in
  let w := set_db (enqueue_event (t_insert clk) event_data (db w)) w in
  if 0 <? delta then
    let state_key := (cam_key, area_id) in
    let now := t_emit clk in
    let last_emit_ts := default 0%Q (last_event_timestamps w !! state_key) in
    (* (now - last_emit_ts) >= self.event_cooldown_sec *)
    if Qlt_le_dec (now - last_emit_ts) (inject_Z (event_cooldown_sec w)) then w
    else
      let w := set_last_event_timestamps
                 (<[state_key := now]> (last_event_timestamps w)) w in
      let w := add_event_log message w in
      let w := set_total_events (total_events w + 1) w in
      if chk_show_debug w then
        add_event_log ("[DEBUG] PEOPLE " +:+ cam_key +:+ " A" +:+ pretty area_id
                       +:+ " raw=" +:+ pretty current_count
                       +:+ " prev=" +:+ pretty last_total
                       +:+ " delta=" +:+ pretty delta) w
      else w
  else w.

(** [_handle_people_count].  The result is [None] for a dictionary
    without ['camera_key'] or ['area_id']: the subscribers always set
    both ([people_count_event]). *)
Definition _handle_people_count (clk : clock) (event_data : event_data)
    (w : WindowSum) : option WindowSum :=
  cam_key ← ev_camera_key event_data;
  area_id ← ev_area_id event_data;
  let current_count := ev_count event_data in
  (* 1 *)
  let w := set_last_people_total (ensure_key cam_key (_last_people_total w)) w in
  match current_count with
  | None => Some w
  | Some current_count =>
  if current_count <? 0 then Some w else
  let last_total := baseline cam_key area_id w in
  (* 2 *)
  let w := set_realtime_counts
             (nested_set cam_key area_id current_count
                (ensure_key cam_key (realtime_counts w))) w in
  let w := set_ui_dirty true w in
  match last_total with
  | None =>
      let w := set_last_people_total
                 (nested_set cam_key area_id current_count (_last_people_total w)) w in
      let w :=
        if chk_show_debug w then
          add_event_log ("[DEBUG] [" +:+ cam_key +:+ "] Area " +:+ pretty area_id
                         +:+ " People Init (" +:+ pretty current_count
                         +:+ ") - Not saved to DB") w
        else w in
      Some w
  | Some last_total =>
  let delta := current_count - last_total in
  (* 4 *)
  let w :=
    if decide (delta ≠ 0)
    then people_record clk cam_key area_id last_total current_count delta event_data w
    else w in
  (* 5 *)
  if (0 <? delta) && _closing w then Some w        (* return *)
  else
    let w := if 0 <? delta
             then people_gpio clk cam_key area_id delta current_count w
             else w in
    (* 7 *)
    let w := set_area_count cam_key area_id current_count w in
    (* 6 *)
    Some (set_last_people_total
            (nested_set cam_key area_id current_count (_last_people_total w)) w)
  end
  end.

(** ** The health sweep *)

(** [on_camera_status_update]: the result of the connectivity probe of a
    camera (the label update of the camera list only redraws). *)
Definition on_camera_status_update (key : string) (connected : bool)
    (w : WindowSum) : WindowSum :=
  if _closing w then w
  else
    mkWindow (_closing w) (chk_show_debug w) (event_cooldown_sec w)
      (enabled_areas w) (cameras w) (camera_items w) (_last_people_total w)
      (realtime_counts w) true (last_event_timestamps w)
      (gpio_last_trigger_ts w) (total_events w) (list_events w) (gpio_text w)
      (gpio_bridge w) (event_threads w) (_last_restart_time_event w)
      (<[key := connected]> (camera_conn_status w))
      (_pc_restart_inflight w) (logger_info w) (db w) (_limiter w).

(** The suffix [" (suppressed N)"] of a rate-limited message. *)
Definition msg_suffix (suppressed : Z) : string :=
  if 0 <? suppressed then " (suppressed " +:+ pretty suppressed +:+ ")" else "".

Definition log_info (msg : string) (w : WindowSum) : WindowSum :=
  set_logger_info (logger_info w ++ [msg]) w.

(** The [PeopleCountThread] part of a pass.  [None] is the [continue]
    taken when a restart is in flight; otherwise the thread, the window
    and the flag [restarted]. *)
Definition health_people (now_log : Q) (key : string) (pt : option subscriber)
    (w : WindowSum) : option (option subscriber * WindowSum * bool) :=
  match pt with
  | Some pt =>
      if negb (isRunning pt) then
        let is_connected := default false (camera_conn_status w !! key) in
        if is_connected then
          if default false (_pc_restart_inflight w !! key) then None
          else
            let w := set_pc_restart_inflight (<[key := true]> (_pc_restart_inflight w)) w in
            let '((allow, suppressed), lim) :=
              should_log now_log ("health_pc_recovery_" +:+ key) 300 (_limiter w) in
            let w := set_limiter lim w in
            let w :=
              if allow then
                log_info ("[Recovery] Restarting PeopleCount thread for " +:+ key
                          +:+ " (reason=dead)" +:+ msg_suffix suppressed) w
              else w in
            let pt := restart pt in
            (* finally *)
            let w := set_pc_restart_inflight (<[key := false]> (_pc_restart_inflight w)) w in
            Some (Some pt, w, true)
        else
          let '((allow_skip, _), lim) :=
            should_log now_log ("health_pc_skip_disconnected_" +:+ key) 3600 (_limiter w) in
          let w := set_limiter lim w in
          let w :=
            if allow_skip then
              log_info ("[Recovery] Skipping PeopleCount restart for " +:+ key
                        +:+ " (Camera disconnected)") w
            else w in
          Some (Some pt, w, false)
      else Some (Some pt, w, false)
  | None => Some (None, w, false)
  end.

(** The [StayDetectionThread] part of a pass. *)
Definition health_stay (now_log : Q) (key : string) (st : option subscriber)
    (w : WindowSum) (restarted : bool) : option subscriber * WindowSum * bool :=
  match st with
  | Some st =>
      if negb (isRunning st) then
        let '((allow, suppressed), lim) :=
          should_log now_log ("health_restart_stay_" +:+ key) 300 (_limiter w) in
        let w := set_limiter lim w in
        let w :=
          if allow then
            log_info ("[Recovery] Restarting StayDetection thread for " +:+ key
                      +:+ msg_suffix suppressed) w
          else w in
        (Some (restart st), w, true)
      else (Some st, w, restarted)
  | None => (None, w, restarted)
  end.

(** One pass of [for key, threads in self.event_threads.items()]. *)
Definition health_pass (now now_log : Q) (key : string) (ths : threads)
    (w : WindowSum) : threads * WindowSum :=
  let last_ts := default 0%Q (_last_restart_time_event w !! key) in
  if Qlt_le_dec (now - last_ts) 60 then (ths, w)               (* continue *)
  else
    match health_people now_log key (people ths) w with
    | None => (ths, w)                                         (* continue *)
    | Some (pt, w, restarted) =>
        let '(st, w, restarted) := health_stay now_log key (stay ths) w restarted in
        let w :=
          if restarted
          then set_last_restart_time_event (<[key := now]> (_last_restart_time_event w)) w
          else w in
        (mkThreads pt st, w)
    end.

Fixpoint health_loop (now now_log : Q) (items : list (string * threads))
    (w : WindowSum) : list (string * threads) * WindowSum :=
  match items with
  | [] => ([], w)
  | (key, ths) :: items' =>
      let '(ths', w) := health_pass now now_log key ths w in
      let '(rest, w) := health_loop now now_log items' w in
      ((key, ths') :: rest, w)
  end.

(** [check_thread_health], part 1 (the subscriber threads); part 2
    restarts video widgets and is outside the model.  [now] is the
    reading at the top, [now_log] the clock as [should_log] reads it. *)
Definition check_thread_health (now now_log : Q) (w : WindowSum) : WindowSum :=
  let '(items, w) := health_loop now now_log (event_threads w) w in
  set_event_threads items w.

(** ** States *)

(** The state that [WindowSum.__init__] builds from what it reads (debug
    check box, cooldown, area check boxes, cameras) and the bridge: the
    dictionaries are empty and the writer of [db_module] is running. *)
Definition new_window (show_debug : bool) (cooldown_sec : Z)
    (areas : gmap string (gmap string bool)) (cams : list (string * string))
    (bridge : GpioBridge.GpioBridge) : WindowSum :=
  mkWindow false show_debug cooldown_sec areas cams ∅ ∅ ∅ true ∅ ∅ 0 [] []
           bridge [] ∅ ∅ ∅ []
           (mkStore true [] (mkDb empty_table empty_table empty_table) [])
           (LogRateLimit.init 1000).

(** [closeEvent], its first statement: [self._closing = True]. *)
Definition set_closing (v : bool) (w : WindowSum) : WindowSum :=
  mkWindow v (chk_show_debug w) (event_cooldown_sec w)
    (enabled_areas w) (cameras w) (camera_items w) (_last_people_total w)
    (realtime_counts w) (ui_dirty w) (last_event_timestamps w)
    (gpio_last_trigger_ts w) (total_events w) (list_events w) (gpio_text w)
    (gpio_bridge w) (event_threads w) (_last_restart_time_event w)
    (camera_conn_status w) (_pc_restart_inflight w) (logger_info w) (db w)
    (_limiter w).

End WindowMain.

(* ===================================================================== *)
(** * The scenario of the spec: camera "cam1", zone 2 *)
(* ===================================================================== *)

Module Scenario.
Import LogRateLimit DbModule WindowMain.

(** A connected bridge with the default configuration: 500 ms, "extend". *)
Definition bridge0 : GpioBridge.GpioBridge :=
  GpioBridge.mkBridge (GpioBridge.mkConf true 500 "extend" false)
                      true true 0%Q false false false false [].

Definition clock0 : clock :=
  mkClock 1700000000 1700000000 1700000000 1700000000 1700000000.

(** A new window with camera "cam1"; no area is checked. *)
Definition window0 (show_debug : bool) : WindowSum :=
  new_window show_debug 2 ∅ [("cam1"%string, "192.168.0.10"%string)] bridge0.

Definition snapshot (count : Z) (w : WindowSum) : option WindowSum :=
  _handle_people_count clock0 (people_count_event "cam1" 2 count 1700000000) w.

(** The window after the first reading, 5: the baseline of zone 2 is 5. *)
Definition window5 : WindowSum := default (window0 false) (snapshot 5 (window0 false)).


(** The window that is closing when the reading 8 arrives. *)
Definition window8_closing : WindowSum :=
  default window5 (snapshot 8 (set_closing true window5)).


(** A window with camera "cam1" whose two subscriber threads are dead,
    before any connectivity probe has answered. *)
Definition window_dead : WindowSum :=
  set_event_threads
    [("cam1"%string, mkThreads (Some (mkSub false 0)) (Some (mkSub false 0)))]
    (window0 false).
End Scenario.

(* ===================================================================== *)
(** * log_rate_limit.py: what a call history reports *)
(* ===================================================================== *)

Module LogRateLimitHistory.
Import LogRateLimit.

Section observers.
Context {K : Type} `{Countable K}.

(** The sum of the suppressed counts that the allowed calls for [key]
    returned. *)
Fixpoint reported_total (key : K) (h : history K) : Z :=
  match h with
  | [] => 0
  | (c, (allowed, n)) :: h' =>
      if decide (c_key c = key) then
        if allowed then n + reported_total key h' else reported_total key h'
      else reported_total key h'
  end.

(** The number of calls for [key] that were suppressed. *)
Fixpoint suppressed_total (key : K) (h : history K) : Z :=
  match h with
  | [] => 0
  | (c, (allowed, _)) :: h' =>
      if decide (c_key c = key) then
        if allowed then suppressed_total key h' else suppressed_total key h' + 1
      else suppressed_total key h'
  end.

(** What a history of calls on a limiter accounts for. *)
Definition accounted (s : LogRateLimiter K) (h : history K) : Prop :=
  consistent s h ∧
  ∀ k, reported_total k h + suppressed_since k h = suppressed_total k h.
End observers.

End LogRateLimitHistory.

(* ===================================================================== *)
(** * cgi_client.py: [PeopleCountThread._consume_stream] *)
(* ===================================================================== *)

Module PeopleCountStream.
Import LogRateLimit DbModule.
Import Stdlib.Strings.Ascii.

(** [s.split("=")[1]]: what stands between the first ["="] and the next
    one, or the end; [None] (IndexError) when [s] has no ["="]. *)
Fixpoint until_eq (s : string) : string :=
  match s with
  | EmptyString => EmptyString
  | String c s' => if Ascii.eqb c "="%char then EmptyString else String c (until_eq s')
  end.

Fixpoint after_eq (s : string) : option string :=
  match s with
  | EmptyString => None
  | String c s' => if Ascii.eqb c "="%char then Some s' else after_eq s'
  end.

Definition split_eq_1 (s : string) : option string := until_eq <$> after_eq s.

(** One pass of [for line in response.iter_lines()]: the stop flag as the
    pass reads it, the line after [decode] and [strip] (empty for a
    keep-alive line, which the loop skips), and the clock readings of the
    pass: [int(time.time())] for the event, [time.time()] in [should_log]. *)
Record line_pass := mkLine {
  stop_set : bool;
  decoded_line : string;
  now_epoch : Z;
  now_log : Q
}.

(** What a pass gives to [event_received]: a PEOPLE_COUNT dictionary, or
    the DEBUG message of [_log_rate_limit] for a parse error, of which the
    model keeps the key and the suppressed count. *)
Inductive emitted :=
| Event (event_data : event_data)
| ParseErrorDebug (key : string) (suppressed : Z).

Section consume.
(** [int(s)] of Python; [None] when it raises [ValueError]. *)
Variable py_int : string → option Z.

(** [_log_rate_limit(key, msg)]: interval 10 s, key
    ["cgi_dbg_<camera_key>_<key>"]. *)
Definition _log_rate_limit (camera_key key : string) (now : Q)
    (lim : LogRateLimiter string) : LogRateLimiter string * list emitted :=
  let unique_key := "cgi_dbg_" +:+ camera_key +:+ "_" +:+ key in
  let '((allowed, suppressed), lim) := should_log now unique_key 10 lim in
  (lim, if allowed then [ParseErrorDebug key suppressed] else []).

(** The body of the loop for one decoded line. *)
Definition consume_line (camera_key : string) (l : line_pass)
    (current_area_id : option Z) (lim : LogRateLimiter string)
    : option Z * LogRateLimiter string * list emitted :=
  let decoded_line := decoded_line l in
  if String.prefix "summary.AreaID=" decoded_line then
    match split_eq_1 decoded_line ≫= py_int with
    | Some a => (Some a, lim, [])
    | None =>
        let '(lim, out) := _log_rate_limit camera_key "pc_area_id" (now_log l) lim in
        (None, lim, out)
    end
  else if String.prefix "summary.InsideSubtotal.Total=" decoded_line then
    match current_area_id with
    | Some area_id =>
        match split_eq_1 decoded_line ≫= py_int with
        | Some count =>
            (current_area_id, lim,
             [Event (mkEvent (Some "PEOPLE_COUNT"%string) (Some camera_key)
                       (Some area_id) (Some count) None
                       (Some (TsFormatted (now_epoch l))) (Some (now_epoch l))
                       None None None)])
        | None =>
            let '(lim, out) := _log_rate_limit camera_key "pc_count" (now_log l) lim in
            (current_area_id, lim, out)
        end
    | None => (current_area_id, lim, [])
    end
  else (current_area_id, lim, []).

(** The loop from a given context; it leaves at the first pass that reads
    the stop flag set. *)
Fixpoint consume_from (camera_key : string) (lines : list line_pass)
    (current_area_id : option Z) (lim : LogRateLimiter string)
    : option Z * LogRateLimiter string * list emitted :=
  match lines with
  | [] => (current_area_id, lim, [])
  | l :: lines' =>
      if stop_set l then (current_area_id, lim, [])
      else
        let '(cur, lim, out) := consume_line camera_key l current_area_id lim in
        let '(cur', lim', out') := consume_from camera_key lines' cur lim in
        (cur', lim', out ++ out')
  end.

(** [_consume_stream]: [current_area_id = None] on entry. *)
Definition _consume_stream (camera_key : string) (lines : list line_pass)
    (lim : LogRateLimiter string) : option Z * LogRateLimiter string * list emitted :=
  consume_from camera_key lines None lim.

(** ** The grammar, read off the lines *)

Definition is_area_line (s : string) : bool := String.prefix "summary.AreaID=" s.

Definition is_total_line (s : string) : bool :=
  negb (is_area_line s) && String.prefix "summary.InsideSubtotal.Total=" s.

(** The zone that the lines read so far have set: the value of the last
    ["summary.AreaID="] line, if it is a number. *)
Definition zone_context (before : list line_pass) : option Z :=
  match List.find (λ l, is_area_line (decoded_line l)) (reverse before) with
  | Some l => split_eq_1 (decoded_line l) ≫= py_int
  | None => None
  end.

(** The dictionaries the grammar yields: one for each total line whose
    value is a number, read in the context of a zone. *)
Fixpoint snapshots_from (camera_key : string) (before lines : list line_pass)
    : list event_data :=
  match lines with
  | [] => []
  | l :: lines' =>
      (if is_total_line (decoded_line l) then
         match zone_context before, split_eq_1 (decoded_line l) ≫= py_int with
         | Some a, Some c =>
             [WindowMain.people_count_event camera_key a c (now_epoch l)]
         | _, _ => []
         end
       else [])
      ++ snapshots_from camera_key (before ++ [l]) lines'
  end.

Definition events_of (out : list emitted) : list event_data :=
  omap (λ o, match o with Event e => Some e | ParseErrorDebug _ _ => None end) out.
End consume.

(** An instance of [int]: a decimal numeral, with an optional sign; any
    other string raises.  (Python's [int] accepts more: blanks around the
    numeral and single underscores between digits.) *)
Fixpoint digits_value (s : string) (acc : Z) : option Z :=
  match s with
  | EmptyString => Some acc
  | String c s' =>
      let n := Z.of_nat (Ascii.nat_of_ascii c) in
      if (48 <=? n) && (n <=? 57) then digits_value s' (acc * 10 + (n - 48))
      else None
  end.

Definition decimal_int (s : string) : option Z :=
  match s with
  | EmptyString => None
  | String "-"%char (String c s') => Z.opp <$> digits_value (String c s') 0
  | String "+"%char (String c s') => digits_value (String c s') 0
  | _ => digits_value s 0
  end.

End PeopleCountStream.

(* ===================================================================== *)
(** * db_module.py: the queries, and what the tables keep *)
(* ===================================================================== *)

Module DbQueries.
Import DbModule.

(** [get_people_count_stats]: [SELECT area_id, SUM(delta) FROM
    people_delta_events WHERE camera_key = ? (AND ts_epoch >= ?) GROUP BY
    area_id], as the dictionary area -> sum.  [now_epoch] is
    [int(time.time())], read only when [hours] is given. *)
Definition in_window (now_epoch : Z) (hours : option Z) (ts_epoch : Z) : Prop :=
  match hours with
  | Some h => now_epoch - h * 3600 <= ts_epoch
  | None => True
  end.

Global Instance in_window_dec now_epoch hours ts_epoch :
  Decision (in_window now_epoch hours ts_epoch).
Proof. destruct hours; simpl; apply _. Defined.

Definition add_delta (r : delta_row) (stats : gmap Z Z) : gmap Z Z :=
  <[d_area_id r := default 0 (stats !! d_area_id r) + d_delta r]> stats.

Definition get_people_count_stats (now_epoch : Z) (camera_key : string)
    (hours : option Z) (db : database) : gmap Z Z :=
  let selected :=
    filter (λ ir : Z * delta_row,
              d_camera_key ir.2 = camera_key
              ∧ in_window now_epoch hours (d_ts_epoch ir.2))
           (rows (people_delta_events db)) in
  foldr (λ ir, add_delta ir.2) ∅ selected.

(** [get_recent_events]: [SELECT * FROM event_logs ORDER BY id DESC LIMIT
    ?]; a negative limit is no limit in sqlite. *)
Definition id_desc (a b : Z * log_row) : Prop := b.1 <= a.1.

Global Instance id_desc_dec a b : Decision (id_desc a b).
Proof. unfold id_desc. apply _. Defined.

Definition get_recent_events (limit : Z) (db : database) : list (Z * log_row) :=
  let ordered := merge_sort id_desc (rows (event_logs db)) in
  if limit <? 0 then ordered else take (Z.to_nat limit) ordered.

(** ** What the tables keep *)

(** The ids of a table are positive, increase along the table and do not
    exceed the last id handed out. *)
Definition id_lt {R} (a b : Z * R) : Prop := a.1 < b.1.

Definition table_ok {R} (t : table R) : Prop :=
  0 <= seq_id t ∧
  StronglySorted id_lt (rows t) ∧
  Forall (λ ir, 0 < ir.1 <= seq_id t) (rows t).

Definition db_ok (db : database) : Prop :=
  table_ok (people_delta_events db) ∧ table_ok (event_logs db) ∧ table_ok (events db).

(** The rows are normalised: [ts] is the format of [ts_epoch], and a delta
    row has a positive delta. *)
Definition rows_normal (db : database) : Prop :=
  Forall (λ ir : Z * delta_row,
            d_ts ir.2 = TsFormatted (d_ts_epoch ir.2) ∧ 0 < d_delta ir.2)
         (rows (people_delta_events db)) ∧
  Forall (λ ir : Z * log_row, l_ts ir.2 = TsFormatted (l_ts_epoch ir.2))
         (rows (event_logs db)).

(** The rows that [t'] has and [t] had not carry ids above every id that
    [t] had handed out. *)
Definition new_rows_fresh {R} (t t' : table R) : Prop :=
  seq_id t <= seq_id t' ∧
  ∀ ir, ir ∈ rows t' → ir ∈ rows t ∨ seq_id t < ir.1.

(** [enqueue_event] or [enqueue_purge], by the kind of job. *)
Definition enqueue (now_epoch : Z) (j : job) (s : store) : store :=
  match j with
  | Persist event_data => enqueue_event now_epoch event_data s
  | Purge retention_days callback => enqueue_purge now_epoch retention_days callback s
  end.



(** The writer handling jobs one [writer_step] at a time. *)
Fixpoint writer_steps (clock : list Z) (s : store) : store :=
  match clock with
  | [] => s
  | now_epoch :: clock' => writer_steps clock' (writer_step now_epoch s)
  end.

End DbQueries.

(* ===================================================================== *)
(** * gpio_bridge.py: [setup], [cleanup], [on_stay_event] and runs *)
(* ===================================================================== *)

Module GpioLifecycle.
Import LogRateLimit GpioBridge.

(** The lines [setup] and [cleanup] give to [_log]. *)
Inductive lifecycle_log :=
| MockMode          (* "RPi.GPIO module not found. Running in mock mode." *)
| SetupComplete
| SetupFailed
| CleanupDone
| CleanupError.

Definition with_connection (connected : bool) (pulse_end : Q)
    (alive stop_worker high : bool) (self : GpioBridge) : GpioBridge :=
  mkBridge (cfg self) (has_gpio self) connected pulse_end alive stop_worker
           high (output_raises self) (log_lines self).

(** [setup]; [raises] says whether [GPIO.setmode]/[GPIO.setup] raise.
    [GPIO.setup(pin, GPIO.OUT, initial=GPIO.LOW)] leaves the pin low. *)
Definition setup (raises : bool) (self : GpioBridge)
    : GpioBridge * list lifecycle_log :=
  if negb (has_gpio self) then (self, [MockMode]) else
  if negb (enable (cfg self)) then (self, []) else
  if raises then
    (with_connection false (_pulse_end_time self) (worker_alive self)
                     (_stop_worker self) (pin_high self) self, [SetupFailed])
  else
    (with_connection true (_pulse_end_time self) (worker_alive self)
                     (_stop_worker self) false self, [SetupComplete]).

(** [__init__]: a bridge with no pulse and no worker, not connected, then
    [setup].  [high] is the level of the pin before, which the program does
    not know.  (The choice of [console_log] only decides what is printed.) *)
Definition init (conf : gpio_config) (has_gpio high output_raises raises : bool)
    : GpioBridge * list lifecycle_log :=
  setup raises (mkBridge conf has_gpio false 0%Q false false high output_raises []).

(** [cleanup]; [joined] says whether the worker thread ended within the
    0.2 s of [join].  [GPIO.cleanup(pin)] is taken not to raise; it
    releases the pin, which is then not driven high. *)
Definition cleanup (joined : bool) (self : GpioBridge)
    : GpioBridge * list lifecycle_log :=
  if has_gpio self && is_connected self then
    let stop_worker := true in
    if enable (cfg self) && output_raises self then
      (* GPIO.output raises: except, then finally *)
      (with_connection false (_pulse_end_time self) (worker_alive self)
                       stop_worker (pin_high self) self, [CleanupError])
    else
      let alive := if joined then false else worker_alive self in
      (with_connection false 0%Q alive stop_worker false self, [CleanupDone])
  else (self, []).

(** What happens to a bridge in use: calls of [trigger_pulse] and passes of
    the worker, in any order. *)
Inductive action :=
| Trigger (now now_log : Q) (area_id : Z)
| WorkerPass (now : Q).

Definition act (a : action) (st : LogRateLimiter string * GpioBridge)
    : LogRateLimiter string * GpioBridge :=
  match a with
  | Trigger now now_log area_id => trigger_pulse now now_log area_id st.1 st.2
  | WorkerPass now => (st.1, pulse_worker_pass now st.2)
  end.

Definition run (actions : list action) (st : LogRateLimiter string * GpioBridge)
    : LogRateLimiter string * GpioBridge :=
  fold_left (λ st a, act a st) actions st.

(** No output stays high unattended: the worker has no order to stop, and
    while the pin is high the worker is alive. *)
Definition attended (self : GpioBridge) : Prop :=
  _stop_worker self = false ∧ (pin_high self = true → worker_alive self = true).

(** While a pulse is pending the pin is high: a low pin goes with an end
    time that is not ahead of any clock reading. *)
Definition driven (self : GpioBridge) : Prop :=
  pin_high self = false → (_pulse_end_time self <= 0)%Q.

(** The clock readings of the triggers are not negative. *)
Definition clock_nonneg (a : action) : Prop :=
  match a with
  | Trigger now _ _ => (0 <= now)%Q
  | WorkerPass _ => True
  end.

(** The worker at the clock readings [passes], one pass each. *)
Definition worker_passes (passes : list Q) (self : GpioBridge) : GpioBridge :=
  fold_left (λ self now, pulse_worker_pass now self) passes self.

End GpioLifecycle.

(* ===================================================================== *)
(** * state_manager.py: the area and monitor check boxes *)
(* ===================================================================== *)

Module StateManager.

(** [StateManager.state], the entries the methods below use; [save_state]
    writes the file and changes nothing here. *)
Record StateManager := mkState {
  last_camera_key : option string;
  last_area_id : option Z;
  enabled_areas : gmap string (gmap string bool);
  monitor_enabled : gmap string bool
}.

(** [get_area_enabled]: the areas are stored under [str(area_id)]. *)
Definition get_area_enabled (camera_key : string) (area_id : Z)
    (self : StateManager) : bool :=
  let areas := default ∅ (enabled_areas self !! camera_key) in
  default false (areas !! pretty area_id).

(** [set_area_enabled] *)
Definition set_area_enabled (camera_key : string) (area_id : Z) (enabled : bool)
    (self : StateManager) : StateManager :=
  let areas := default ∅ (enabled_areas self !! camera_key) in
  mkState (last_camera_key self) (last_area_id self)
          (<[camera_key := <[pretty area_id := enabled]> areas]> (enabled_areas self))
          (monitor_enabled self).

(** [get_monitor_enabled] *)
Definition get_monitor_enabled (camera_key : string) (self : StateManager) : bool :=
  default false (monitor_enabled self !! camera_key).

(** [set_monitor_enabled] *)
Definition set_monitor_enabled (camera_key : string) (enabled : bool)
    (self : StateManager) : StateManager :=
  mkState (last_camera_key self) (last_area_id self) (enabled_areas self)
          (<[camera_key := enabled]> (monitor_enabled self)).

(** [clear_all_monitor_enabled] *)
Definition clear_all_monitor_enabled (self : StateManager) : StateManager :=
  mkState (last_camera_key self) (last_area_id self) (enabled_areas self) ∅.

(** [set_monitor_enabled_bulk] *)
Definition set_monitor_enabled_bulk (keys_true : list string)
    (self : StateManager) : StateManager :=
  mkState (last_camera_key self) (last_area_id self) (enabled_areas self)
          (list_to_map ((λ k, (k, true)) <$> keys_true)).

(** [cleanup_camera_state] *)
Definition cleanup_camera_state (camera_key : string) (self : StateManager)
    : StateManager :=
  let areas := delete camera_key (enabled_areas self) in
  let monitor := delete camera_key (monitor_enabled self) in
  if decide (last_camera_key self = Some camera_key)
  then mkState None None areas monitor
  else mkState (last_camera_key self) (last_area_id self) areas monitor.

End StateManager.

(* ===================================================================== *)
(** * window_main.py: [_handle_stay_alarm], [_clear_stay_state],
      [on_new_event] *)
(* ===================================================================== *)

Module StayAlarm.
Import LogRateLimit DbModule WindowMain.

(** A single-shot [QTimer] kept in [_stay_clear_timers]. *)
Record timer := mkTimer { interval_ms : Z; isActive : bool }.

(** The state of [WindowSum] that only the stay alarm uses. *)
Record StayFields := mkStay {
  stay_states : gmap (string * Z) bool;          (* {(camera_key, area_id): bool} *)
  stay_last_emit : gmap (string * Z * string) Q; (* {(camera_key, area_id, action): timestamp} *)
  _stay_clear_timers : gmap (string * Z) timer;  (* {(camera_key, area_id): QTimer} *)
  stay_cooldown_sec : Z;
  stay_hold_ms : Z
}.

(** The dictionary that [StayDetectionThread._parse_stay_event] emits. *)
Definition stay_alarm_event (camera_key action : string) (area_id : option Z)
    (now_epoch : Z) : event_data :=
  mkEvent (Some "STAY_ALARM"%string) (Some camera_key) area_id None
          (Some action) (Some (TsFormatted now_epoch)) (Some now_epoch)
          None None None.

(** The clock readings one call of [_handle_stay_alarm] can make, in the
    order of the source. *)
Record stay_clock := mkStayClock {
  s_debounce : Q;  (* time.time() in _check_gpio_debounce *)
  s_pulse : Q;     (* time.time() in trigger_pulse *)
  s_limiter : Q;   (* time.time() in should_log, from trigger_pulse *)
  s_emit : Q;      (* time.time() of the alarm cooldown *)
  s_insert : Z     (* int(time.time()) in insert_event (synchronous fallback) *)
}.

(** Step 1 of [_handle_stay_alarm], after the [_closing] test: the GPIO
    pulse when the area is checked. *)
Definition stay_gpio (clk : stay_clock) (cam_key : string) (area_id : Z)
    (w : WindowSum) : WindowSum :=
  let is_checked := is_area_checked cam_key area_id w in
  if is_checked then
    let '(ok, w) := _check_gpio_debounce (s_debounce clk) cam_key area_id
                      "stay" (3 # 10) w in
    if ok then
      let cam_ip := _get_camera_ip cam_key w in
      let curr_cnt := default 0 (default ∅ (realtime_counts w !! cam_key) !! area_id) in
      let msg := cam_ip +:+ " / Area" +:+ pretty area_id +:+ " / now="
                 +:+ pretty curr_cnt +:+ " / [횡단 대기]" in
      let w := add_gpio_log msg w in
      let '(lim, g) := GpioBridge.trigger_pulse (s_pulse clk) (s_limiter clk)
                         area_id (_limiter w) (gpio_bridge w) in
      set_gpio_bridge g (set_limiter lim w)
    else w
  else w.

Definition set_message (message : string) (e : event_data) : event_data :=
  mkEvent (ev_type e) (ev_camera_key e) (ev_area_id e) (ev_count e)
          (ev_action e) (ev_ts e) (ev_ts_epoch e) (ev_prev_value e)
          (ev_delta e) (Some message).

(** Step 2 of [_handle_stay_alarm] for a Start edge: the record and the
    log line under the cooldown, then the alarm state and its clear timer. *)
Definition stay_record (clk : stay_clock) (cam_key : string) (area_id : Z)
    (event_data : event_data) (w : WindowSum) (s : StayFields)
    : WindowSum * StayFields :=
  let state_key := (cam_key, area_id) in
  let cooldown_key := (cam_key, area_id, "Start"%string) in
  let now := s_emit clk in
  let last_emit := default 0%Q (stay_last_emit s !! cooldown_key) in
  let '(w, last_emits) :=
    (* (now - last_emit) >= self.stay_cooldown_sec *)
    if Qlt_le_dec (now - last_emit) (inject_Z (stay_cooldown_sec s))
    then (w, stay_last_emit s)
    else
      let msg := "체류 감지 이벤트 수신: " +:+ cam_key +:+ " Area "
                 +:+ pretty area_id +:+ " Action:Start" in
      let event_data := set_message msg event_data in
      let w := set_db (enqueue_event (s_insert clk) event_data (db w)) w in
      let w := add_event_log msg w in
      let w := set_total_events (total_events w + 1) w in
      (w, <[cooldown_key := now]> (stay_last_emit s)) in
  (w, mkStay (<[state_key := true]> (stay_states s)) last_emits
             (<[state_key := mkTimer (stay_hold_ms s) true]> (_stay_clear_timers s))
             (stay_cooldown_sec s) (stay_hold_ms s)).

(** [_handle_stay_alarm].  As for the count handler the result is [None]
    for a dictionary without ['camera_key'] or ['area_id']. *)
Definition _handle_stay_alarm (clk : stay_clock) (event_data : event_data)
    (w : WindowSum) (s : StayFields) : option (WindowSum * StayFields) :=
  cam_key ← ev_camera_key event_data;
  area_id ← ev_area_id event_data;
  let action := ev_action event_data in
  if decide (action = Some "Start"%string) then
    if _closing w then Some (w, s)          (* return *)
    else
      let w := stay_gpio clk cam_key area_id w in
      Some (stay_record clk cam_key area_id event_data w s)
  else Some (w, s).









(** The message of a Start edge. *)
Definition stay_message (cam_key : string) (area_id : Z) : string :=
  "체류 감지 이벤트 수신: " +:+ cam_key +:+ " Area " +:+ pretty area_id +:+ " Action:Start".

End StayAlarm.

(* ===================================================================== *)
(** * The handlers over a series of readings *)
(* ===================================================================== *)

Module RuleEngineRuns.
Import LogRateLimit DbModule WindowMain.




(** [_check_gpio_debounce] for one key at a series of clock readings: the
    answers, and the window. *)
Fixpoint debounce_run (cam_key : string) (area_id : Z) (event_type : string)
    (debounce_sec : Q) (times : list Q) (w : WindowSum) : list bool * WindowSum :=
  match times with
  | [] => ([], w)
  | now :: times' =>
      let '(ok, w) := _check_gpio_debounce now cam_key area_id event_type debounce_sec w in
      let '(oks, w) := debounce_run cam_key area_id event_type debounce_sec times' w in
      (ok :: oks, w)
  end.

(** What the GPIO side of the window holds: the bridge, the GPIO log, the
    debounce table and the rate limiter that [trigger_pulse] consults. *)
Definition gpio_state (w : WindowSum) :=
  (gpio_bridge w, gpio_text w, gpio_last_trigger_ts w, _limiter w).

(** The counts of a zone that the window holds: the realtime count and
    the baseline. *)
Definition zone_counts (cam_key : string) (area_id : Z) (w : WindowSum)
    : option Z * option Z :=
  (default ∅ (realtime_counts w !! cam_key) !! area_id, baseline cam_key area_id w).

(** What a part of the handler leaves alone: the flags and the check boxes
    that decide on a pulse, and the counts. *)
Definition kept (w w' : WindowSum) : Prop :=
  _closing w' = _closing w ∧ enabled_areas w' = enabled_areas w ∧
  _last_people_total w' = _last_people_total w ∧
  realtime_counts w' = realtime_counts w.


End RuleEngineRuns.

(* ===================================================================== *)
(** * More scenarios *)
(* ===================================================================== *)

Module ScenarioMore.
Import LogRateLimit DbModule DbQueries WindowMain StayAlarm RuleEngineRuns Scenario.

(** A database with two delta rows and three log rows; the delta row with
    id 2 was purged before. *)
Definition no_payload : event_data :=
  mkEvent None None None None None None None None None None.

Definition drow (e : Z) : delta_row :=
  mkDeltaRow (TsFormatted e) e "cam1" 2 1 no_payload.

Definition lrow (e : Z) : log_row :=
  mkLogRow (TsFormatted e) e "cam1" "STAY_ALARM" (Some 2) "" no_payload.

Definition db3 : database :=
  mkDb (mkTable [(1, drow 13599); (3, drow 13600)] 3)
       (mkTable [(1, lrow 13599); (2, lrow 13600); (4, lrow 13601)] 4)
       empty_table.

(** An increase by 3 in zone 2 of "cam1", as the count handler hands it on. *)
Definition increase3 : event_data :=
  mkEvent (Some "PEOPLE_COUNT"%string) (Some "cam1"%string) (Some 2) (Some 8)
          None None (Some 1000) (Some 5) (Some 3) None.


(** A pulse of [bridge0] started at 100. *)
Definition bridge_started : GpioBridge.GpioBridge :=
  (GpioBridge.trigger_pulse 100 100 1 (init 1000) bridge0).2.

(** A bridge whose configuration disables it. *)
Definition bridge_disabled : GpioBridge.GpioBridge :=
  GpioBridge.mkBridge (GpioBridge.mkConf false 500 "extend" false)
                      true false 0%Q false false false false [].

(** The window with zone 2 of "cam1" checked, and the stay alarm with a
    cooldown of 10 s and a hold of 3000 ms. *)
Definition window_checked : WindowSum :=
  new_window false 2 {["cam1"%string := {["2"%string := true]}]}
             [("cam1"%string, "192.168.0.10"%string)] bridge0.

Definition stay0 : StayFields := mkStay ∅ ∅ ∅ 10 3000.

Definition stay_clock0 : stay_clock :=
  mkStayClock 1700000000 1700000000 1700000000 1700000000 1700000000.

Definition start2 : event_data := stay_alarm_event "cam1" "Start" (Some 2) 1700000000.




End ScenarioMore.

(* ===================================================================== *)
(** * Proofs *)
(* ===================================================================== *)

(* ===================================================================== *)
(** * The rate limiter *)
(* ===================================================================== *)

Section ordered_dict_facts.
Context {K : Type} `{EqDecision K} {V : Type}.
Implicit Types (d : list (K * V)) (key k : K) (v : V).

Lemma od_get_app key d1 d2 :
  LogRateLimit.od_get key (d1 ++ d2) =
    match LogRateLimit.od_get key d1 with
    | Some v => Some v
    | None => LogRateLimit.od_get key d2
    end.
Proof.
  induction d1 as [|[k v] d1 IH]; simpl; [done|].
  destruct (decide (k = key)); auto.
Qed.

Lemma od_get_remove_eq key d :
  LogRateLimit.od_get key (LogRateLimit.od_remove key d) = None.
Proof.
  unfold LogRateLimit.od_remove.
  induction d as [|[k v] d IH]; simpl; [done|].
  rewrite filter_cons. simpl. destruct (decide (k ≠ key)) as [Hne|Heq]; simpl; [|done].
  destruct (decide (k = key)); [done|auto].
Qed.

Lemma od_get_remove_ne key k d :
  key ≠ k →
  LogRateLimit.od_get k (LogRateLimit.od_remove key d) = LogRateLimit.od_get k d.
Proof.
  intros Hne. unfold LogRateLimit.od_remove.
  induction d as [|[k0 v] d IH]; simpl; [done|].
  rewrite filter_cons. simpl.
  destruct (decide (k0 ≠ key)) as [Hk|Hk]; simpl.
  - destruct (decide (k0 = k)); auto.
  - destruct (decide (k0 = k)); [|auto]. subst k0. destruct Hk. congruence.
Qed.

Lemma od_get_elem_of key v d :
  LogRateLimit.od_get key d = Some v → (key, v) ∈ d.
Proof.
  induction d as [|[k0 v0] d IH]; simpl; [done|].
  destruct (decide (k0 = key)) as [->|].
  - intros [= ->]. left.
  - intros. right. auto.
Qed.

(** Setting a key and moving it to the end: the entry goes last. *)
Lemma od_remove_set key v d :
  LogRateLimit.od_remove key (LogRateLimit.od_set key v d) = LogRateLimit.od_remove key d.
Proof.
  unfold LogRateLimit.od_remove.
  induction d as [|[k0 v0] d IH]; simpl.
  - rewrite filter_cons. simpl. destruct (decide (key ≠ key)); [done|]. done.
  - destruct (decide (k0 = key)) as [->|Hne].
    + rewrite !filter_cons. simpl. destruct (decide (key ≠ key)); done.
    + rewrite !filter_cons. simpl. destruct (decide (k0 ≠ key)); [|done].
      by rewrite IH.
Qed.

Lemma od_get_set_eq key v d :
  LogRateLimit.od_get key (LogRateLimit.od_set key v d) = Some v.
Proof.
  induction d as [|[k0 v0] d IH]; simpl.
  - by rewrite decide_True.
  - destruct (decide (k0 = key)) as [->|Hne]; simpl.
    + by rewrite decide_True.
    + by rewrite decide_False.
Qed.

Lemma od_touch key v d :
  LogRateLimit.od_move_to_end key (LogRateLimit.od_set key v d)
  = LogRateLimit.od_remove key d ++ [(key, v)].
Proof.
  unfold LogRateLimit.od_move_to_end.
  by rewrite od_get_set_eq, od_remove_set.
Qed.

Lemma od_get_touch key k v d :
  LogRateLimit.od_get k (LogRateLimit.od_remove key d ++ [(key, v)])
  = if decide (key = k) then Some v else LogRateLimit.od_get k d.
Proof.
  rewrite od_get_app. destruct (decide (key = k)) as [->|Hne].
  - rewrite od_get_remove_eq. simpl. by rewrite decide_True.
  - rewrite od_get_remove_ne by done. simpl. rewrite decide_False by done.
    by destruct (LogRateLimit.od_get k d).
Qed.
End ordered_dict_facts.

Section sorted_facts.
Context {A : Type}.

Lemma StronglySorted_filter_keep (R : relation A) (P : A → Prop)
    `{∀ x, Decision (P x)} (l : list A) :
  StronglySorted R l → StronglySorted R (filter P l).
Proof.
  induction 1 as [|x l Hl IH Hx]; [constructor|].
  rewrite filter_cons. destruct (decide (P x)); [|done].
  constructor; [done|].
  apply Forall_forall. intros y Hy. apply list_elem_of_filter in Hy as [_ Hy].
  rewrite Forall_forall in Hx. auto.
Qed.

Lemma StronglySorted_change (R R' : relation A) (l : list A) :
  (∀ x y, x ∈ l → y ∈ l → R x y → R' x y) →
  StronglySorted R l → StronglySorted R' l.
Proof.
  intros HR Hs. induction Hs as [|x l Hl IH Hx]; [constructor|].
  constructor.
  - apply IH. intros a b Ha Hb. apply HR; by right.
  - rewrite Forall_forall in Hx |- *. intros y Hy.
    apply HR; [left|by right|auto].
Qed.

Lemma StronglySorted_tail (R : relation A) (l : list A) :
  StronglySorted R l → StronglySorted R (tail l).
Proof. destruct 1; [constructor|done]. Qed.
End sorted_facts.

Section limiter_facts.
Context {K : Type} `{Countable K}.
Import LogRateLimit.
Implicit Types (s : LogRateLimiter K) (h : history K) (c : call K) (key k : K).

Lemma rank_le_length k h : (rank k h ≤ length h)%nat.
Proof.
  induction h as [|[c [a n]] h IH]; simpl; [lia|].
  destruct (decide (c_key c = k)); [destruct a|]; lia.
Qed.

Lemma never_called_last_allowed k h :
  never_called k h → last_allowed_time k h = None.
Proof.
  induction 1 as [|[c [a n]] h Hc Hh IH]; simpl; [done|].
  simpl in Hc. by rewrite decide_False.
Qed.

Lemma never_called_suppressed k h :
  never_called k h → suppressed_since k h = 0.
Proof.
  induction 1 as [|[c [a n]] h Hc Hh IH]; simpl; [done|].
  simpl in Hc. by rewrite decide_False.
Qed.

(** In an ordered dictionary sorted by [older] a key occurs once: what
    [popitem(last=False)] leaves is what was there. *)
Lemma od_get_tail_sorted h k t (d : list (K * Q)) :
  StronglySorted (older h) d →
  od_get k (tail d) = Some t → od_get k d = Some t.
Proof.
  destruct 1 as [|[k0 v0] d Hd Hall]; simpl; [done|].
  intros Hget. destruct (decide (k0 = k)) as [->|]; [|done].
  apply od_get_elem_of in Hget. rewrite Forall_forall in Hall.
  apply Hall in Hget. unfold older in Hget. simpl in Hget. lia.
Qed.

(** The allowed branch, before the eviction: the entries stay in the
    order of their last allowed call. *)
Lemma touch_sorted s h c n :
  StronglySorted (older h) (_last_log_time s) →
  StronglySorted (older ((c, (true, n)) :: h))
    (od_remove (c_key c) (_last_log_time s) ++ [(c_key c, c_now c)]).
Proof.
  intros Hs. apply StronglySorted_app_2.
  - intros [k1 v1] [k2 v2] H1 H2. apply list_elem_of_singleton in H2 as [= -> ->].
    apply list_elem_of_filter in H1 as [Hne _]. simpl in Hne.
    unfold older. simpl.
    destruct (decide (c_key c = k1)) as [Heq|_]; [by destruct Hne|].
    destruct (decide (c_key c = c_key c)); [|done].
    pose proof (rank_le_length k1 h). lia.
  - apply (StronglySorted_change (older h)).
    + intros [k1 v1] [k2 v2] H1 H2.
      apply list_elem_of_filter in H1 as [Hne1 _].
      apply list_elem_of_filter in H2 as [Hne2 _]. simpl in *.
      unfold older. simpl.
      destruct (decide (c_key c = k1)) as [Heq|_]; [by destruct Hne1|].
      by destruct (decide (c_key c = k2)) as [Heq|_]; [destruct Hne2|].
    + by apply StronglySorted_filter_keep.
  - repeat constructor.
Qed.

Lemma init_consistent max_keys : consistent (init (K := K) max_keys) [].
Proof. split; simpl; [done|done|constructor]. Qed.

Lemma step_consistent s h c :
  consistent s h → consistent (step (s, h) c).1 (step (s, h) c).2.
Proof.
  intros [Hc Ht Ho]. unfold step, should_log. simpl.
  destruct (Qlt_le_dec _ _) as [Hlt|Hle]; simpl.
  - split; simpl.
    + intros k. destruct (decide (c_key c = k)) as [<-|Hne].
      * rewrite lookup_insert_eq. simpl. by rewrite Hc.
      * rewrite lookup_insert_ne by done. apply Hc.
    + intros k t Hg. apply Ht in Hg. by destruct (decide (c_key c = k)).
    + eapply StronglySorted_change; [|exact Ho].
      intros [k1 v1] [k2 v2] _ _. unfold older. simpl.
      by destruct (decide (c_key c = k1)), (decide (c_key c = k2)).
  - rewrite od_touch.
    pose proof (touch_sorted s h c
                  (default 0 (_suppressed_counts s !! c_key c)) Ho) as Hsorted.
    split; simpl.
    + intros k. destruct (decide (c_key c = k)) as [<-|Hne].
      * by rewrite lookup_delete_eq.
      * rewrite lookup_delete_ne by done. apply Hc.
    + intros k t Hg.
      assert (od_get k (od_remove (c_key c) (_last_log_time s)
                        ++ [(c_key c, c_now c)]) = Some t) as Hg'.
      { destruct (_ >? _); [|done]. eapply od_get_tail_sorted; eauto. }
      rewrite od_get_touch in Hg'.
      destruct (decide (c_key c = k)); [done|auto].
    + destruct (_ >? _); [|done]. by apply StronglySorted_tail.
Qed.

Lemma run_consistent cs s h :
  consistent s h → consistent (run cs (s, h)).1 (run cs (s, h)).2.
Proof.
  revert s h. induction cs as [|c cs IH]; intros s h Hc; [done|].
  simpl. pose proof (step_consistent s h c Hc) as Hs.
  destruct (step (s, h) c) as [s1 h1]. by apply IH.
Qed.
End limiter_facts.

Section limiter_claims.
Context {K : Type} `{Countable K}.
Import LogRateLimit.
Implicit Types (s : LogRateLimiter K) (h : history K) (c : call K) (key k : K).

Lemma tracked_last_allowed s h key t0 :
  consistent s h → tracked key s → last_allowed_time key h = Some t0 →
  od_get key (_last_log_time s) = Some t0.
Proof.
  intros Hc [t Ht] Hl. pose proof (cons_times _ _ Hc _ _ Ht). congruence.
Qed.

Lemma untracked_allowed s h key now T :
  consistent s h → ¬ tracked key s → (T <= now)%Q →
  (should_log now key T s).1 = (true, suppressed_since key h).
Proof.
  intros Hc Hu HT. unfold should_log.
  assert (od_get key (_last_log_time s) = None) as ->.
  { destruct (od_get key (_last_log_time s)) eqn:E; [|done].
    destruct Hu. unfold tracked. rewrite E. eauto. }
  simpl. destruct (Qlt_le_dec _ _) as [Hlt|Hle]; simpl.
  - exfalso. lra.
  - by rewrite (cons_counts _ _ Hc).
Qed.

Lemma step_max_keys s h c : _max_keys (step (s, h) c).1 = _max_keys s.
Proof.
  unfold step, should_log. simpl. by destruct (Qlt_le_dec _ _).
Qed.

Lemma run_max_keys cs s h : _max_keys (run cs (s, h)).1 = _max_keys s.
Proof.
  revert s h. induction cs as [|c cs IH]; intros s h; [done|].
  simpl. pose proof (step_max_keys s h c) as Hs.
  destruct (step (s, h) c) as [s1 h1]. simpl in Hs. by rewrite IH.
Qed.

Lemma od_remove_untracked (d : list (K * Q)) key :
  od_get key d = None → od_remove key d = d.
Proof.
  unfold od_remove. induction d as [|[k0 v0] d IH]; simpl; [done|].
  destruct (decide (k0 = key)) as [->|Hne]; [done|].
  intros Hg. rewrite filter_cons. simpl.
  destruct (decide (k0 ≠ key)); [|done]. by rewrite IH.
Qed.

(** C5 (as amended).  After any calls [cs] on a new limiter, the next
    call, for [key] with interval [T] at clock reading [now]:
    - returns (true, 0) when it is the first call for [key] and the clock
      reading is at least [T];
    - returns (false, 0) and adds one to the suppressed counter of [key]
      when [key] still has its timestamp (it was not evicted) and the call
      is strictly within [T] of the last allowed call for [key];
    - returns (true, k) when [key] still has its timestamp and the call
      is at least [T] after the last allowed call, where k is the number
      of calls for [key] suppressed since that allowed call. *)
Theorem should_log_contract (max_keys : Z) (cs : list (call K))
    (now : Q) (key : K) (T : Q) :
  let st := run cs (init max_keys, []) in
  let res := should_log now key T st.1 in
  (never_called key st.2 → (T <= now)%Q → res.1 = (true, 0)) ∧
  (∀ t0, last_allowed_time key st.2 = Some t0 → tracked key st.1 →
         (now - t0 < T)%Q →
         res.1 = (false, 0) ∧
         _suppressed_counts res.2 !! key = Some (suppressed_since key st.2 + 1) ∧
         suppressed_since key ((mkCall now key T, res.1) :: st.2)
         = suppressed_since key st.2 + 1) ∧
  (∀ t0, last_allowed_time key st.2 = Some t0 → tracked key st.1 →
         (T <= now - t0)%Q →
         res.1 = (true, suppressed_since key st.2)).
Proof.
  intros st res. subst res.
  assert (consistent st.1 st.2) as Hc
    by apply run_consistent, init_consistent.
  clearbody st. destruct st as [s h]. simpl in *.
  split; [|split].
  - intros Hn HT.
    rewrite <- (never_called_suppressed key h Hn).
    apply untracked_allowed; [done| |done].
    intros [t Ht]. apply (cons_times _ _ Hc) in Ht.
    by rewrite never_called_last_allowed in Ht.
  - intros t0 Hl Ht Hlt.
    pose proof (tracked_last_allowed _ _ _ _ Hc Ht Hl) as Hg.
    unfold should_log. rewrite Hg. simpl.
    destruct (Qlt_le_dec _ _) as [_|Hle]; [|exfalso; lra]. simpl.
    rewrite lookup_insert_eq, (cons_counts _ _ Hc).
    by rewrite decide_True.
  - intros t0 Hl Ht Hle.
    pose proof (tracked_last_allowed _ _ _ _ Hc Ht Hl) as Hg.
    unfold should_log. rewrite Hg. simpl.
    destruct (Qlt_le_dec _ _) as [Hlt|_]; [exfalso; lra|]. simpl.
    by rewrite (cons_counts _ _ Hc).
Qed.

(** C10.  Let a call [c], made after any calls [cs] on a new limiter, be
    allowed, and let [kh] be a key that had its timestamp before [c] (or
    is the key of [c]) and has none after it: [kh] was evicted.  Then
    - [kh] is the least recently allowed of the keys: every key that
      still has a timestamp was allowed after the last allowed call of [kh];
    - the suppressed counter of [kh] is untouched (for [kh] other than the
      key of [c]);
    - the next call for [kh] is allowed whatever its distance to the last
      allowed call of [kh], for an interval that does not exceed the clock
      reading, and returns the number of calls for [kh] suppressed since
      that allowed call, all of them before the eviction.
    Moreover a call for a key without timestamp, made when [max_keys] or
    more keys have one, drops the first entry of the ordered dictionary. *)
Theorem eviction_keeps_suppressed_count (max_keys : Z) (cs : list (call K))
    (c : call K) (kh : K) :
  let st := run cs (init max_keys, []) in
  let st' := step st c in
  (should_log (c_now c) (c_key c) (c_interval c) st.1).1.1 = true →
  (¬ tracked (c_key c) st.1 →
   max_keys <= Z.of_nat (length (_last_log_time st.1)) →
   _last_log_time st'.1 = tail (_last_log_time st.1 ++ [(c_key c, c_now c)])) ∧
  (tracked kh st.1 ∨ kh = c_key c → ¬ tracked kh st'.1 →
   (∀ k', tracked k' st'.1 → (rank kh st'.2 < rank k' st'.2)%nat) ∧
   (kh ≠ c_key c →
    _suppressed_counts st'.1 !! kh = _suppressed_counts st.1 !! kh ∧
    suppressed_since kh st'.2 = suppressed_since kh st.2) ∧
   (∀ now' T', (T' <= now')%Q →
      (should_log now' kh T' st'.1).1 = (true, suppressed_since kh st'.2))).
Proof.
  intros st st' Hallowed.
  assert (consistent st.1 st.2) as Hc
    by apply run_consistent, init_consistent.
  assert (_max_keys st.1 = max_keys) as Hmax by apply run_max_keys.
  clearbody st. destruct st as [s h].
  pose proof (step_consistent _ _ c Hc) as Hc'.
  subst st'. unfold step in *. simpl in *.
  unfold should_log in *.
  destruct (Qlt_le_dec _ _) as [Hlt|Hle]; [done|]. simpl in *. clear Hallowed.
  rewrite od_touch in *.
  set (n := default 0 (_suppressed_counts s !! c_key c)) in *.
  set (X := od_remove (c_key c) (_last_log_time s) ++ [(c_key c, c_now c)]) in *.
  pose proof (touch_sorted s h c n (cons_order _ _ Hc)) as HX. fold X in HX.
  split.
  - intros Hu Hfull.
    assert (od_get (c_key c) (_last_log_time s) = None) as Hnone.
    { destruct (od_get (c_key c) (_last_log_time s)) eqn:E; [|done].
      destruct Hu. unfold tracked. rewrite E. eauto. }
    assert (X = _last_log_time s ++ [(c_key c, c_now c)]) as EX
      by (subst X; by rewrite od_remove_untracked).
    clearbody X. subst X.
    destruct (_ >? _) eqn:E; [reflexivity|].
    rewrite Z.gtb_ltb, Z.ltb_ge, length_app in E. simpl in E, Hmax. lia.
  - intros Hwas Hgone.
    assert (is_Some (od_get kh X)) as [v Hv].
    { subst X. rewrite od_get_touch.
      destruct (decide (c_key c = kh)); [eauto|].
      destruct Hwas as [Ht | ->]; [exact Ht|done]. }
    unfold tracked in Hgone. simpl in Hgone.
    destruct (Z.of_nat (length X) >? _max_keys s) eqn:E;
      [|destruct Hgone; rewrite Hv; eauto].
    destruct X as [|[k0 v0] rest] eqn:EX; [done|]. simpl in *.
    destruct (decide (k0 = kh)) as [->|Hne];
      [|destruct Hgone; rewrite Hv; eauto].
    split; [|split].
    + intros k' [t Ht]. simpl in Ht. apply od_get_elem_of in Ht.
      apply StronglySorted_cons in HX as [Hall _].
      rewrite Forall_forall in Hall. apply (Hall _ Ht).
    + intros Hk. rewrite lookup_delete_ne by done.
      split; [done|]. by rewrite decide_False.
    + intros now' T' HT.
      apply (untracked_allowed _ _ _ _ _ Hc'); [|done].
      exact Hgone.
Qed.
End limiter_claims.

(** C5, witness: the three cases at concrete calls. *)
Lemma should_log_contract_witness :
  (LogRateLimit.should_log 1000 "a"%string 60
     (LogRateLimit.run [] (LogRateLimit.init 1000, [])).1).1 = (true, 0) ∧
  (LogRateLimit.should_log 1010 "a"%string 60
     (LogRateLimit.run [LogRateLimit.mkCall 1000 "a"%string 60]
        (LogRateLimit.init 1000, [])).1).1 = (false, 0) ∧
  (LogRateLimit.should_log 1060 "a"%string 60
     (LogRateLimit.run [LogRateLimit.mkCall 1000 "a"%string 60;
                        LogRateLimit.mkCall 1010 "a"%string 60;
                        LogRateLimit.mkCall 1020 "a"%string 60]
        (LogRateLimit.init 1000, [])).1).1 = (true, 2).
Proof.
  split; [|split].
  - destruct (should_log_contract 1000 [] 1000 "a"%string 60) as (Hfirst & _ & _).
    apply Hfirst.
    + constructor.
    + vm_compute. discriminate.
  - destruct (should_log_contract 1000 [LogRateLimit.mkCall 1000 "a"%string 60]
                1010 "a"%string 60) as (_ & Hwithin & _).
    apply (Hwithin 1000%Q).
    + reflexivity.
    + vm_compute. eauto.
    + reflexivity.
  - destruct (should_log_contract 1000
                [LogRateLimit.mkCall 1000 "a"%string 60;
                 LogRateLimit.mkCall 1010 "a"%string 60;
                 LogRateLimit.mkCall 1020 "a"%string 60] 1060 "a"%string 60)
      as (_ & _ & Hafter).
    apply (Hafter 1000%Q).
    + reflexivity.
    + vm_compute. eauto.
    + vm_compute. discriminate.
Defined.

(** C5, counterexample: with room for one key, "a" is allowed at 1000 and
    evicted by "b" at 1001; the call for "a" at 1002, 2 s after its last
    allowed call and strictly within the 60 s interval, is allowed. *)
Lemma should_log_within_interval_after_eviction :
  let st := LogRateLimit.run [LogRateLimit.mkCall 1000 "a"%string 60;
                              LogRateLimit.mkCall 1001 "b"%string 60]
              (LogRateLimit.init 1, []) in
  LogRateLimit.last_allowed_time "a"%string st.2 = Some 1000%Q ∧
  (1002 - 1000 < 60)%Q ∧
  (LogRateLimit.should_log 1002 "a"%string 60 st.1).1 = (true, 0).
Proof. vm_compute. repeat split; reflexivity. Qed.

(** C10, witness: room for one key; "a" is allowed at 1000, suppressed at
    1001 and evicted by "b" at 1002. *)
Lemma eviction_keeps_suppressed_count_witness :
  let c := LogRateLimit.mkCall 1002 "b"%string 60 in
  let st := LogRateLimit.run [LogRateLimit.mkCall 1000 "a"%string 60;
                              LogRateLimit.mkCall 1001 "a"%string 60]
              (LogRateLimit.init 1, []) in
  LogRateLimit._last_log_time (LogRateLimit.step st c).1 = [("b"%string, 1002%Q)] ∧
  (LogRateLimit.should_log 1003 "a"%string 60 (LogRateLimit.step st c).1).1 = (true, 1).
Proof.
  intros c st.
  pose proof (eviction_keeps_suppressed_count 1
                [LogRateLimit.mkCall 1000 "a"%string 60;
                 LogRateLimit.mkCall 1001 "a"%string 60] c "a"%string) as Hthm.
  cbv zeta in Hthm. fold st in Hthm.
  destruct Hthm as [Hdrop Hev]; [reflexivity|].
  split.
  - apply Hdrop.
    + vm_compute. intros [x Hx]. discriminate.
    + vm_compute. discriminate.
  - destruct Hev as (_ & _ & Hnext).
    + left. vm_compute. eauto.
    + vm_compute. intros [x Hx]. discriminate.
    + apply (Hnext 1003%Q 60%Q). vm_compute. discriminate.
Defined.

(* ===================================================================== *)
(** * The reconnect loop *)
(* ===================================================================== *)

Section backoff.
Import CgiClient.

(** Doubling with the cap, [i] times, from [b]. *)
Lemma double_cap_pow (b : Z) (i : nat) :
  0 < b →
  Z.min (Z.min (b * 2) 30 * 2 ^ Z.of_nat i) 30 = Z.min (b * 2 ^ Z.of_nat (S i)) 30.
Proof.
  intros Hb. rewrite Nat2Z.inj_succ, Z.pow_succ_r by lia.
  assert (1 <= 2 ^ Z.of_nat i) by (apply Z.pow_le_mono_r with (b := 0); lia).
  destruct (Z.le_gt_cases (b * 2) 30).
  - rewrite (Z.min_l (b * 2) 30) by done. f_equal. lia.
  - rewrite (Z.min_r (b * 2) 30) by lia.
    rewrite !Z.min_r; [done|nia|nia].
Qed.

Lemma failure_body (it : iteration) (b : Z) :
  failure (outcome it) → stop it = false →
  loop_body it b = ([b], Z.min (b * 2) 30).
Proof.
  unfold loop_body, sleep_and_double. intros Hf ->.
  destruct (outcome it) as [[]|st reads fin]; simpl in Hf; [done|done|].
  by rewrite (proj2 (Z.eqb_neq st 200)).
Qed.

Lemma failures_from (its : list iteration) (b : Z) :
  0 < b <= 30 →
  Forall (λ it, failure (outcome it) ∧ stop it = false) its →
  run_from its b =
    ((λ i : nat, Z.min (b * 2 ^ Z.of_nat i) 30) <$> seq 0 (length its),
     Z.min (b * 2 ^ Z.of_nat (length its)) 30).
Proof.
  intros Hb Hall. revert b Hb.
  induction Hall as [|it its [Hf Hs] Hall IH]; intros b Hb.
  - simpl. f_equal. lia.
  - cbn [run_from length seq fmap list_fmap].
    rewrite (failure_body it b Hf Hs), Hs.
    rewrite IH by lia.
    rewrite <- fmap_S_seq, <- list_fmap_compose. cbn [app].
    f_equal; [f_equal|].
    + simpl. lia.
    + apply list_fmap_ext. intros _ i _. simpl.
      apply double_cap_pow. lia.
    + apply double_cap_pow. lia.
Qed.

(** C4 (as amended).  In [_BaseCgiThread.run]:
    - passes that fail (a response other than 200, or an exception other
      than a read timeout) sleep 1, 2, 4, 8, 16, 30, 30, ... seconds: the
      i-th of consecutive failures from the start sleeps min(2^i, 30);
    - a pass that gets HTTP 200 sets the delay to 1 whatever it was and
      however many reads were accepted, none included: it sleeps 1 and
      leaves 2 for the next pass;
    - a failing pass does not reset: it sleeps the current delay;
    - a read timeout sleeps nothing; before a response it leaves the delay
      as it is, after a status 200 the delay is already 1. *)
Theorem backoff_doubles_and_resets_on_http_200 :
  (∀ its, Forall (λ it, failure (outcome it) ∧ stop it = false) its →
     (run its).1 = (λ i : nat, Z.min (2 ^ Z.of_nat i) 30) <$> seq 0 (length its)) ∧
  (∀ b reads fin, fin ≠ Raised ReadTimeout →
     loop_body (mkIter (Response 200 reads fin) false) b = ([1], 2)) ∧
  (∀ b a, failure a → loop_body (mkIter a false) b = ([b], Z.min (b * 2) 30)) ∧
  (∀ b s, loop_body (mkIter (GetRaised ReadTimeout) s) b = ([], b)) ∧
  (∀ b s reads,
     loop_body (mkIter (Response 200 reads (Raised ReadTimeout)) s) b = ([], 1)).
Proof.
  split; [|split; [|split; [|split]]].
  - intros its Hall. unfold run. rewrite failures_from by (done || lia).
    simpl. apply list_fmap_ext. intros _ i _. simpl. f_equal. lia.
  - intros b reads fin Hfin. unfold loop_body. simpl.
    destruct fin as [|[]]; done.
  - intros b a Hf. by apply failure_body.
  - done.
  - done.
Qed.
End backoff.

(** C4, witness: seven failing passes sleep 1, 2, 4, 8, 16, 30, 30. *)
Lemma backoff_doubles_and_resets_on_http_200_witness :
  (CgiClient.run
     (replicate 7 (CgiClient.mkIter (CgiClient.GetRaised CgiClient.OtherException) false))).1
  = [1; 2; 4; 8; 16; 30; 30] ∧
  CgiClient.loop_body
    (CgiClient.mkIter (CgiClient.Response 200 3 (CgiClient.Raised CgiClient.OtherException)) false) 16
  = ([1], 2) ∧
  CgiClient.loop_body (CgiClient.mkIter (CgiClient.Response 503 0 CgiClient.Returned) false) 8
  = ([8], 16).
Proof.
  destruct backoff_doubles_and_resets_on_http_200 as (Hseq & Hreset & Hfail & _ & _).
  split; [|split].
  - apply (Hseq (replicate 7 (CgiClient.mkIter
                    (CgiClient.GetRaised CgiClient.OtherException) false))).
    repeat constructor.
  - apply Hreset. discriminate.
  - apply (Hfail 8). simpl. discriminate.
Defined.

(** C4, counterexample: after three failures a connection answers 200 and
    ends before any read is accepted.  It is no success in the sense of the
    claim, yet the delay is reset: the sleeps are 1, 2, 4, then 1, then 2. *)
Lemma backoff_reset_without_any_read :
  let fail := CgiClient.mkIter (CgiClient.GetRaised CgiClient.OtherException) false in
  let empty_200 := CgiClient.mkIter (CgiClient.Response 200 0 CgiClient.Returned) false in
  CgiClient.success_with_read (CgiClient.outcome empty_200) = false ∧
  CgiClient.run [fail; fail; fail; empty_200; fail] = ([1; 2; 4; 1; 2], 4).
Proof. split; reflexivity. Qed.

(* ===================================================================== *)
(** * The event store *)
(* ===================================================================== *)

Section store.
Import DbModule.

Lemma sql_delete_rows {R} (cond : R → bool) (t : table R) :
  rows (sql_delete cond t).2 = filter (λ ir, cond ir.2 = false) (rows t).
Proof.
  unfold sql_delete. simpl. induction (rows t) as [|ir l IH]; [done|].
  simpl. rewrite filter_cons.
  destruct (decide (cond ir.2 = false)) as [E|E].
  - rewrite E. simpl. by rewrite IH.
  - apply not_false_is_true in E. rewrite E. exact IH.
Qed.

Lemma sql_delete_count {R} (cond : R → bool) (t : table R) :
  (sql_delete cond t).1
  = Z.of_nat (length (rows t)) - Z.of_nat (length (rows (sql_delete cond t).2)).
Proof. done. Qed.

Lemma filter_ext_in {A} (P Q : A → Prop) `{∀ x, Decision (P x)}
    `{∀ x, Decision (Q x)} (l : list A) :
  (∀ x, x ∈ l → P x ↔ Q x) → filter P l = filter Q l.
Proof.
  induction l as [|x l IH]; intros HPQ; [done|].
  rewrite !filter_cons.
  assert (filter P l = filter Q l) as -> by (apply IH; intros; apply HPQ; by right).
  pose proof (HPQ x ltac:(left)) as Hx.
  destruct (decide (P x)), (decide (Q x)); tauto.
Qed.

Lemma purge_old_events_eq now retention_days db :
  let cutoff_epoch := now - retention_days * 24 * 3600 in
  let d1 := sql_delete (λ r, d_ts_epoch r <? cutoff_epoch) (people_delta_events db) in
  let d2 := sql_delete (λ r, l_ts_epoch r <? cutoff_epoch) (event_logs db) in
  let d3 := sql_delete (λ r, sql_lt (e_ts_epoch r) cutoff_epoch) (events db) in
  purge_old_events now retention_days db
  = (0 + d1.1 + d2.1 + d3.1, mkDb d1.2 d2.2 d3.2).
Proof. reflexivity. Qed.

(** C8.  [purge_old_events] at clock second [now] keeps, in each of the
    three tables and in their order, exactly the rows whose [ts_epoch]
    is not strictly below [now - retention_days * 86400]; a row at the
    cutoff stays; the count it returns is the number of rows removed
    from the three tables together. *)
Theorem purge_old_events_strict_cutoff (now retention_days : Z) (db : database) :
  let cutoff := now - retention_days * 86400 in
  let res := purge_old_events now retention_days db in
  rows (people_delta_events res.2)
    = filter (λ ir, ¬ d_ts_epoch ir.2 < cutoff) (rows (people_delta_events db)) ∧
  rows (event_logs res.2)
    = filter (λ ir, ¬ l_ts_epoch ir.2 < cutoff) (rows (event_logs db)) ∧
  rows (events res.2)
    = filter (λ ir, ¬ old cutoff (e_ts_epoch ir.2)) (rows (events db)) ∧
  (∀ ir, ir ∈ rows (people_delta_events db) → d_ts_epoch ir.2 = cutoff →
         ir ∈ rows (people_delta_events res.2)) ∧
  (∀ ir, ir ∈ rows (event_logs db) → l_ts_epoch ir.2 = cutoff →
         ir ∈ rows (event_logs res.2)) ∧
  (∀ ir, ir ∈ rows (events db) → e_ts_epoch ir.2 = Some cutoff →
         ir ∈ rows (events res.2)) ∧
  res.1 =
    (Z.of_nat (length (rows (people_delta_events db)))
     - Z.of_nat (length (rows (people_delta_events res.2))))
    + (Z.of_nat (length (rows (event_logs db)))
       - Z.of_nat (length (rows (event_logs res.2))))
    + (Z.of_nat (length (rows (events db)))
       - Z.of_nat (length (rows (events res.2)))).
Proof.
  intros cutoff res.
  assert (now - retention_days * 24 * 3600 = cutoff) as Hcut by (unfold cutoff; lia).
  assert (rows (people_delta_events res.2)
          = filter (λ ir, ¬ d_ts_epoch ir.2 < cutoff) (rows (people_delta_events db))) as H1.
  { subst res. rewrite purge_old_events_eq, Hcut. cbn [snd people_delta_events event_logs events].
    rewrite (sql_delete_rows (λ r, d_ts_epoch r <? cutoff)).
    apply filter_ext_in. intros ir _. by rewrite Z.ltb_ge, Z.nlt_ge. }
  assert (rows (event_logs res.2)
          = filter (λ ir, ¬ l_ts_epoch ir.2 < cutoff) (rows (event_logs db))) as H2.
  { subst res. rewrite purge_old_events_eq, Hcut. cbn [snd people_delta_events event_logs events].
    rewrite (sql_delete_rows (λ r, l_ts_epoch r <? cutoff)).
    apply filter_ext_in. intros ir _. by rewrite Z.ltb_ge, Z.nlt_ge. }
  assert (rows (events res.2)
          = filter (λ ir, ¬ old cutoff (e_ts_epoch ir.2)) (rows (events db))) as H3.
  { subst res. rewrite purge_old_events_eq, Hcut. cbn [snd people_delta_events event_logs events].
    rewrite (sql_delete_rows (λ r, sql_lt (e_ts_epoch r) cutoff)).
    apply filter_ext_in. intros ir _. unfold sql_lt, old.
    destruct (e_ts_epoch ir.2) as [e|].
    - rewrite Z.ltb_ge. split.
      + intros Hle (e' & [= <-] & Hlt). lia.
      + intros Hn. apply Z.nlt_ge. intros Hlt. apply Hn. eauto.
    - split; [|done]. intros _ (e' & [=] & _). }
  repeat split; try done.
  - intros ir Hin Heq. rewrite H1. apply list_elem_of_filter. split; [lia|done].
  - intros ir Hin Heq. rewrite H2. apply list_elem_of_filter. split; [lia|done].
  - intros ir Hin Heq. rewrite H3. apply list_elem_of_filter. split; [|done].
    intros (e & He & Hlt). rewrite Heq in He. injection He as <-. lia.
Qed.



End store.

(** C8, witness: retention of one day at second 100000; the cutoff is
    13600.  The rows at 13599 go, the rows at 13600 and later stay, a NULL
    stays; three rows are reported. *)
Lemma purge_old_events_strict_cutoff_witness :
  let ev := DbModule.mkEvent None None None None None None None None None None in
  let drow e := DbModule.mkDeltaRow (DbModule.TsFormatted e) e "cam1" 2 1 ev in
  let lrow e := DbModule.mkLogRow (DbModule.TsFormatted e) e "cam1" "APP_START" None "" ev in
  let db := DbModule.mkDb
    (DbModule.mkTable [(1, drow 13599); (2, drow 13600); (3, drow 13601)] 3)
    (DbModule.mkTable [(1, lrow 13599); (2, lrow 13600)] 2)
    (DbModule.mkTable [(1, DbModule.mkLegacyRow None "{}");
                       (2, DbModule.mkLegacyRow (Some 13599) "{}");
                       (3, DbModule.mkLegacyRow (Some 13600) "{}")] 3) in
  (2, drow 13600) ∈ DbModule.rows (DbModule.people_delta_events
                                     (DbModule.purge_old_events 100000 1 db).2) ∧
  (2, lrow 13600) ∈ DbModule.rows (DbModule.event_logs
                                     (DbModule.purge_old_events 100000 1 db).2) ∧
  (3, DbModule.mkLegacyRow (Some 13600) "{}")
    ∈ DbModule.rows (DbModule.events (DbModule.purge_old_events 100000 1 db).2) ∧
  (DbModule.purge_old_events 100000 1 db).1 = 3.
Proof.
  intros ev drow lrow db.
  destruct (purge_old_events_strict_cutoff 100000 1 db)
    as (_ & _ & _ & Hd & Hl & He & Hcount).
  split; [|split; [|split]].
  - apply Hd; [|reflexivity]. right. left.
  - apply Hl; [|reflexivity]. right. left.
  - apply He; [|reflexivity]. right. right. left.
  - rewrite Hcount. reflexivity.
Defined.


(* ===================================================================== *)
(** * The GPIO pulse *)
(* ===================================================================== *)

Section pulse.
Import LogRateLimit GpioBridge.


End pulse.


(* ===================================================================== *)
(** * The rule engine: [_handle_people_count] *)
(* ===================================================================== *)

Section rule_engine.
Import LogRateLimit DbModule WindowMain.

Lemma ensure_key_default {V} (k : string) (d : gmap string (gmap Z V)) :
  default ∅ (ensure_key k d !! k) = default ∅ (d !! k).
Proof.
  unfold ensure_key. destruct (d !! k) eqn:E; [by rewrite E|].
  by rewrite lookup_insert_eq.
Qed.


Lemma baseline_nested_set cam area c cam' area' w v :
  _last_people_total v = nested_set cam area c (_last_people_total w) →
  baseline cam' area' v =
    if decide (cam = cam' ∧ area = area') then Some c else baseline cam' area' w.
Proof.
  unfold baseline, nested_set. intros ->.
  destruct (decide (cam = cam')) as [<-|Hc].
  - rewrite lookup_insert_eq. simpl.
    destruct (decide (area = area')) as [<-|Ha].
    + rewrite lookup_insert_eq. by rewrite decide_True.
    + rewrite lookup_insert_ne by done. rewrite decide_False; [done|]. by intros [_ ?].
  - rewrite lookup_insert_ne by done. rewrite decide_False; [done|]. by intros [? _].
Qed.

(** ** What the parts of the handler leave alone *)

Lemma add_event_log_frame msg w :
  db (add_event_log msg w) = db w ∧
  _last_people_total (add_event_log msg w) = _last_people_total w ∧
  _closing (add_event_log msg w) = _closing w.
Proof. unfold add_event_log. by destruct (_ && _). Qed.

Lemma people_record_frame clk cam area b c d ev w :
  db (people_record clk cam area b c d ev w)
    = enqueue_event (t_insert clk)
        (set_delta b c d (people_message cam area d c) ev) (db w) ∧
  _last_people_total (people_record clk cam area b c d ev w) = _last_people_total w ∧
  _closing (people_record clk cam area b c d ev w) = _closing w.
Proof.
  unfold people_record.
  destruct (0 <? d); [|done].
  destruct (Qlt_le_dec _ _); [done|].
  set (w1 := set_last_event_timestamps _ _).
  destruct (add_event_log_frame (people_message cam area d c) w1) as (Hd & Hl & Hc).
  set (w2 := set_total_events _ _).
  assert (db w2 = db w1 ∧ _last_people_total w2 = _last_people_total w1
          ∧ _closing w2 = _closing w1) as (Hd2 & Hl2 & Hc2)
    by (subst w2; cbn; auto).
  clearbody w2.
  destruct (chk_show_debug w2).
  - match goal with
    | |- context [add_event_log ?m w2] =>
        destruct (add_event_log_frame m w2) as (Hd3 & Hl3 & Hc3)
    end.
    rewrite Hd3, Hl3, Hc3, Hd2, Hl2, Hc2. done.
  - rewrite Hd2, Hl2, Hc2. done.
Qed.

Lemma people_gpio_frame clk cam area d c w :
  db (people_gpio clk cam area d c w) = db w ∧
  _last_people_total (people_gpio clk cam area d c w) = _last_people_total w.
Proof.
  unfold people_gpio, _check_gpio_debounce, add_gpio_log.
  destruct (negb _); [|done].
  destruct (Qlt_le_dec _ _); [done|].
  cbn [gpio_bridge _limiter set_gpio_text set_gpio_last_trigger_ts].
  by destruct (GpioBridge.trigger_pulse _ _ _ _ _).
Qed.

Lemma set_area_count_frame cam area c w :
  db (set_area_count cam area c w) = db w ∧
  _last_people_total (set_area_count cam area c w) = _last_people_total w.
Proof.
  unfold set_area_count. destruct (camera_items w !! cam) as [leds|]; [|done].
  by destruct (leds !! area).
Qed.

(** A snapshot for a zone with a baseline: the result exists, and what it
    does to the store and to the baseline. *)
Lemma handle_known_baseline clk cam area c e b w :
  baseline cam area w = Some b → 0 <= c →
  ∃ w', _handle_people_count clk (people_count_event cam area c e) w = Some w' ∧
    db w' = (if decide (c - b ≠ 0)
             then enqueue_event (t_insert clk)
                    (set_delta b c (c - b) (people_message cam area (c - b) c)
                       (people_count_event cam area c e)) (db w)
             else db w) ∧
    ∀ cam' area',
      baseline cam' area' w' =
        if (0 <? c - b) && _closing w then baseline cam' area' w
        else if decide (cam = cam' ∧ area = area') then Some c
             else baseline cam' area' w.
Proof.
  intros Hb Hc. unfold _handle_people_count.
  cbn [people_count_event ev_camera_key ev_area_id ev_count mbind option_bind].
  rewrite (proj2 (Z.ltb_ge c 0)) by done.
  set (w1 := set_last_people_total (ensure_key cam (_last_people_total w)) w).
  assert (∀ cam' area', baseline cam' area' w1 = baseline cam' area' w) as Hb1.
  { intros cam' area'. unfold baseline, w1. simpl.
    destruct (decide (cam = cam')) as [<-|Hne]; [by rewrite ensure_key_default|].
    unfold ensure_key. destruct (_last_people_total w !! cam); [done|].
    by rewrite lookup_insert_ne. }
  rewrite Hb1, Hb.
  set (w2 := set_ui_dirty true (set_realtime_counts _ w1)).
  assert (db w2 = db w ∧ _closing w2 = _closing w
          ∧ ∀ cam' area', baseline cam' area' w2 = baseline cam' area' w)
    as (Hdb2 & Hcl2 & Hb2) by (split_and!; [done|done|exact Hb1]).
  clearbody w2. clear w1 Hb1.
  set (w3 := if decide (c - b ≠ 0) then _ else w2).
  assert (db w3 = (if decide (c - b ≠ 0)
                   then enqueue_event (t_insert clk)
                          (set_delta b c (c - b) (people_message cam area (c - b) c)
                             (people_count_event cam area c e)) (db w)
                   else db w)
          ∧ _closing w3 = _closing w
          ∧ ∀ cam' area', baseline cam' area' w3 = baseline cam' area' w)
    as (Hdb3 & Hcl3 & Hb3).
  { subst w3. destruct (decide (c - b ≠ 0)); [|done].
    destruct (people_record_frame clk cam area b c (c - b)
                (people_count_event cam area c e) w2) as (H1 & H2 & H3).
    rewrite H1, H3, Hdb2. split_and!; [done|done|].
    intros cam' area'. unfold baseline. rewrite H2. apply Hb2. }
  clearbody w3. clear w2 Hdb2 Hcl2 Hb2.
  rewrite Hcl3.
  destruct ((0 <? c - b) && _closing w) eqn:Hret.
  - exists w3. split; [reflexivity|]. split; [exact Hdb3|exact Hb3].
  - eexists. split; [reflexivity|].
    set (w4 := if 0 <? c - b then _ else w3).
    assert (db w4 = db w3 ∧ _last_people_total w4 = _last_people_total w3)
      as (Hdb4 & Hl4).
    { subst w4. destruct (0 <? c - b); [|done]. apply people_gpio_frame. }
    clearbody w4.
    destruct (set_area_count_frame cam area c w4) as (Hdb5 & Hl5).
    split.
    + cbn [db set_last_people_total]. by rewrite Hdb5, Hdb4.
    + intros cam' area'.
      rewrite (baseline_nested_set cam area c cam' area' w3); [|].
      * by rewrite Hb3.
      * cbn [_last_people_total set_last_people_total]. by rewrite Hl5, Hl4.
Qed.



(** The baseline after a snapshot for a zone that has one: it is the
    count, unless the count went up while the window is closing. *)
Lemma baseline_after_snapshot clk cam area c e b w :
  baseline cam area w = Some b → 0 <= c →
  ∃ w', _handle_people_count clk (people_count_event cam area c e) w = Some w' ∧
    baseline cam area w' = if (0 <? c - b) && _closing w then Some b else Some c.
Proof.
  intros Hb Hc.
  destruct (handle_known_baseline clk cam area c e b w Hb Hc) as (w' & Hw' & _ & Hbase).
  exists w'. split; [done|]. rewrite Hbase, Hb.
  destruct (_ && _); [done|]. by rewrite decide_True.
Qed.

End rule_engine.

(** * The scenario, evaluated *)

Import Scenario.





(** C2, the failing input: the window is closing ([closeEvent] has set
    [_closing]) and the count of zone 2 goes from the baseline 5 to 8.  The
    handler returns at the [_closing] test of its GPIO step, before the
    cache update: the baseline is still 5. *)
Lemma closing_increase_leaves_baseline_stale :
  WindowMain.baseline "cam1" 2 (WindowMain.set_closing true window5) = Some 5 ∧
  snapshot 8 (WindowMain.set_closing true window5) = Some window8_closing ∧
  WindowMain.baseline "cam1" 2 window8_closing = Some 5.
Proof. vm_compute. repeat split; reflexivity. Qed.



(* ===================================================================== *)
(** * The health sweep *)
(* ===================================================================== *)

Section health.
Import LogRateLimit DbModule WindowMain.

(** The [PeopleCountThread] is restarted only for a camera whose last
    probe said "connected", and only when it is dead. *)
Lemma health_people_restarts_connected_only now_log key pt w pt' w' :
  health_people now_log key (Some pt) w = Some (Some pt', w', true) →
  camera_conn_status w !! key = Some true ∧ isRunning pt = false ∧ pt' = restart pt.
Proof.
  unfold health_people.
  destruct (isRunning pt); simpl; [intros [=]|].
  destruct (camera_conn_status w !! key) as [[]|] eqn:E; simpl.
  - destruct (default false (_pc_restart_inflight w !! key)); [intros [=]|].
    destruct (should_log _ _ _ _) as [[[] n] lim]; intros [= <- _]; done.
  - destruct (should_log _ _ _ _) as [[[] n] lim]; intros [=].
  - destruct (should_log _ _ _ _) as [[[] n] lim]; intros [=].
Qed.

(** The [StayDetectionThread] is restarted whenever it is dead: the
    connectivity of the camera is not read. *)
Lemma health_stay_restarts_dead now_log key st w restarted :
  isRunning st = false →
  (health_stay now_log key (Some st) w restarted).1.1 = Some (restart st) ∧
  (health_stay now_log key (Some st) w restarted).2 = true.
Proof.
  unfold health_stay. intros ->. simpl.
  by destruct (should_log _ _ _ _) as [[[] n] lim].
Qed.

End health.

(** C3, the failing input: both threads of "cam1" are dead and its
    connectivity is unknown, or probed as unreachable.  The sweep leaves the
    count feed alone and logs the skip, but it calls [restart()] on the
    alarm feed. *)
Lemma sweep_restarts_alarm_feed_of_unreachable_camera :
  let swept_unknown := WindowMain.check_thread_health 1700000000 1700000000 window_dead in
  let swept_unreachable :=
    WindowMain.check_thread_health 1700000000 1700000000
      (WindowMain.on_camera_status_update "cam1" false window_dead) in
  WindowMain.camera_conn_status window_dead !! "cam1"%string = None ∧
  WindowMain.event_threads swept_unknown
  = [("cam1"%string,
      WindowMain.mkThreads (Some (WindowMain.mkSub false 0))
                           (Some (WindowMain.mkSub true 1)))] ∧
  WindowMain.logger_info swept_unknown
  = ["[Recovery] Skipping PeopleCount restart for cam1 (Camera disconnected)"%string;
     "[Recovery] Restarting StayDetection thread for cam1"%string] ∧
  WindowMain.event_threads swept_unreachable = WindowMain.event_threads swept_unknown.
Proof. vm_compute. repeat split; reflexivity. Qed.

(* ===================================================================== *)
(** * More on the rate limiter *)
(* ===================================================================== *)

Section limiter_more.
Context {K : Type} `{Countable K}.
Import LogRateLimit LogRateLimitHistory.
Implicit Types (s : LogRateLimiter K) (h : history K) (c : call K) (key k : K).

Lemma sorted_keys_NoDup h (d : list (K * Q)) :
  StronglySorted (older h) d → NoDup d.*1.
Proof.
  induction 1 as [|[k0 v0] d Hd IH Hall]; simpl; constructor; [|done].
  intros Hin. apply list_elem_of_fmap in Hin as ([k v] & -> & Hin).
  rewrite Forall_forall in Hall. apply Hall in Hin.
  unfold older in Hin. simpl in Hin. lia.
Qed.

Lemma step_length s h c :
  Z.of_nat (length (_last_log_time s)) <= Z.max 0 (_max_keys s) →
  Z.of_nat (length (_last_log_time (step (s, h) c).1)) <= Z.max 0 (_max_keys s).
Proof.
  intros Hlen. unfold step, should_log. simpl.
  destruct (Qlt_le_dec _ _); simpl; [done|].
  rewrite od_touch.
  set (X := od_remove (c_key c) (_last_log_time s) ++ [(c_key c, c_now c)]).
  assert (length X <= S (length (_last_log_time s)))%nat as HX.
  { subst X. rewrite length_app. simpl. unfold od_remove.
    pose proof (length_filter (λ kv : K * Q, kv.1 ≠ c_key c) (_last_log_time s)). lia. }
  destruct (Z.of_nat (length X) >? _max_keys s) eqn:E.
  - unfold od_popitem_first. destruct X as [|x X']; simpl in *; lia.
  - rewrite Z.gtb_ltb, Z.ltb_ge in E. lia.
Qed.

Lemma run_length cs s h :
  Z.of_nat (length (_last_log_time s)) <= Z.max 0 (_max_keys s) →
  Z.of_nat (length (_last_log_time (run cs (s, h)).1)) <= Z.max 0 (_max_keys s).
Proof.
  revert s h. induction cs as [|c cs IH]; intros s h Hlen; [done|].
  simpl. pose proof (step_length s h c Hlen) as Hs.
  pose proof (step_max_keys s h c) as Hm.
  destruct (step (s, h) c) as [s1 h1]. simpl in *.
  rewrite <- Hm. apply IH. by rewrite Hm.
Qed.

(** X1.  The key set of the limiter is bounded: after any calls on a new
    limiter at most [max_keys] keys (none for a negative [max_keys]) have a
    timestamp, and no key has two. *)
Theorem limiter_key_set_bounded (max_keys : Z) (cs : list (call K)) :
  let s := (run cs (init max_keys, [])).1 in
  Z.of_nat (length (_last_log_time s)) <= Z.max 0 max_keys ∧
  NoDup (_last_log_time s).*1.
Proof.
  intros s. split.
  - pose proof (run_length cs (init max_keys) []) as Hlen. simpl in Hlen.
    apply Hlen. lia.
  - apply (sorted_keys_NoDup (run cs (init max_keys, [])).2).
    apply cons_order, run_consistent, init_consistent.
Qed.

Lemma step_accounted s h c :
  accounted s h → accounted (step (s, h) c).1 (step (s, h) c).2.
Proof.
  intros [Hc Hacc]. split; [by apply step_consistent|].
  intros k. specialize (Hacc k).
  unfold step, should_log. simpl.
  destruct (Qlt_le_dec _ _); simpl.
  - destruct (decide (c_key c = k)); lia.
  - destruct (decide (c_key c = k)) as [<-|]; [|done].
    rewrite (cons_counts _ _ Hc). lia.
Qed.

Lemma run_accounted cs s h :
  accounted s h → accounted (run cs (s, h)).1 (run cs (s, h)).2.
Proof.
  revert s h. induction cs as [|c cs IH]; intros s h Ha; [done|].
  simpl. pose proof (step_accounted s h c Ha) as Hs.
  destruct (step (s, h) c) as [s1 h1]. by apply IH.
Qed.

(** X2.  No suppressed call is lost or counted twice: for every key, the
    counts that the allowed calls have returned so far and the count still
    held for the key add up to the number of suppressed calls for the key,
    whatever was evicted in between. *)
Theorem suppressed_calls_all_reported (max_keys : Z) (cs : list (call K)) (key : K) :
  let st := run cs (init max_keys, []) in
  reported_total key st.2 + default 0 (_suppressed_counts st.1 !! key)
  = suppressed_total key st.2.
Proof.
  intros st.
  assert (accounted st.1 st.2) as [Hc Hacc].
  { apply run_accounted. split; [apply init_consistent|done]. }
  rewrite (cons_counts _ _ Hc). apply Hacc.
Qed.
End limiter_more.

(* ===================================================================== *)
(** * More on the reconnect loop *)
(* ===================================================================== *)

Section backoff_more.
Import CgiClient.

Lemma loop_body_range it b :
  1 <= b <= 30 →
  Forall (λ d, 1 <= d <= 30) (loop_body it b).1 ∧ 1 <= (loop_body it b).2 <= 30.
Proof.
  intros Hb. unfold loop_body, sleep_and_double.
  destruct (outcome it) as [[]|st reads fin]; simpl.
  - split; [constructor|done].
  - destruct (stop it); simpl; (split; [repeat constructor; lia|lia]).
  - destruct (st =? 200).
    + destruct fin as [|[]]; simpl; try (split; [constructor|lia]);
        destruct (stop it); simpl; (split; [repeat constructor; lia|lia]).
    + destruct (stop it); simpl; (split; [repeat constructor; lia|lia]).
Qed.

Lemma run_from_range its b :
  1 <= b <= 30 →
  Forall (λ d, 1 <= d <= 30) (run_from its b).1 ∧ 1 <= (run_from its b).2 <= 30.
Proof.
  revert b. induction its as [|it its IH]; intros b Hb; simpl.
  - split; [constructor|done].
  - destruct (loop_body_range it b Hb) as [Hs Hb'].
    destruct (loop_body it b) as [sl b1]. simpl in *.
    destruct (stop it); [done|].
    destruct (IH b1 Hb') as [Hs2 Hb2].
    destruct (run_from its b1) as [sl' b2]. simpl in *.
    split; [by apply Forall_app|done].
Qed.

(** X3.  Whatever the passes of the reconnect loop meet, every sleep lasts
    between 1 and 30 seconds, and so does the delay it leaves. *)
Theorem backoff_delays_between_1_and_30 (its : list iteration) :
  Forall (λ d, 1 <= d <= 30) (run its).1 ∧ 1 <= (run its).2 <= 30.
Proof. apply run_from_range. lia. Qed.

Lemma stopping_pass_sleeps_nothing it b :
  stop it = true → (loop_body it b).1 = [].
Proof.
  intros Hs. unfold loop_body, sleep_and_double. rewrite Hs.
  destruct (outcome it) as [[]|st reads fin]; simpl; try done.
  destruct (st =? 200); [|done]. by destruct fin as [|[]].
Qed.

Lemma run_from_app_running its1 its2 b :
  Forall (λ it, stop it = false) its1 →
  run_from (its1 ++ its2) b
  = ((run_from its1 b).1 ++ (run_from its2 (run_from its1 b).2).1,
     (run_from its2 (run_from its1 b).2).2).
Proof.
  intros Hall. revert b. induction Hall as [|it its1 Hs Hall IH]; intros b; simpl.
  - by destruct (run_from its2 b).
  - destruct (loop_body it b) as [sl b1]. rewrite Hs.
    rewrite IH. destruct (run_from its1 b1) as [sl1 b2]. simpl.
    destruct (run_from its2 b2) as [sl2 b3]. simpl. by rewrite app_assoc.
Qed.

(** X4.  Once a pass reads the stop flag set, the loop is over: that pass
    does not sleep, and the passes that would follow are not made.  The
    sleeps of the run are those of the passes before. *)
Theorem stop_ends_the_loop_without_sleep (its1 its2 : list iteration) (it : iteration) :
  Forall (λ it, stop it = false) its1 → stop it = true →
  (run (its1 ++ it :: its2)).1 = (run its1).1.
Proof.
  intros Hrun Hstop. unfold run. rewrite run_from_app_running by done.
  simpl. pose proof (stopping_pass_sleeps_nothing it (run_from its1 1).2 Hstop) as Hs.
  destruct (loop_body it _) as [sl b1]. simpl in Hs. subst sl.
  rewrite Hstop. simpl. by rewrite app_nil_r.
Qed.
End backoff_more.

(** X4, witness: two failures, then a failure during which [stop()] is
    called, then what would have been two more passes. *)
Lemma stop_ends_the_loop_without_sleep_witness :
  let fail s := CgiClient.mkIter (CgiClient.GetRaised CgiClient.OtherException) s in
  (CgiClient.run [fail false; fail false; fail true; fail false; fail false]).1 = [1; 2].
Proof.
  intros fail.
  apply (stop_ends_the_loop_without_sleep [fail false; fail false]
           [fail false; fail false] (fail true)).
  - repeat constructor.
  - reflexivity.
Defined.

(* ===================================================================== *)
(** * The count stream *)
(* ===================================================================== *)

Section count_stream.
Import LogRateLimit DbModule PeopleCountStream.
Variable py_int : string → option Z.

Lemma events_of_app out1 out2 :
  events_of (out1 ++ out2) = events_of out1 ++ events_of out2.
Proof. unfold events_of. apply omap_app. Qed.

Lemma events_of_log_rate_limit cam key now lim :
  events_of (_log_rate_limit cam key now lim).2 = [].
Proof.
  unfold _log_rate_limit.
  by destruct (should_log _ _ _ _) as [[[] n] lim'].
Qed.

Lemma zone_context_snoc before l :
  zone_context py_int (before ++ [l])
  = if is_area_line (decoded_line l)
    then split_eq_1 (decoded_line l) ≫= py_int
    else zone_context py_int before.
Proof.
  unfold zone_context. rewrite reverse_app. simpl.
  by destruct (is_area_line (decoded_line l)).
Qed.

Lemma consume_line_spec cam l cur lim :
  (consume_line py_int cam l cur lim).1.1
    = (if is_area_line (decoded_line l)
       then split_eq_1 (decoded_line l) ≫= py_int else cur) ∧
  events_of (consume_line py_int cam l cur lim).2
    = (if is_total_line (decoded_line l) then
         match cur, split_eq_1 (decoded_line l) ≫= py_int with
         | Some a, Some c => [WindowMain.people_count_event cam a c (now_epoch l)]
         | _, _ => []
         end
       else []).
Proof.
  unfold consume_line, is_total_line, is_area_line.
  destruct (String.prefix "summary.AreaID=" (decoded_line l)); simpl.
  - destruct (split_eq_1 (decoded_line l) ≫= py_int); simpl; [done|].
    pose proof (events_of_log_rate_limit cam "pc_area_id" (now_log l) lim) as Hl.
    destruct (_log_rate_limit _ _ _ _). done.
  - destruct (String.prefix "summary.InsideSubtotal.Total=" (decoded_line l)); [|done].
    destruct cur as [a|]; [|done].
    destruct (split_eq_1 (decoded_line l) ≫= py_int); simpl; [done|].
    pose proof (events_of_log_rate_limit cam "pc_count" (now_log l) lim) as Hl.
    destruct (_log_rate_limit _ _ _ _). done.
Qed.

Lemma consume_from_snapshots cam lines before lim :
  Forall (λ l, stop_set l = false) lines →
  events_of (consume_from py_int cam lines (zone_context py_int before) lim).2
  = snapshots_from py_int cam before lines.
Proof.
  intros Hall. revert before lim.
  induction Hall as [|l lines Hs Hall IH]; intros before lim; [done|].
  simpl. rewrite Hs.
  destruct (consume_line_spec cam l (zone_context py_int before) lim) as [Hcur Hev].
  destruct (consume_line py_int cam l _ lim) as [[cur1 lim1] out1]. simpl in *.
  specialize (IH (before ++ [l]) lim1).
  rewrite zone_context_snoc, <- Hcur in IH.
  destruct (consume_from py_int cam lines cur1 lim1) as [[cur2 lim2] out2].
  simpl in *. by rewrite events_of_app, Hev, IH.
Qed.

(** X5.  What [_consume_stream] emits as PEOPLE_COUNT dictionaries is, in
    order, one dictionary for each ["summary.InsideSubtotal.Total="] line
    whose value is a number and whose latest ["summary.AreaID="] line before
    it has a number as value: it carries that zone, that count and the
    clock second of the pass.  A total line before any zone line, or after
    a zone line that does not parse, yields nothing. *)
Theorem consume_stream_attributes_totals_to_last_zone (cam : string)
    (lines : list line_pass) (lim : LogRateLimiter string) :
  Forall (λ l, stop_set l = false) lines →
  events_of (_consume_stream py_int cam lines lim).2
  = snapshots_from py_int cam [] lines.
Proof. intros Hall. by apply (consume_from_snapshots cam lines []). Qed.

(** X6.  Lines outside the grammar do nothing: with the lines that start
    with neither ["summary.AreaID="] nor ["summary.InsideSubtotal.Total="]
    taken out, the loop ends with the same zone context, the same limiter
    and the same emissions. *)
Theorem consume_stream_ignores_other_lines (cam : string)
    (lines : list line_pass) (cur : option Z) (lim : LogRateLimiter string) :
  Forall (λ l, stop_set l = false) lines →
  consume_from py_int cam
    (filter (λ l, is_area_line (decoded_line l) = true
                  ∨ is_total_line (decoded_line l) = true) lines) cur lim
  = consume_from py_int cam lines cur lim.
Proof.
  intros Hall. revert cur lim.
  induction Hall as [|l lines Hs Hall IH]; intros cur lim; [done|].
  rewrite filter_cons. destruct (decide _) as [Hrel|Hirr].
  - simpl. rewrite Hs.
    destruct (consume_line py_int cam l cur lim) as [[cur1 lim1] out1].
    by rewrite IH.
  - simpl. rewrite Hs, IH.
    assert (consume_line py_int cam l cur lim = (cur, lim, [])) as ->.
    { unfold consume_line. unfold is_total_line, is_area_line in Hirr.
      destruct (String.prefix "summary.AreaID=" (decoded_line l));
        [destruct Hirr; by left|].
      destruct (String.prefix "summary.InsideSubtotal.Total=" (decoded_line l));
        [destruct Hirr; by right|done]. }
    by destruct (consume_from py_int cam lines cur lim) as [[cur2 lim2] out2].
Qed.
End count_stream.

(** X5, witness: a heartbeat, zone 2 with total 5, a zone line that is no
    number with a total that is dropped, then zone 3 with total 7. *)
Lemma consume_stream_attributes_totals_to_last_zone_witness :
  let line s := PeopleCountStream.mkLine false s 1700000000 1700000000 in
  PeopleCountStream.events_of
    (PeopleCountStream._consume_stream PeopleCountStream.decimal_int "cam1"
       [line "Heartbeat"; line "summary.AreaID=2";
        line "summary.InsideSubtotal.Total=5";
        line "summary.AreaID=x"; line "summary.InsideSubtotal.Total=6";
        line "summary.AreaID=3"; line "summary.EnteredSubtotal.Total=9";
        line "summary.InsideSubtotal.Total=7"]%string
       (LogRateLimit.init 1000)).2
  = [WindowMain.people_count_event "cam1" 2 5 1700000000;
     WindowMain.people_count_event "cam1" 3 7 1700000000].
Proof.
  intros line.
  rewrite consume_stream_attributes_totals_to_last_zone by repeat constructor.
  reflexivity.
Defined.

(** X6, witness: the same stream without its two lines outside the grammar. *)
Lemma consume_stream_ignores_other_lines_witness :
  let line s := PeopleCountStream.mkLine false s 1700000000 1700000000 in
  PeopleCountStream.consume_from PeopleCountStream.decimal_int "cam1"
    [line "summary.AreaID=2"; line "summary.InsideSubtotal.Total=5"]%string
    None (LogRateLimit.init 1000)
  = PeopleCountStream.consume_from PeopleCountStream.decimal_int "cam1"
      [line "Heartbeat"; line "summary.AreaID=2";
       line "summary.EnteredSubtotal.Total=9";
       line "summary.InsideSubtotal.Total=5"]%string
      None (LogRateLimit.init 1000).
Proof.
  intros line.
  rewrite <- (consume_stream_ignores_other_lines PeopleCountStream.decimal_int "cam1"
                [line "Heartbeat"; line "summary.AreaID=2";
                 line "summary.EnteredSubtotal.Total=9";
                 line "summary.InsideSubtotal.Total=5"]%string)
    by repeat constructor.
  reflexivity.
Defined.

(* ===================================================================== *)
(** * More on the event store *)
(* ===================================================================== *)

Section store_more.
Import DbModule DbQueries.

Lemma Forall_filter_keep {A} (P Q : A → Prop) `{∀ x, Decision (Q x)} (l : list A) :
  Forall P l → Forall P (filter Q l).
Proof.
  rewrite !Forall_forall. intros Hall x Hx.
  apply list_elem_of_filter in Hx as [_ Hx]. by apply Hall.
Qed.

Lemma table_ok_insert {R} (r : R) (t : table R) :
  table_ok t → table_ok (sql_insert r t) ∧ new_rows_fresh t (sql_insert r t).
Proof.
  intros (Hseq & Hsorted & Hall). unfold sql_insert, table_ok, new_rows_fresh. simpl.
  split; [split; [lia|split]|split; [lia|]].
  - apply StronglySorted_app_2; [|done|repeat constructor].
    intros a b Ha Hb. apply list_elem_of_singleton in Hb as ->.
    rewrite Forall_forall in Hall. apply Hall in Ha. unfold id_lt. simpl. lia.
  - apply Forall_app. split.
    + eapply Forall_impl; [exact Hall|]. simpl. intros; lia.
    + repeat constructor; simpl; lia.
  - intros ir Hin. apply elem_of_app in Hin as [Hin|Hin]; [by left|].
    apply list_elem_of_singleton in Hin as ->. right. simpl. lia.
Qed.

Lemma table_ok_delete {R} (cond : R → bool) (t : table R) :
  table_ok t → table_ok (sql_delete cond t).2 ∧ new_rows_fresh t (sql_delete cond t).2.
Proof.
  intros (Hseq & Hsorted & Hall).
  unfold table_ok, new_rows_fresh. rewrite sql_delete_rows.
  unfold sql_delete. cbn [snd seq_id].
  split; [split; [done|split]|split; [lia|]].
  - by apply StronglySorted_filter_keep.
  - by apply Forall_filter_keep.
  - intros ir Hin. apply list_elem_of_filter in Hin as [_ Hin]. by left.
Qed.

Lemma new_rows_fresh_refl {R} (t : table R) : new_rows_fresh t t.
Proof. split; [lia|]. intros ir Hin. by left. Qed.

Lemma do_job_db_ok now j db cbs :
  db_ok db →
  let db' := (do_job now j db cbs).1 in
  db_ok db' ∧
  new_rows_fresh (people_delta_events db) (people_delta_events db') ∧
  new_rows_fresh (event_logs db) (event_logs db') ∧
  new_rows_fresh (events db) (events db').
Proof.
  intros (H1 & H2 & H3). destruct j as [ev|r cb]; cbn zeta.
  - assert (∀ db0, db0 = db →
              db_ok db0 ∧ new_rows_fresh (people_delta_events db) (people_delta_events db0)
              ∧ new_rows_fresh (event_logs db) (event_logs db0)
              ∧ new_rows_fresh (events db) (events db0)) as Hsame.
    { intros db0 ->. unfold db_ok. eauto 10 using @new_rows_fresh_refl. }
    unfold do_job, insert_event. cbn [fst].
    destruct (decide (_ = "DEBUG"%string)); [by apply Hsame|].
    destruct (decide (_ = "PEOPLE_COUNT"%string)).
    + repeat case_match; try (by apply Hsame);
      match goal with
      | |- context [sql_insert ?r (people_delta_events db)] =>
          destruct (table_ok_insert r (people_delta_events db) H1) as [Hok Hfresh]
      end;
      unfold db_ok; cbn [people_delta_events event_logs events];
        split_and!; first [assumption | apply new_rows_fresh_refl].
    + match goal with
      | |- context [sql_insert ?r (event_logs db)] =>
          destruct (table_ok_insert r (event_logs db) H2) as [Hok Hfresh]
      end.
      unfold db_ok; cbn [people_delta_events event_logs events];
        split_and!; first [assumption | apply new_rows_fresh_refl].
  - unfold do_job, run_purge. rewrite purge_old_events_eq.
    destruct cb; cbn [fst snd people_delta_events event_logs events];
      unfold db_ok; cbn [people_delta_events event_logs events];
      match goal with
      | |- context [sql_delete ?c (people_delta_events db)] =>
          destruct (table_ok_delete c (people_delta_events db) H1) as [Ho1 Hf1]
      end;
      match goal with
      | |- context [sql_delete ?c (event_logs db)] =>
          destruct (table_ok_delete c (event_logs db) H2) as [Ho2 Hf2]
      end;
      match goal with
      | |- context [sql_delete ?c (events db)] =>
          destruct (table_ok_delete c (events db) H3) as [Ho3 Hf3]
      end; eauto 10.
Qed.

Lemma drain_jobs_db_ok now jobs db cbs :
  db_ok db → db_ok (drain_jobs now jobs db cbs).1.
Proof.
  revert db cbs. induction jobs as [|j jobs IH]; intros db cbs Hok; [done|].
  simpl. destruct (do_job_db_ok now j db cbs Hok) as [Hok' _].
  destruct (do_job now j db cbs) as [db1 cbs1]. by apply IH.
Qed.

(** X7.  The ids of the three tables behave as AUTOINCREMENT keys under
    every job of the writer, inserts and purges alike: ids stay positive,
    distinct and in table order, and a row that a job adds gets an id above
    every id the table has ever handed out, also above those of purged rows. *)
Theorem ids_stay_unique_and_are_never_reused (now : Z) (j : job) (jobs : list job)
    (db : database) (cbs : list callback_call) :
  db_ok db →
  let db' := (do_job now j db cbs).1 in
  db_ok db' ∧
  new_rows_fresh (people_delta_events db) (people_delta_events db') ∧
  new_rows_fresh (event_logs db) (event_logs db') ∧
  new_rows_fresh (events db) (events db') ∧
  db_ok (drain_jobs now jobs db cbs).1.
Proof.
  intros Hok db'. destruct (do_job_db_ok now j db cbs Hok) as (H1 & H2 & H3 & H4).
  split_and!; try done. by apply drain_jobs_db_ok.
Qed.

Lemma do_job_rows_normal now j db cbs :
  rows_normal db → rows_normal (do_job now j db cbs).1.
Proof.
  intros [Hd Hl]. destruct j as [ev|r cb].
  - unfold do_job, insert_event. cbn [fst].
    destruct (decide (_ = "DEBUG"%string)); [done|].
    destruct (decide (_ = "PEOPLE_COUNT"%string)).
    + repeat case_match; try done;
        (split; [|done]); cbn [people_delta_events sql_insert rows];
        (apply Forall_app; split; [done|]); repeat constructor; simpl; lia.
    + split; [done|]. cbn [event_logs sql_insert rows].
      apply Forall_app. split; [done|]. by repeat constructor.
  - unfold do_job, run_purge. rewrite purge_old_events_eq.
    destruct cb; cbn [fst snd]; (split;
      cbn [people_delta_events event_logs]; rewrite sql_delete_rows;
      by apply Forall_filter_keep).
Qed.

(** X8.  The stored rows stay normalised under every job of the writer:
    the display timestamp of a row is the format of its epoch second, and
    the delta table holds positive deltas only. *)
Theorem stored_rows_stay_normalised (now : Z) (jobs : list job) (db : database)
    (cbs : list callback_call) :
  rows_normal db → rows_normal (drain_jobs now jobs db cbs).1.
Proof.
  revert db cbs. induction jobs as [|j jobs IH]; intros db cbs Hn; [done|].
  simpl. pose proof (do_job_rows_normal now j db cbs Hn) as Hn'.
  destruct (do_job now j db cbs) as [db1 cbs1]. by apply IH.
Qed.

Lemma writer_steps_drain now s :
  writer_steps (replicate (length (_db_queue s)) now) s = writer_drain now s.
Proof.
  destruct s as [r q db cbs]. revert db cbs.
  induction q as [|j q IH]; intros db cbs; [done|].
  simpl. unfold writer_step, writer_drain. simpl.
  destruct (do_job now j db cbs) as [db1 cbs1].
  specialize (IH db1 cbs1). cbn [_db_queue] in IH. rewrite IH.
  unfold writer_drain. simpl. by destruct (drain_jobs now q db1 cbs1).
Qed.

Lemma enqueue_running t j q db cbs :
  enqueue t j (mkStore true q db cbs) = mkStore true (q ++ [j]) db cbs.
Proof. by destruct j. Qed.

Lemma enqueue_stopped t j q db cbs :
  enqueue t j (mkStore false q db cbs)
  = mkStore false q (do_job t j db cbs).1 (do_job t j db cbs).2.
Proof.
  destruct j as [ev|r cb]; simpl; [done|].
  unfold enqueue_purge. simpl. by destruct (run_purge t r cb db cbs).
Qed.

(** X9.  The asynchronous and the synchronous way give the same result:
    jobs enqueued while the writer runs, and then handled by it one step
    at a time, leave the database and the callback calls that the same
    jobs leave when each is run in the caller with the writer stopped (at
    the same clock second).  The writer takes the jobs in the order of
    their enqueueing. *)
Theorem writer_is_fifo_and_matches_fallback (now t : Z) (jobs : list job)
    (db : database) (cbs : list callback_call) :
  let queued := fold_left (λ s j, enqueue t j s) jobs (mkStore true [] db cbs) in
  let async := writer_steps (replicate (length jobs) now) queued in
  let sync := fold_left (λ s j, enqueue now j s) jobs (mkStore false [] db cbs) in
  _db_queue queued = jobs ∧
  _db_queue async = [] ∧
  db_file async = db_file sync ∧
  callbacks async = callbacks sync ∧
  (db_file async, callbacks async) = drain_jobs now jobs db cbs.
Proof.
  intros queued async sync.
  assert (∀ q, fold_left (λ s j, enqueue t j s) jobs (mkStore true q db cbs)
               = mkStore true (q ++ jobs) db cbs) as Hq.
  { induction jobs as [|j jobs IH]; intros q; simpl; [by rewrite app_nil_r|].
    rewrite enqueue_running. rewrite IH. by rewrite <- app_assoc. }
  assert (∀ db cbs, fold_left (λ s j, enqueue now j s) jobs (mkStore false [] db cbs)
                    = mkStore false [] (drain_jobs now jobs db cbs).1
                                       (drain_jobs now jobs db cbs).2) as Hs.
  { clear. induction jobs as [|j jobs IH]; intros db cbs; simpl; [done|].
    rewrite enqueue_stopped.
    destruct (do_job now j db cbs) as [db1 cbs1]. simpl. apply IH. }
  subst queued async sync. rewrite Hq, Hs. simpl.
  pose proof (writer_steps_drain now (mkStore true jobs db cbs)) as Hd.
  simpl in Hd. rewrite Hd. unfold writer_drain. simpl.
  by destruct (drain_jobs now jobs db cbs).
Qed.

Lemma filter_bool_idem {A} (f : A → bool) (l : list A) :
  List.filter f (List.filter f l) = List.filter f l.
Proof.
  induction l as [|x l IH]; [done|]. simpl.
  destruct (f x) eqn:E; simpl; [|done]. by rewrite E, IH.
Qed.

Lemma sql_delete_idem {R} (cond : R → bool) (t : table R) :
  sql_delete cond (sql_delete cond t).2 = (0, (sql_delete cond t).2).
Proof.
  unfold sql_delete. simpl. rewrite filter_bool_idem. f_equal. lia.
Qed.

(** X10.  A purge repeated at the same clock second with the same
    retention removes nothing more: it reports 0 rows and leaves the
    database as the first purge left it. *)
Theorem purge_is_idempotent (now retention_days : Z) (db : database) :
  purge_old_events now retention_days (purge_old_events now retention_days db).2
  = (0, (purge_old_events now retention_days db).2).
Proof.
  rewrite !purge_old_events_eq. cbn [snd people_delta_events event_logs events].
  rewrite !sql_delete_idem. reflexivity.
Qed.
End store_more.

(** X7, witness: a purge and then an insert on a database whose delta
    table has lost the row with id 2. *)
Lemma ids_stay_unique_and_are_never_reused_witness :
  DbQueries.db_ok ScenarioMore.db3 ∧
  DbQueries.db_ok
    (DbModule.do_job 100000 (DbModule.Purge 1 None) ScenarioMore.db3 []).1 ∧
  DbQueries.db_ok
    (DbModule.drain_jobs 100000
       [DbModule.Purge 1 None; DbModule.Persist ScenarioMore.increase3]
       ScenarioMore.db3 []).1.
Proof.
  assert (DbQueries.db_ok ScenarioMore.db3) as Hok.
  { unfold DbQueries.db_ok, DbQueries.table_ok. simpl.
    repeat split; try lia;
      repeat (constructor; try (unfold DbQueries.id_lt; simpl; lia)). }
  destruct (ids_stay_unique_and_are_never_reused 100000 (DbModule.Purge 1 None)
              [DbModule.Purge 1 None; DbModule.Persist ScenarioMore.increase3]
              ScenarioMore.db3 [] Hok) as (H1 & _ & _ & _ & H2).
  split; [exact Hok|]. split; [exact H1|exact H2].
Defined.

(** X8, witness: the same jobs on the same database. *)
Lemma stored_rows_stay_normalised_witness :
  DbQueries.rows_normal ScenarioMore.db3 ∧
  DbQueries.rows_normal
    (DbModule.drain_jobs 100000
       [DbModule.Purge 1 None; DbModule.Persist ScenarioMore.increase3]
       ScenarioMore.db3 []).1.
Proof.
  assert (DbQueries.rows_normal ScenarioMore.db3) as Hn.
  { unfold DbQueries.rows_normal. simpl.
    split; repeat (constructor; try (simpl; split; [reflexivity|lia]);
                   try reflexivity). }
  split; [exact Hn|].
  exact (stored_rows_stay_normalised 100000
           [DbModule.Purge 1 None; DbModule.Persist ScenarioMore.increase3]
           ScenarioMore.db3 [] Hn).
Defined.

Section store_queries.
Import DbModule DbQueries.








Lemma filter_filter_absorb {A} (P Q : A → Prop) `{∀ x, Decision (P x)}
    `{∀ x, Decision (Q x)} (l : list A) :
  (∀ x, P x → Q x) → filter P (filter Q l) = filter P l.
Proof.
  intros HPQ. induction l as [|x l IH]; [done|].
  rewrite !filter_cons. destruct (decide (Q x)) as [HQ|HQ].
  - rewrite filter_cons. destruct (decide (P x)); by rewrite IH.
  - rewrite IH. destruct (decide (P x)) as [HP|HP]; [|done]. by apply HPQ in HP.
Qed.

(** X13.  A purge does not change the statistics of a window that lies
    inside the retention: with [hours * 3600 <= retention_days * 86400] and
    the query not before the purge, [get_people_count_stats] over the last
    [hours] hours gives after the purge what it gives without it. *)
Theorem purge_keeps_stats_within_retention (now_purge now : Z)
    (retention_days hours : Z) (cam : string) (db : database) :
  hours * 3600 <= retention_days * 86400 →
  now_purge <= now →
  get_people_count_stats now cam (Some hours)
    (purge_old_events now_purge retention_days db).2
  = get_people_count_stats now cam (Some hours) db.
Proof.
  intros Hret Hnow. rewrite purge_old_events_eq. cbn [snd].
  unfold get_people_count_stats. cbn [people_delta_events].
  rewrite sql_delete_rows. rewrite filter_filter_absorb; [done|].
  intros [i r] [_ Hw]. simpl in *. apply Z.ltb_ge. lia.
Qed.

Lemma id_desc_trans : Transitive id_desc.
Proof. intros a b c. unfold id_desc. lia. Qed.

Lemma id_desc_total : Total id_desc.
Proof. intros a b. unfold id_desc. lia. Qed.

Lemma reverse_sorted_desc (l : list (Z * log_row)) :
  StronglySorted id_lt l → StronglySorted id_desc (reverse l).
Proof.
  induction 1 as [|x l Hs IH Hx]; [constructor|].
  rewrite reverse_cons. apply StronglySorted_app_2; [|done|repeat constructor].
  intros a b Ha Hb. apply list_elem_of_singleton in Hb as ->.
  rewrite elem_of_reverse in Ha. rewrite Forall_forall in Hx.
  apply Hx in Ha. unfold id_lt, id_desc in *. lia.
Qed.

Lemma sorted_ids_distinct {R} (l : list (Z * R)) (a b : Z * R) :
  StronglySorted id_lt l → a ∈ l → b ∈ l → a.1 = b.1 → a = b.
Proof.
  induction 1 as [|x l Hs IH Hx]; intros Ha Hb Hid; [by apply elem_of_nil in Ha|].
  rewrite Forall_forall in Hx.
  apply elem_of_cons in Ha as [->|Ha]; apply elem_of_cons in Hb as [->|Hb].
  - done.
  - apply Hx in Hb. unfold id_lt in Hb. lia.
  - apply Hx in Ha. unfold id_lt in Ha. lia.
  - by apply IH.
Qed.

(** X14.  On a table whose ids are in order (what every job of the writer
    keeps), [get_recent_events] gives the rows newest first: the table
    read backwards, cut after [limit] rows; a negative limit cuts nothing. *)
Theorem recent_events_are_the_last_rows_newest_first (limit : Z) (db : database) :
  table_ok (event_logs db) →
  get_recent_events limit db
  = if limit <? 0 then reverse (rows (event_logs db))
    else take (Z.to_nat limit) (reverse (rows (event_logs db))).
Proof.
  intros (_ & Hsorted & _). unfold get_recent_events. cbn zeta.
  assert (merge_sort id_desc (rows (event_logs db)) = reverse (rows (event_logs db)))
    as ->; [|done].
  pose proof id_desc_trans as Htrans. pose proof id_desc_total as Htotal.
  apply (StronglySorted_unique_strong id_desc).
  - intros x1 x2 H1 H2 H12 H21.
    rewrite merge_sort_Permutation in H1. rewrite elem_of_reverse in H2.
    apply (sorted_ids_distinct _ _ _ Hsorted H1 H2).
    unfold id_desc in *. lia.
  - by apply StronglySorted_merge_sort.
  - by apply reverse_sorted_desc.
  - rewrite merge_sort_Permutation. by rewrite reverse_Permutation.
Qed.
End store_queries.



(** X13, witness: a purge with a retention of one day at second 100000
    and the statistics of the last 24 hours. *)
Lemma purge_keeps_stats_within_retention_witness :
  DbQueries.get_people_count_stats 100000 "cam1" (Some 24)
    (DbModule.purge_old_events 100000 1 ScenarioMore.db3).2
  = DbQueries.get_people_count_stats 100000 "cam1" (Some 24) ScenarioMore.db3.
Proof.
  apply (purge_keeps_stats_within_retention 100000 100000 1 24 "cam1"
           ScenarioMore.db3); lia.
Defined.

(** X14, witness: the two newest of three log rows. *)
Lemma recent_events_are_the_last_rows_newest_first_witness :
  DbQueries.get_recent_events 2 ScenarioMore.db3
  = [(4, ScenarioMore.lrow 13601); (2, ScenarioMore.lrow 13600)].
Proof.
  rewrite (recent_events_are_the_last_rows_newest_first 2 ScenarioMore.db3).
  - reflexivity.
  - unfold DbQueries.table_ok. simpl.
    repeat split; try lia;
      repeat (constructor; try (unfold DbQueries.id_lt; simpl; lia)).
Defined.

(* ===================================================================== *)
(** * More on the GPIO bridge *)
(* ===================================================================== *)

Section gpio_more.
Import LogRateLimit GpioBridge GpioLifecycle.

Lemma trigger_pulse_output_raises now now_log area_id lim self :
  output_raises (trigger_pulse now now_log area_id lim self).2 = output_raises self.
Proof.
  destruct self as [c hg ic pe wa sw ph raises ll]. unfold trigger_pulse. simpl.
  destruct (enable c), hg, ic; simpl; try done.
  destruct (Qlt_le_dec now pe).
  - destruct (decide (retrigger_policy c = "ignore"%string)).
    + by destruct (should_log _ _ _ _) as [[[] ?] ?].
    + by destruct wa; simpl; destruct (should_log _ _ _ _) as [[[] ?] ?].
  - by destruct raises, wa.
Qed.

Lemma pulse_worker_pass_output_raises now self :
  output_raises (pulse_worker_pass now self) = output_raises self.
Proof.
  destruct self as [c hg ic pe wa sw ph raises ll]. unfold pulse_worker_pass. simpl.
  destruct wa, sw; simpl; try done.
  destruct (Qlt_le_dec 0 (pe - now)); [done|]. by destruct raises.
Qed.

Lemma act_output_raises a st : output_raises (act a st).2 = output_raises st.2.
Proof.
  destruct a; simpl;
    [apply trigger_pulse_output_raises|apply pulse_worker_pass_output_raises].
Qed.



Lemma run_invariant (P : GpioBridge → Prop) (Q : action → Prop) :
  (∀ a st, Q a → output_raises st.2 = false → P st.2 → P (act a st).2) →
  ∀ actions st,
    Forall Q actions → output_raises st.2 = false → P st.2 →
    P (run actions st).2 ∧ output_raises (run actions st).2 = false.
Proof.
  intros Hstep actions. induction actions as [|a actions IH]; intros st Hall Hr HP;
    [done|].
  inversion Hall as [|? ? Ha Hall']; subst. simpl. apply IH; [done| |by apply Hstep].
  by rewrite act_output_raises.
Qed.


(** X16.  With a [GPIO.output] that does not raise and clock readings
    that are not negative, the pin is high for as long as a pulse is
    pending: in every state that a run of triggers and worker passes
    reaches, a low pin goes with no end time ahead. *)
Theorem pin_is_high_while_a_pulse_is_pending (actions : list action)
    (lim : LogRateLimiter string) (self : GpioBridge) :
  Forall clock_nonneg actions →
  output_raises self = false → driven self →
  driven (run actions (lim, self)).2.
Proof.
  intros Hall Hr Hd.
  apply (run_invariant driven clock_nonneg); try done.
  clear. intros [now now_log area_id|now] [lim self] Hclock Hr Hd; simpl in *.
  - destruct self as [c hg ic pe wa sw ph raises ll]. unfold driven in *.
    simpl in *. subst raises. unfold trigger_pulse. simpl.
    destruct (enable c), hg, ic; simpl; try done.
    destruct (Qlt_le_dec now pe) as [Hact|Hidle].
    + assert (ph = true) as ->.
      { destruct ph; [done|]. specialize (Hd eq_refl). lra. }
      destruct (decide (retrigger_policy c = "ignore"%string)).
      * by destruct (should_log _ _ _ _) as [[[] ?] ?].
      * by destruct wa; simpl; destruct (should_log _ _ _ _) as [[[] ?] ?].
    + by destruct wa.
  - destruct self as [c hg ic pe wa sw ph raises ll]. unfold driven in *.
    simpl in *. subst raises. unfold pulse_worker_pass. simpl.
    destruct wa, sw; simpl; try done.
    destruct (Qlt_le_dec 0 (pe - now)); [done|]. simpl. intros _. lra.
Qed.

Lemma worker_passes_before_end passes self :
  worker_alive self = true → _stop_worker self = false →
  Forall (λ t, (t < _pulse_end_time self)%Q) passes →
  worker_passes passes self = self.
Proof.
  intros Ha Hs. induction passes as [|t passes IH]; intros Hall; [done|].
  inversion Hall as [|? ? Ht Hall']; subst.
  unfold worker_passes. simpl.
  assert (pulse_worker_pass t self = self) as ->; [|by apply IH].
  unfold pulse_worker_pass. rewrite Ha, Hs. simpl.
  destruct (Qlt_le_dec 0 (_pulse_end_time self - t)); [done|lra].
Qed.

(** X17.  A pulse lasts until its end: after a trigger at [now] on an
    idle, attended bridge (enabled, connected, [GPIO.output] not raising)
    the worker leaves the pin high at every pass before
    [now + pulse_ms/1000], and the first pass at or after that instant
    drives the pin low, clears the end time and ends the worker. *)
Theorem pulse_lasts_until_its_end (now now_log : Q) (area_id : Z)
    (lim : LogRateLimiter string) (self : GpioBridge) (passes : list Q) (t_end : Q) :
  enable (cfg self) = true → has_gpio self = true → is_connected self = true →
  output_raises self = false → attended self →
  (_pulse_end_time self <= now)%Q →
  let pulse_end := (now + inject_Z (pulse_ms (cfg self)) / 1000)%Q in
  Forall (λ t, (t < pulse_end)%Q) passes →
  (pulse_end <= t_end)%Q →
  let started := (trigger_pulse now now_log area_id lim self).2 in
  let held := worker_passes passes started in
  let ended := pulse_worker_pass t_end held in
  held = started ∧
  pin_high held = true ∧ worker_alive held = true ∧
  _pulse_end_time held = pulse_end ∧
  pin_high ended = false ∧ worker_alive ended = false ∧
  _pulse_end_time ended = 0%Q.
Proof.
  intros Hen Hgpio Hconn Hr [Hs Hhigh] Hidle pulse_end Hall Hend started held ended.
  destruct self as [c hg ic pe wa sw ph raises ll]. simpl in *. subst.
  assert (started = mkBridge c true true pulse_end true false true false
                      (ll ++ [PulseStarted area_id (inject_Z (pulse_ms c) / 1000)%Q]))
    as Hstarted.
  { subst started. unfold trigger_pulse. simpl. rewrite Hen. simpl.
    destruct (Qlt_le_dec now pe) as [Hact|_]; [exfalso; lra|].
    by destruct wa. }
  assert (held = started) as Hheld.
  { subst held. apply worker_passes_before_end; rewrite Hstarted; try done. }
  subst ended. rewrite Hheld, Hstarted. unfold pulse_worker_pass. simpl.
  destruct (Qlt_le_dec 0 (pulse_end - t_end)) as [Hlt|_]; [exfalso; lra|].
  by rewrite <- Hstarted.
Qed.

Lemma inert_act a lim self :
  enable (cfg self) && has_gpio self && is_connected self = false →
  pin_high self = false →
  worker_alive self = false ∨ _stop_worker self = true →
  let st := act a (lim, self) in
  st.1 = lim ∧
  cfg st.2 = cfg self ∧ has_gpio st.2 = has_gpio self ∧
  is_connected st.2 = is_connected self ∧
  pin_high st.2 = false ∧ log_lines st.2 = log_lines self ∧
  _pulse_end_time st.2 = _pulse_end_time self ∧
  (worker_alive st.2 = false ∨ _stop_worker st.2 = true).
Proof.
  destruct self as [c hg ic pe wa sw ph raises ll]. simpl.
  intros Hoff -> Hw. destruct a as [now now_log area_id|now]; simpl.
  - unfold trigger_pulse. simpl.
    destruct (enable c), hg, ic; simpl in *; try done.
  - unfold pulse_worker_pass. simpl.
    destruct wa; simpl; [|by eauto 10].
    destruct Hw as [?| ->]; [done|]. simpl. by eauto 10.
Qed.

Lemma inert_run actions lim self :
  enable (cfg self) && has_gpio self && is_connected self = false →
  pin_high self = false →
  worker_alive self = false ∨ _stop_worker self = true →
  let st := run actions (lim, self) in
  st.1 = lim ∧ pin_high st.2 = false ∧ log_lines st.2 = log_lines self ∧
  is_connected st.2 = is_connected self ∧
  _pulse_end_time st.2 = _pulse_end_time self.
Proof.
  revert lim self. induction actions as [|a actions IH]; intros lim self Hoff Hlow Hw;
    [done|].
  simpl. destruct (inert_act a lim self Hoff Hlow Hw)
    as (H1 & H2 & H3 & H4 & H5 & H6 & H7 & H8).
  destruct (act a (lim, self)) as [lim1 self1]. simpl in *. subst lim1.
  destruct (IH lim self1) as (I1 & I2 & I3 & I4 & I5); try done.
  { by rewrite H2, H3, H4. }
  by rewrite I1, I2, I3, I4, I5, H4, H6, H7.
Qed.

(** X18.  [cleanup] of a connected bridge whose [GPIO.output] does not
    raise leaves the pin low, the end time cleared and the bridge
    disconnected, and it stays so: whatever triggers and worker passes
    follow, the pin stays low, nothing is logged and the rate limiter is
    not consulted. *)
Theorem cleanup_leaves_pin_low_for_good (joined : bool) (self : GpioBridge)
    (actions : list action) (lim : LogRateLimiter string) :
  has_gpio self = true → is_connected self = true → output_raises self = false →
  let closed := (cleanup joined self).1 in
  let st := run actions (lim, closed) in
  (cleanup joined self).2 = [CleanupDone] ∧
  pin_high closed = false ∧ _pulse_end_time closed = 0%Q ∧
  is_connected closed = false ∧ _stop_worker closed = true ∧
  st.1 = lim ∧ pin_high st.2 = false ∧ is_connected st.2 = false ∧
  log_lines st.2 = log_lines self.
Proof.
  intros Hgpio Hconn Hr closed st.
  destruct self as [c hg ic pe wa sw ph raises ll]. simpl in *. subst.
  assert (closed = mkBridge c true false 0%Q (if joined then false else wa)
                     true false false ll) as Hclosed.
  { subst closed. unfold cleanup. simpl. by rewrite andb_false_r. }
  assert ((cleanup joined (mkBridge c true true pe wa sw ph false ll)).2
          = [CleanupDone]) as Hlog.
  { unfold cleanup. simpl. by rewrite andb_false_r. }
  destruct (inert_run actions lim closed) as (I1 & I2 & I3 & I4 & I5).
  { rewrite Hclosed. simpl. by rewrite andb_false_r. }
  { by rewrite Hclosed. }
  { rewrite Hclosed. by right. }
  subst st. rewrite I1, I2, I3, I4. rewrite Hclosed. done.
Qed.

(** X19.  A bridge that is disabled, in mock mode or not connected, with
    the pin low and no worker, is inert: no run of triggers and worker
    passes drives the pin, writes a log line or consults the rate limiter. *)
Theorem bridge_without_connection_is_inert (actions : list action)
    (lim : LogRateLimiter string) (self : GpioBridge) :
  enable (cfg self) && has_gpio self && is_connected self = false →
  pin_high self = false → worker_alive self = false →
  run actions (lim, self) = (lim, self).
Proof.
  revert lim self. induction actions as [|a actions IH]; intros lim self Hoff Hlow Hw;
    [done|].
  simpl. assert (act a (lim, self) = (lim, self)) as ->; [|by apply IH].
  destruct self as [c hg ic pe wa sw ph raises ll]. simpl in *. subst.
  destruct a as [now now_log area_id|now]; simpl; [|done].
  unfold trigger_pulse. simpl. by destruct (enable c), hg, ic.
Qed.
(** X20.  A bridge that [__init__] leaves connected starts from the state
    that the runs above keep: it is connected exactly when the GPIO module
    is there, the configuration enables it and [setup] does not raise; then
    the pin is low, no pulse is pending, no worker runs, and the bridge is
    attended and driven. *)
Theorem new_bridge_starts_low_and_attended (conf : gpio_config)
    (hg high output_fails raises : bool) :
  let self := (init conf hg high output_fails raises).1 in
  is_connected self = hg && enable conf && negb raises ∧
  (is_connected self = true →
   pin_high self = false ∧ _pulse_end_time self = 0%Q ∧ worker_alive self = false ∧
   attended self ∧ driven self ∧
   (init conf hg high output_fails raises).2 = [SetupComplete]).
Proof.
  unfold init, setup, attended, driven. simpl.
  destruct hg, (enable conf), raises; simpl; (split; [done|]); intros Hc;
    try done; by split_and!.
Qed.
End gpio_more.


(** X16, witness: the same run. *)
Lemma pin_is_high_while_a_pulse_is_pending_witness :
  GpioLifecycle.driven
    (GpioLifecycle.run
       [GpioLifecycle.Trigger 100 100 1; GpioLifecycle.WorkerPass (1002 # 10);
        GpioLifecycle.Trigger (1003 # 10) (1003 # 10) 2; GpioLifecycle.WorkerPass 101]
       (LogRateLimit.init 1000, Scenario.bridge0)).2.
Proof.
  apply pin_is_high_while_a_pulse_is_pending.
  - repeat (constructor; [simpl; try exact I; try (vm_compute; discriminate)|]).
    constructor.
  - reflexivity.
  - intros _. vm_compute. discriminate.
Defined.

(** X17, witness: a 500 ms pulse started at 100; the worker looks at
    100.1 and 100.4 and ends it at 100.5. *)
Lemma pulse_lasts_until_its_end_witness :
  let started :=
    (GpioBridge.trigger_pulse 100 100 1 (LogRateLimit.init 1000) Scenario.bridge0).2 in
  let held := GpioLifecycle.worker_passes [1001 # 10; 1004 # 10] started in
  GpioBridge.pin_high held = true ∧
  GpioBridge.pin_high (GpioBridge.pulse_worker_pass (1005 # 10) held) = false.
Proof.
  intros started held.
  destruct (pulse_lasts_until_its_end 100 100 1 (LogRateLimit.init 1000)
              Scenario.bridge0 [1001 # 10; 1004 # 10] (1005 # 10)
              eq_refl eq_refl eq_refl eq_refl)
    as (_ & Hhigh & _ & _ & Hlow & _).
  - split; [reflexivity|discriminate].
  - vm_compute. discriminate.
  - repeat (constructor; [vm_compute; reflexivity|]). constructor.
  - vm_compute. discriminate.
  - split; [exact Hhigh|exact Hlow].
Defined.

(** X18, witness: [cleanup] during a pulse, then a trigger and a pass of
    the worker. *)
Lemma cleanup_leaves_pin_low_for_good_witness :
  let closed := (GpioLifecycle.cleanup true ScenarioMore.bridge_started).1 in
  GpioBridge.pin_high ScenarioMore.bridge_started = true ∧
  GpioBridge.pin_high closed = false ∧
  GpioBridge.pin_high
    (GpioLifecycle.run [GpioLifecycle.Trigger 101 101 1; GpioLifecycle.WorkerPass 102]
       (LogRateLimit.init 1000, closed)).2 = false.
Proof.
  intros closed.
  destruct (cleanup_leaves_pin_low_for_good true ScenarioMore.bridge_started
              [GpioLifecycle.Trigger 101 101 1; GpioLifecycle.WorkerPass 102]
              (LogRateLimit.init 1000) eq_refl eq_refl eq_refl)
    as (_ & Hlow & _ & _ & _ & _ & Hstays & _).
  split; [reflexivity|]. split; [exact Hlow|exact Hstays].
Defined.

(** X19, witness: triggers on a bridge that the configuration disables. *)
Lemma bridge_without_connection_is_inert_witness :
  GpioLifecycle.run [GpioLifecycle.Trigger 100 100 1; GpioLifecycle.WorkerPass 101;
                     GpioLifecycle.Trigger 102 102 2]
    (LogRateLimit.init 1000, ScenarioMore.bridge_disabled)
  = (LogRateLimit.init 1000, ScenarioMore.bridge_disabled).
Proof.
  apply bridge_without_connection_is_inert; reflexivity.
Defined.


(** X20, witness: a bridge built with the GPIO module there, enabled, and a
    [setup] that does not raise. *)
Lemma new_bridge_starts_low_and_attended_witness :
  let self := (GpioLifecycle.init (GpioBridge.mkConf true 500 "extend" false)
                 true true false false).1 in
  GpioBridge.is_connected self = true ∧ GpioBridge.pin_high self = false ∧
  GpioLifecycle.attended self.
Proof.
  intros self.
  destruct (new_bridge_starts_low_and_attended
              (GpioBridge.mkConf true 500 "extend" false) true true false false)
    as [Hconn Hstart].
  destruct (Hstart eq_refl) as (Hlow & _ & _ & Hatt & _).
  split; [exact Hconn|]. split; [exact Hlow|exact Hatt].
Defined.

(* ===================================================================== *)
(** * More on the count handler *)
(* ===================================================================== *)

Section window_more.
Import LogRateLimit DbModule DbQueries WindowMain RuleEngineRuns.

Lemma debounce_run_cons cam area ty d now times w :
  debounce_run cam area ty d (now :: times) w
  = let st := _check_gpio_debounce now cam area ty d w in
    let rest := debounce_run cam area ty d times st.2 in
    (st.1 :: rest.1, rest.2).
Proof.
  simpl. destruct (_check_gpio_debounce now cam area ty d w) as [ok w1]. simpl.
  by destruct (debounce_run cam area ty d times w1).
Qed.

Lemma check_gpio_debounce_last now cam area ty d w :
  let st := _check_gpio_debounce now cam area ty d w in
  let last := default 0%Q (gpio_last_trigger_ts w !! (cam, area, ty)) in
  (st.1 = true → (d <= now - last)%Q ∧
     default 0%Q (gpio_last_trigger_ts st.2 !! (cam, area, ty)) = now) ∧
  (st.1 = false → st.2 = w).
Proof.
  unfold _check_gpio_debounce. cbn zeta.
  destruct (Qlt_le_dec _ _) as [Hlt|Hle]; simpl; [done|].
  split; [|done]. intros _. split; [done|]. by rewrite lookup_insert_eq.
Qed.

Lemma debounce_accept_after_last cam area ty d times w j tj :
  (0 <= d)%Q →
  times !! j = Some tj →
  (debounce_run cam area ty d times w).1 !! j = Some true →
  (d <= tj - default 0%Q (gpio_last_trigger_ts w !! (cam, area, ty)))%Q.
Proof.
  intros Hd. revert w j. induction times as [|now times IH]; intros w j Hj Hok;
    [done|].
  rewrite debounce_run_cons in Hok. cbn zeta in Hok. simpl in Hok.
  destruct (check_gpio_debounce_last now cam area ty d w) as [Hacc Hrej].
  cbn zeta in Hacc, Hrej.
  destruct j as [|j]; simpl in *.
  - injection Hj as <-. injection Hok as Hok. by apply Hacc.
  - specialize (IH _ _ Hj Hok).
    destruct (_check_gpio_debounce now cam area ty d w).1 eqn:E.
    + destruct (Hacc eq_refl) as [H1 H2]. rewrite H2 in IH. lra.
    + by rewrite (Hrej eq_refl) in IH.
Qed.

(** X21.  [_check_gpio_debounce] spaces what it lets through: of the
    calls for one key at any series of clock readings, two that are
    accepted are at least [debounce_sec] apart, and an accepted one is at
    least [debounce_sec] after the instant stored for the key before. *)
Theorem debounce_accepted_calls_are_spaced (cam : string) (area : Z) (ty : string)
    (d : Q) (times : list Q) (w : WindowSum) (i j : nat) (ti tj : Q) :
  (0 <= d)%Q →
  let oks := (debounce_run cam area ty d times w).1 in
  times !! i = Some ti → oks !! i = Some true →
  times !! j = Some tj → oks !! j = Some true →
  (d <= ti - default 0%Q (gpio_last_trigger_ts w !! (cam, area, ty)))%Q ∧
  ((i < j)%nat → (d <= tj - ti)%Q).
Proof.
  intros Hd oks Hi Hoi Hj Hoj. subst oks. split.
  { by eapply debounce_accept_after_last. }
  revert w i j Hi Hoi Hj Hoj. induction times as [|now times IH];
    intros w i j Hi Hoi Hj Hoj Hlt; [done|].
  rewrite debounce_run_cons in Hoi, Hoj. cbn zeta in Hoi, Hoj. simpl in Hoi, Hoj.
  destruct j as [|j]; [lia|]. simpl in *.
  destruct i as [|i]; simpl in *.
  - injection Hi as <-. injection Hoi as Hoi.
    destruct (check_gpio_debounce_last now cam area ty d w) as [Hacc _].
    destruct (Hacc Hoi) as [_ Hlast].
    pose proof (debounce_accept_after_last _ _ _ _ _ _ _ _ Hd Hj Hoj) as Hsp.
    cbn zeta in Hlast. by rewrite Hlast in Hsp.
  - eapply IH; eauto. lia.
Qed.
End window_more.

(** X21, witness: calls at 100, 100.2, 100.3 and 100.5 with a debounce of
    0.3 s; the first and the third are accepted. *)
Lemma debounce_accepted_calls_are_spaced_witness :
  (RuleEngineRuns.debounce_run "cam1" 2 "people" (3 # 10)
     [100; 1002 # 10; 1003 # 10; 1005 # 10]%Q (Scenario.window0 false)).1
  = [true; false; true; false] ∧
  (3 # 10 <= (1003 # 10) - 100)%Q.
Proof.
  split; [vm_compute; reflexivity|].
  destruct (debounce_accepted_calls_are_spaced "cam1" 2 "people" (3 # 10)
              [100; 1002 # 10; 1003 # 10; 1005 # 10]%Q (Scenario.window0 false)
              0 2 100%Q (1003 # 10)%Q) as [_ Hsp].
  - vm_compute. discriminate.
  - reflexivity.
  - vm_compute. reflexivity.
  - reflexivity.
  - vm_compute. reflexivity.
  - apply Hsp. lia.
Defined.

Section handler_frames.
Import LogRateLimit DbModule DbQueries WindowMain RuleEngineRuns.

Lemma kept_refl w : kept w w.
Proof. by repeat split. Qed.

Lemma kept_trans w1 w2 w3 : kept w1 w2 → kept w2 w3 → kept w1 w3.
Proof.
  intros (A1 & A2 & A3 & A4) (B1 & B2 & B3 & B4).
  repeat split; congruence.
Qed.

Lemma add_event_log_kept msg w :
  kept w (add_event_log msg w) ∧ gpio_state (add_event_log msg w) = gpio_state w.
Proof. unfold add_event_log. by destruct (_ && _). Qed.

Lemma people_record_kept clk cam area b c d ev w :
  kept w (people_record clk cam area b c d ev w) ∧
  gpio_state (people_record clk cam area b c d ev w) = gpio_state w.
Proof.
  unfold people_record.
  destruct (0 <? d); [|done].
  destruct (Qlt_le_dec _ _); [done|].
  set (w1 := set_last_event_timestamps _ _).
  destruct (add_event_log_kept (people_message cam area d c) w1) as [K1 G1].
  set (w2 := set_total_events _ _).
  assert (kept w w2 ∧ gpio_state w2 = gpio_state w) as [K2 G2].
  { split; [|exact G1]. eapply kept_trans; [|exact K1]. done. }
  destruct (chk_show_debug w2); [|done].
  match goal with
  | |- context [add_event_log ?m w2] =>
      destruct (add_event_log_kept m w2) as [K3 G3]
  end.
  split; [by eapply kept_trans|congruence].
Qed.

Lemma people_gpio_kept clk cam area d c w :
  kept w (people_gpio clk cam area d c w) ∧
  (is_area_checked cam area w = true →
   gpio_state (people_gpio clk cam area d c w) = gpio_state w).
Proof.
  unfold people_gpio, _check_gpio_debounce, add_gpio_log.
  destruct (is_area_checked cam area w); simpl; [done|].
  split; [|done].
  destruct (Qlt_le_dec _ _); [done|].
  cbn [gpio_bridge _limiter set_gpio_text set_gpio_last_trigger_ts].
  by destruct (GpioBridge.trigger_pulse _ _ _ _ _).
Qed.

Lemma set_area_count_kept cam area c w :
  kept w (set_area_count cam area c w) ∧
  gpio_state (set_area_count cam area c w) = gpio_state w.
Proof.
  unfold set_area_count. destruct (camera_items w !! cam) as [leds|]; [|done].
  by destruct (leds !! area).
Qed.

Lemma ensure_key_lookup {V} (k k' : string) (d : gmap string (gmap Z V)) :
  default ∅ (ensure_key k d !! k') = default ∅ (d !! k').
Proof.
  destruct (decide (k = k')) as [<-|Hne]; [apply ensure_key_default|].
  unfold ensure_key. destruct (d !! k); [done|]. by rewrite lookup_insert_ne.
Qed.

Lemma nested_set_lookup {V} (k k' : string) (a a' : Z) (v : V)
    (d : gmap string (gmap Z V)) :
  default ∅ (nested_set k a v d !! k') !! a'
  = if decide (k = k' ∧ a = a') then Some v else default ∅ (d !! k') !! a'.
Proof.
  unfold nested_set. destruct (decide (k = k')) as [<-|Hc].
  - rewrite lookup_insert_eq. simpl.
    destruct (decide (a = a')) as [<-|Ha].
    + rewrite lookup_insert_eq. by rewrite decide_True.
    + rewrite lookup_insert_ne by done. rewrite decide_False; [done|]. by intros [_ ?].
  - rewrite lookup_insert_ne by done. rewrite decide_False; [done|]. by intros [? _].
Qed.

(** The handler on a dictionary with camera and zone: the result is there,
    and what it is made of. *)
Lemma handle_people_count_shape clk ev w cam area :
  ev_camera_key ev = Some cam → ev_area_id ev = Some area →
  ∃ w', _handle_people_count clk ev w = Some w' ∧
    _closing w' = _closing w ∧ enabled_areas w' = enabled_areas w ∧
    (∀ cam' area', (cam, area) ≠ (cam', area') →
       zone_counts cam' area' w' = zone_counts cam' area' w) ∧
    (gpio_state w' = gpio_state w ∨
     ∃ c b, ev_count ev = Some c ∧ baseline cam area w = Some b ∧ b < c ∧
            is_area_checked cam area w = false ∧ _closing w = false).
Proof.
  intros Hcam Harea. unfold _handle_people_count. rewrite Hcam, Harea.
  cbn [mbind option_bind].
  set (w1 := set_last_people_total (ensure_key cam (_last_people_total w)) w).
  assert (∀ cam' area', zone_counts cam' area' w1 = zone_counts cam' area' w) as Hz1.
  { intros cam' area'. unfold zone_counts, baseline, w1. simpl.
    by rewrite ensure_key_lookup. }
  assert (_closing w1 = _closing w ∧ enabled_areas w1 = enabled_areas w
          ∧ gpio_state w1 = gpio_state w) as (Hc1 & He1 & Hg1) by done.
  assert (baseline cam area w1 = baseline cam area w) as Hb1.
  { specialize (Hz1 cam area). unfold zone_counts in Hz1. congruence. }
  clearbody w1.
  destruct (ev_count ev) as [c|]; [|by exists w1; split_and!; auto].
  destruct (c <? 0); [by exists w1; split_and!; auto|].
  rewrite Hb1.
  set (w2 := set_ui_dirty true (set_realtime_counts _ w1)).
  assert (∀ cam' area', (cam, area) ≠ (cam', area') →
            zone_counts cam' area' w2 = zone_counts cam' area' w) as Hz2.
  { intros cam' area' Hne. rewrite <- Hz1. unfold zone_counts, baseline, w2. simpl.
    f_equal. rewrite nested_set_lookup, ensure_key_lookup.
    rewrite decide_False; [done|]. intros [-> ->]. done. }
  assert (_closing w2 = _closing w ∧ enabled_areas w2 = enabled_areas w
          ∧ gpio_state w2 = gpio_state w) as (Hc2 & He2 & Hg2) by done.
  assert (_last_people_total w2 = _last_people_total w1) as Hl2 by done.
  clearbody w2. clear Hz1.
  assert (∀ v, kept w2 v →
            _closing v = _closing w ∧ enabled_areas v = enabled_areas w ∧
            ∀ cam' area', (cam, area) ≠ (cam', area') →
              zone_counts cam' area' v = zone_counts cam' area' w) as Hkept.
  { intros v (K1 & K2 & K3 & K4). split_and!; [congruence|congruence|].
    intros cam' area' Hne. rewrite <- (Hz2 _ _ Hne).
    unfold zone_counts, baseline. by rewrite K3, K4. }
  assert (∀ v u, kept w2 v →
            _last_people_total u = nested_set cam area c (_last_people_total v) →
            _closing u = _closing v → enabled_areas u = enabled_areas v →
            realtime_counts u = realtime_counts v →
            _closing u = _closing w ∧ enabled_areas u = enabled_areas w ∧
            ∀ cam' area', (cam, area) ≠ (cam', area') →
              zone_counts cam' area' u = zone_counts cam' area' w) as Hset.
  { intros v u Hk Hl Hc He Hr. destruct (Hkept v Hk) as (A1 & A2 & A3).
    split_and!; [congruence|congruence|].
    intros cam' area' Hne. rewrite <- (A3 _ _ Hne).
    unfold zone_counts, baseline. rewrite Hr, Hl. f_equal.
    rewrite nested_set_lookup. rewrite decide_False; [done|].
    intros [-> ->]. done. }
  destruct (baseline cam area w) as [b|] eqn:Hb.
  - set (w3 := if decide (c - b ≠ 0) then _ else w2).
    assert (kept w2 w3 ∧ gpio_state w3 = gpio_state w) as [K3 G3].
    { subst w3. destruct (decide (c - b ≠ 0)); [|split; [apply kept_refl|done]].
      destruct (people_record_kept clk cam area b c (c - b) ev w2) as [K G].
      split; [done|congruence]. }
    clearbody w3.
    assert (_closing w3 = _closing w) as Hc3 by (destruct K3; congruence).
    rewrite Hc3.
    destruct ((0 <? c - b) && _closing w) eqn:Hret.
    + exists w3. destruct (Hkept w3 K3) as (A1 & A2 & A3). split_and!; auto.
    + eexists. split; [reflexivity|].
      set (w4 := if 0 <? c - b then _ else w3).
      assert (kept w3 w4 ∧
              (gpio_state w4 = gpio_state w3 ∨
               (b < c ∧ is_area_checked cam area w = false ∧ _closing w = false)))
        as [K4 G4].
      { subst w4. destruct (0 <? c - b) eqn:Hpos;
          [|split; [apply kept_refl|by left]].
        destruct (people_gpio_kept clk cam area (c - b) c w3) as [K G].
        split; [done|].
        assert (is_area_checked cam area w3 = is_area_checked cam area w) as Hchk.
        { unfold is_area_checked. destruct K3 as (_ & -> & _). by rewrite He2. }
        destruct (is_area_checked cam area w3) eqn:E; [left; by apply G|].
        right. apply Z.ltb_lt in Hpos. simpl in Hret.
        split_and!; [lia|done|done]. }
      clearbody w4.
      set (w5 := set_area_count cam area c w4).
      destruct (set_area_count_kept cam area c w4) as [K5 G5]. fold w5 in K5, G5.
      clearbody w5.
      assert (kept w2 w5) as K25.
      { eapply kept_trans; [exact K3|]. eapply kept_trans; [exact K4|exact K5]. }
      destruct (Hset w5 (set_last_people_total
                           (nested_set cam area c (_last_people_total w5)) w5) K25)
        as (A1 & A2 & A3); try done.
      split_and!; auto.
      destruct G4 as [G4|G4].
      * left. transitivity (gpio_state w5); [done|]. congruence.
      * right. exists c, b. tauto.
  - set (w3 := set_last_people_total _ w2).
    assert (_closing w3 = _closing w ∧ enabled_areas w3 = enabled_areas w ∧
            ∀ cam' area', (cam, area) ≠ (cam', area') →
              zone_counts cam' area' w3 = zone_counts cam' area' w) as (A1 & A2 & A3).
    { apply (Hset w2 w3); by try apply kept_refl. }
    assert (gpio_state w3 = gpio_state w) as G3 by done.
    clearbody w3.
    destruct (chk_show_debug w3).
    + match goal with
      | |- context [add_event_log ?m w3] =>
          destruct (add_event_log_kept m w3) as [(K1 & K2 & K3 & K4) G]
      end.
      eexists. split; [reflexivity|]. split_and!; [congruence|congruence| |left; congruence].
      intros cam' area' Hne. rewrite <- (A3 _ _ Hne).
      unfold zone_counts, baseline. by rewrite K3, K4.
    + exists w3. split_and!; auto.
Qed.

(** X22.  A count event touches its own zone only: for every dictionary
    with camera and zone the handler returns, and the realtime count and
    the baseline of every other zone, of this and of any other camera, are
    what they were. *)
Theorem count_event_touches_its_own_zone_only (clk : clock) (ev : event_data)
    (w : WindowSum) (cam : string) (area : Z) (cam' : string) (area' : Z) :
  ev_camera_key ev = Some cam → ev_area_id ev = Some area →
  (cam, area) ≠ (cam', area') →
  ∃ w', _handle_people_count clk ev w = Some w' ∧
        zone_counts cam' area' w' = zone_counts cam' area' w.
Proof.
  intros Hcam Harea Hne.
  destruct (handle_people_count_shape clk ev w cam area Hcam Harea)
    as (w' & Hw' & _ & _ & Hz & _).
  exists w'. split; [done|]. by apply Hz.
Qed.

End handler_frames.

(** X22, witness: the reading 8 of zone 2 leaves zone 3 alone. *)
Lemma count_event_touches_its_own_zone_only_witness :
  ∃ w', Scenario.snapshot 8 Scenario.window5 = Some w' ∧
        RuleEngineRuns.zone_counts "cam1" 3 w'
        = RuleEngineRuns.zone_counts "cam1" 3 Scenario.window5.
Proof.
  apply (count_event_touches_its_own_zone_only Scenario.clock0
           (WindowMain.people_count_event "cam1" 2 8 1700000000)
           Scenario.window5 "cam1" 2 "cam1" 3 eq_refl eq_refl).
  intros E. discriminate E.
Defined.


Section counts_end_to_end.
Import LogRateLimit DbModule DbQueries WindowMain RuleEngineRuns.





End counts_end_to_end.


(* ===================================================================== *)
(** * The stay alarm *)
(* ===================================================================== *)

Section stay_alarm.
Import LogRateLimit DbModule DbQueries WindowMain StayAlarm RuleEngineRuns.






Lemma stay_gpio_frame clk cam area w :
  db (stay_gpio clk cam area w) = db w ∧
  list_events (stay_gpio clk cam area w) = list_events w ∧
  total_events (stay_gpio clk cam area w) = total_events w ∧
  chk_show_debug (stay_gpio clk cam area w) = chk_show_debug w ∧
  (is_area_checked cam area w = false →
   gpio_state (stay_gpio clk cam area w) = gpio_state w).
Proof.
  unfold stay_gpio, _check_gpio_debounce, add_gpio_log.
  destruct (is_area_checked cam area w); simpl; [|done].
  destruct (Qlt_le_dec _ _); [done|].
  cbn [gpio_bridge _limiter set_gpio_text set_gpio_last_trigger_ts].
  destruct (GpioBridge.trigger_pulse _ _ _ _ _). by split_and!.
Qed.


(** X26.  A Start edge in a window that is not closing always turns the
    alarm of its zone on and arms its clear timer with [stay_hold_ms]; the
    record for the store, the line in the event list and the event counter
    come only when [stay_cooldown_sec] has passed since the last record of
    the zone, and then the instant is stored for the next cooldown. *)
Theorem start_edge_arms_alarm_and_records_under_cooldown (clk : stay_clock)
    (ev : event_data) (w : WindowSum) (s : StayFields) (cam : string) (area : Z) :
  ev_camera_key ev = Some cam → ev_area_id ev = Some area →
  ev_action ev = Some "Start"%string → _closing w = false →
  let last_emit := default 0%Q (stay_last_emit s !! (cam, area, "Start"%string)) in
  ∃ w' s', _handle_stay_alarm clk ev w s = Some (w', s') ∧
    stay_states s' !! (cam, area) = Some true ∧
    _stay_clear_timers s' !! (cam, area) = Some (mkTimer (stay_hold_ms s) true) ∧
    ((s_emit clk - last_emit < inject_Z (stay_cooldown_sec s))%Q →
       db w' = db w ∧ list_events w' = list_events w ∧
       total_events w' = total_events w ∧ stay_last_emit s' = stay_last_emit s) ∧
    ((inject_Z (stay_cooldown_sec s) <= s_emit clk - last_emit)%Q →
       db w' = enqueue_event (s_insert clk)
                 (set_message (stay_message cam area) ev) (db w) ∧
       total_events w' = total_events w + 1 ∧
       stay_last_emit s' !! (cam, area, "Start"%string) = Some (s_emit clk)).
Proof.
  intros Hcam Harea Hact Hcl last_emit. unfold _handle_stay_alarm.
  rewrite Hcam, Harea, Hact, Hcl. cbn [mbind option_bind].
  rewrite decide_True by done.
  destruct (stay_gpio_frame clk cam area w) as (Hdb & Hlist & Htot & _).
  set (w1 := stay_gpio clk cam area w) in *. clearbody w1.
  eexists _, _. split; [by rewrite <- surjective_pairing|].
  unfold stay_record. cbn zeta. fold last_emit.
  destruct (Qlt_le_dec (s_emit clk - last_emit) (inject_Z (stay_cooldown_sec s)))
    as [Hlt|Hle]; cbn [fst snd stay_states _stay_clear_timers stay_last_emit].
  - rewrite !lookup_insert_eq. split_and!; try done. intros Hge. lra.
  - rewrite !lookup_insert_eq. split_and!; try done; [intros Hlt; lra|].
    intros _. fold (stay_message cam area).
    match goal with
    | |- context [add_event_log ?m ?v] =>
        destruct (add_event_log_frame m v) as (A1 & _);
        assert (total_events (add_event_log m v) = total_events v) as A2
          by (unfold add_event_log; by destruct (_ && _))
    end.
    split_and!.
    + cbn [db set_total_events]. rewrite A1. cbn [db set_db]. by rewrite Hdb.
    + cbn [total_events set_total_events]. rewrite A2. cbn [total_events set_db].
      by rewrite Htot.
    + done.
Qed.

End stay_alarm.


(** X26, witness: the first Start edge of zone 2 is recorded. *)
Lemma start_edge_arms_alarm_and_records_under_cooldown_witness :
  ∃ w' s',
    StayAlarm._handle_stay_alarm ScenarioMore.stay_clock0 ScenarioMore.start2
      ScenarioMore.window_checked ScenarioMore.stay0 = Some (w', s') ∧
    StayAlarm.stay_states s' !! ("cam1"%string, 2) = Some true ∧
    WindowMain.total_events w' = WindowMain.total_events ScenarioMore.window_checked + 1.
Proof.
  destruct (start_edge_arms_alarm_and_records_under_cooldown ScenarioMore.stay_clock0
              ScenarioMore.start2 ScenarioMore.window_checked ScenarioMore.stay0
              "cam1" 2 eq_refl eq_refl eq_refl eq_refl)
    as (w' & s' & Hrun & Hon & _ & _ & Hrec).
  exists w', s'. split; [exact Hrun|]. split; [exact Hon|].
  destruct Hrec as (_ & Htot & _); [vm_compute; discriminate|exact Htot].
Defined.


(* ===================================================================== *)
(** * state_manager.py *)
(* ===================================================================== *)

Section state_manager.
Import StateManager.

(** X28.  The check box of a zone reads back as it was set, and setting
    it changes the check box of no other zone: the keys [str(area_id)] of
    different zones are different.  A zone never set reads as unchecked. *)
Theorem area_enabled_reads_back (camera_key : string) (area_id : Z) (enabled : bool)
    (camera_key' : string) (area_id' : Z) (self : StateManager) :
  get_area_enabled camera_key' area_id'
    (set_area_enabled camera_key area_id enabled self)
  = (if decide (camera_key = camera_key' ∧ area_id = area_id') then enabled
     else get_area_enabled camera_key' area_id' self) ∧
  get_area_enabled camera_key area_id (mkState None None ∅ ∅) = false.
Proof.
  split; [|done].
  unfold get_area_enabled, set_area_enabled. simpl.
  destruct (decide (camera_key = camera_key')) as [<-|Hc].
  - rewrite lookup_insert_eq. simpl.
    destruct (decide (area_id = area_id')) as [<-|Ha].
    + rewrite lookup_insert_eq. by rewrite decide_True.
    + rewrite lookup_insert_ne by (intros E; by apply (inj pretty) in E).
      rewrite decide_False; [done|]. by intros [_ ?].
  - rewrite lookup_insert_ne by done. rewrite decide_False; [done|]. by intros [? _].
Qed.

(** X29.  The monitoring flag of a camera reads back as it was set, and
    setting it changes the flag of no other camera;
    [clear_all_monitor_enabled] leaves no camera checked, and
    [set_monitor_enabled_bulk] leaves checked exactly the cameras of the
    list it is given, whatever was checked before. *)
Theorem monitor_flags_read_back (keys_true : list string)
    (camera_key camera_key' : string) (enabled : bool) (self : StateManager) :
  get_monitor_enabled camera_key' (set_monitor_enabled camera_key enabled self)
  = (if decide (camera_key = camera_key') then enabled
     else get_monitor_enabled camera_key' self) ∧
  get_monitor_enabled camera_key (clear_all_monitor_enabled self) = false ∧
  get_monitor_enabled camera_key (set_monitor_enabled_bulk keys_true self)
  = bool_decide (camera_key ∈ keys_true).
Proof.
  unfold get_monitor_enabled, set_monitor_enabled, clear_all_monitor_enabled,
    set_monitor_enabled_bulk. simpl. split_and!.
  - destruct (decide (camera_key = camera_key')) as [<-|Hne].
    + by rewrite lookup_insert_eq.
    + by rewrite lookup_insert_ne.
  - by rewrite lookup_empty.
  - induction keys_true as [|k keys IH].
    + rewrite fmap_nil, list_to_map_nil, lookup_empty.
      by rewrite bool_decide_eq_false_2 by apply not_elem_of_nil.
    + rewrite fmap_cons, list_to_map_cons.
      destruct (decide (k = camera_key)) as [->|Hne].
      * rewrite lookup_insert_eq. by rewrite bool_decide_eq_true_2 by left.
      * rewrite lookup_insert_ne by done. rewrite IH.
        apply bool_decide_ext. rewrite elem_of_cons.
        split; [by right|]. intros [E|Hin]; [by subst|done].
Qed.

(** X30.  [cleanup_camera_state] forgets the camera and nothing else: its
    zones read as unchecked, it is not monitored and it is not the last
    selected camera, while the zones and the monitoring of every other
    camera read as before. *)
Theorem cleanup_camera_state_forgets_the_camera_only (camera_key : string)
    (self : StateManager) (camera_key' : string) (area_id : Z) :
  let self' := cleanup_camera_state camera_key self in
  get_area_enabled camera_key area_id self' = false ∧
  get_monitor_enabled camera_key self' = false ∧
  last_camera_key self' ≠ Some camera_key ∧
  (camera_key' ≠ camera_key →
   get_area_enabled camera_key' area_id self'
   = get_area_enabled camera_key' area_id self ∧
   get_monitor_enabled camera_key' self' = get_monitor_enabled camera_key' self ∧
   (last_camera_key self = Some camera_key' →
    last_camera_key self' = last_camera_key self ∧
    last_area_id self' = last_area_id self)).
Proof.
  intros self'. subst self'. unfold cleanup_camera_state. cbn zeta.
  unfold get_area_enabled, get_monitor_enabled.
  destruct (decide (last_camera_key self = Some camera_key)) as [Hlast|Hlast];
    cbn [enabled_areas monitor_enabled last_camera_key last_area_id];
    rewrite !lookup_delete_eq; (split_and!; try done);
    intros Hne; rewrite !lookup_delete_ne by done; (split_and!; try done).
  intros Hl. congruence.
Qed.
End state_manager.

(** X30, witness: forgetting "cam1" leaves the check box of "cam2" as it is. *)
Lemma cleanup_camera_state_forgets_the_camera_only_witness :
  let self := StateManager.set_area_enabled "cam2" 1 true
                (StateManager.set_area_enabled "cam1" 2 true
                   (StateManager.mkState (Some "cam1"%string) (Some 2) ∅ ∅)) in
  let self' := StateManager.cleanup_camera_state "cam1" self in
  StateManager.get_area_enabled "cam1" 2 self = true ∧
  StateManager.get_area_enabled "cam1" 2 self' = false ∧
  StateManager.get_area_enabled "cam2" 1 self' = true ∧
  StateManager.last_camera_key self' = None.
Proof.
  intros self self'.
  destruct (cleanup_camera_state_forgets_the_camera_only "cam1" self "cam2" 2)
    as (Hgone & _ & _ & _).
  destruct (cleanup_camera_state_forgets_the_camera_only "cam1" self "cam2" 1)
    as (_ & _ & _ & Hother).
  destruct Hother as (Hkept & _ & _); [discriminate|].
  split; [reflexivity|]. split; [exact Hgone|]. split; [|reflexivity].
  etransitivity; [exact Hkept|reflexivity].
Defined.
